(** * MWPToolkit trainers: a shallow embedding of [mwptoolkit/trainer/trainer.py]

    The trainers of the toolkit drive opaque collaborators (the neural model,
    the data loader, the evaluator, the losses).  The development below
    embeds the control logic of the trainers: the vocabulary re-indexing,
    the evaluation runner, the [fit] loops, the check-pointing, the optimizer
    topology of the tree decoder and the policy-gradient reward of the
    adversarial trainer.  Python exceptions are explicit outcomes, the
    mutable trainer object and the files it writes are explicit state, and
    Python dictionaries are finite maps with string keys. *)

From Stdlib Require Import ZArith QArith Qpower String List Lia.
From stdpp Require Import base option list gmap strings.
Import ListNotations.

Local Open Scope string_scope.
Local Open Scope Z_scope.
Local Open Scope list_scope.

(** ** Python exceptions and outcomes *)

(** The exceptions, each with what identifies it: the key, the attribute,
    the path; for [TypeError] and [RuntimeError] a tag of the cause, not the
    text of the interpreter's message. *)
Inductive exn : Type :=
| ZeroDivisionError
| IndexError
| KeyError (key : string)
| AttributeError (name : string)
| TypeError (msg : string)
| FileNotFoundError (path : string)
| RuntimeError (msg : string).

Inductive outcome (A : Type) : Type :=
| Return (a : A)
| Raise (e : exn).
Arguments Return {A} a.
Arguments Raise {A} e.

Definition raised {A} (o : outcome A) : Prop :=
  match o with Return _ => False | Raise _ => True end.

#[global] Instance outcome_ret : MRet outcome := fun _ a => Return a.
#[global] Instance outcome_bind : MBind outcome := fun _ _ f o =>
  match o with
  | Return a => f a
  | Raise e => Raise e
  end.

(** [for x in xs: ys.append(f x)], stopping at the first exception. *)
Fixpoint for_collect {A B} (f : A -> outcome B) (xs : list A) : outcome (list B) :=
  match xs with
  | [] => Return []
  | x :: xs' =>
      match f x with
      | Return y =>
          match for_collect f xs' with
          | Return ys => Return (y :: ys)
          | Raise e => Raise e
          end
      | Raise e => Raise e
      end
  end.

(** [range(n)] for a size [n]. *)
Definition range (n : nat) : list nat := seq 0 n.

(** [l[i]] on a Python list: negative indices count from the end, anything
    outside [-len, len) raises [IndexError]. *)
Definition list_getitem {A} (l : list A) (i : Z) : outcome A :=
  let n := Z.of_nat (length l) in
  let j := if i <? 0 then i + n else i in
  if (0 <=? j) && (j <? n)
  then match l !! Z.to_nat j with
       | Some x => Return x
       | None => Raise IndexError
       end
  else Raise IndexError.

(** [d[k]] on a Python dict with string keys. *)
Definition dict_getitem {V} (d : gmap string V) (k : string) : outcome V :=
  match d !! k with
  | Some v => Return v
  | None => Raise (KeyError k)
  end.

(** ** Vocabulary re-indexing *)

(** A two-dimensional tensor of token indices, read through [t[b, idx]]. *)
Record tensor2 : Type := Tensor2 {
  size0 : nat;
  size1 : nat;
  item : nat -> nat -> Z
}.

(** [torch.LongTensor(rows)] on a nested list of equal-length rows, and the
    row [t[b]]. *)
Definition LongTensor (rows : list (list Z)) : tensor2 :=
  {| size0 := length rows;
     size1 := match rows with [] => 0%nat | r :: _ => length r end;
     item := fun b idx => nth idx (nth b rows []) 0 |}.

Definition row (t : tensor2) (b : nat) : list Z :=
  map (item t b) (seq 0 (size1 t)).

(** [t.tolist()]. *)
Definition tolist (t : tensor2) : list (list Z) :=
  map (row t) (seq 0 (size0 t)).

(** The vocabulary attributes of [dataloader.dataset] that the trainers read:
    [in_idx2word] is the list of input words by index, [out_symbol2idx] the
    dictionary from output symbols to their indices. *)
Record dataset : Type := Dataset {
  in_idx2word : list string;
  out_symbol2idx : gmap string Z
}.

(** [Trainer._idx2word_2idx] (repeated verbatim in the single-equation,
    multi-equation and transformer trainers). *)
Definition _idx2word_2idx (ds : dataset) (batch_equation : tensor2) : outcome tensor2 :=
  let batch_size := size0 batch_equation in
  let length := size1 batch_equation in
  batch_equation_ ← for_collect (fun b =>
    for_collect (fun idx =>
      word ← list_getitem (in_idx2word ds) (item batch_equation b idx);
      dict_getitem (out_symbol2idx ds) word)
    (range length))
  (range batch_size);
  Return (LongTensor batch_equation_).

(** ** The collaborators and the trainer machine *)

(** [DatasetType]: the splits served by the data loader. *)
Inductive DatasetType : Type := Train | Valid | Test.

(** The collaborators the trainers drive but do not own.  The state of the
    model (its parameters with their gradients, which [state_dict()] saves
    and [load_state_dict] restores), of an optimizer, of a scheduler and of a
    loss object are opaque values; the data loader yields the batches of a
    split; [time_since] is the stopwatch, read through a counter of the
    machine.  Accuracies, losses and learning rates are Python floats; they
    are embedded as rationals, the accuracies in lowest terms.  [int_truediv]
    is [int(a / b)] on two integers, whose quotient the interpreter takes in
    floating point: it is the integer quotient only as far as floats are
    exact, and is left to the interpreter.  The placement of tensors on
    [config["device"]] is left out. *)
Class Backend : Type := {
  weights : Type;
  optim_state : Type;
  sched_state : Type;
  loss_state : Type;
  batch : Type;
  output : Type;
  load_data : DatasetType -> list batch;
  trainset_nums : N;
  int_truediv : N -> positive -> Z;
  equation : batch -> tensor2;
  time_since : nat -> string
}.

(** The recognised options of [config]. *)
Record config : Type := Config {
  checkpoint_path : string;
  trained_model_path : string;
  resume : bool;
  share_vocab : bool;
  epoch_nums : Z;
  train_batch_size : positive;
  learning_rate : Q;
  weight_decay : Q;
  step_size : Z;
  out_pad_token : Z
}.

(** Lines of the log stream, and a marker for each entry into [evaluate]. *)
Inductive event : Type :=
| EpochLog (epoch_i : Z) (loss_total : Q) (train_batch_nums : Z) (train_time_cost : string)
| LrEpochLog (epoch_i : Z) (loss_total : Q) (train_batch_nums : Z) (train_time_cost : string)
             (lr : Q)
| GanEpochLog (epoch_i : Z) (g_loss_total d_loss_total : Q) (train_batch_nums : Z)
              (train_time_cost : string)
| PretrainLog (phase : string) (epoch : Z) (loss_total : Q) (train_batch_nums : Z)
| ValidLog (valid_total : Z) (valid_equ_ac valid_val_ac : Q) (valid_time_cost : string)
| TestLog (test_total : Z) (test_equ_ac test_val_ac : Q) (test_time_cost : string)
| FinishedLog (valid_equ valid_value test_equ test_value : Q)
| Evaluating (eval_set : DatasetType).

Section Machine.
Context `{B : Backend}.

(** Values stored in a check-point dictionary or held by an attribute. *)
Inductive pyval : Type :=
| PyInt (n : Z)
| PyFloat (x : Q)
| PyModel (w : weights)
| PyOptim (o : optim_state)
| PySched (s : sched_state)
| PyObject (name : string).

(** A dictionary display [{k1: v1, k2: v2, ...}]: the items are stored
    from left to right, a repeated key keeps its last value. *)
Definition dict_display (items : list (string * pyval)) : gmap string pyval :=
  fold_left (fun d kv => <[kv.1 := kv.2]> d) items ∅.

(** The machine a trainer of type [T] runs on: the trainer object, the
    files written by [torch.save], the log stream and the stopwatch. *)
Record machine (T : Type) : Type := Machine {
  self : T;
  files : gmap string (gmap string pyval);
  log : list event;
  clock : nat
}.
Arguments Machine {T}.
Arguments self {T}.
Arguments files {T}.
Arguments log {T}.
Arguments clock {T}.

(** A method body: it runs on the machine and either returns or raises;
    what it did to the machine before raising stays done. *)
Definition prog (T A : Type) : Type := machine T -> outcome A * machine T.

Definition ret {T A} (a : A) : prog T A := fun m => (Return a, m).

Definition raise {T A} (e : exn) : prog T A := fun m => (Raise e, m).

Definition bind {T A C} (c : prog T A) (k : A -> prog T C) : prog T C :=
  fun m =>
    match c m with
    | (Return a, m') => k a m'
    | (Raise e, m') => (Raise e, m')
    end.

Definition lift {T A} (o : outcome A) : prog T A := fun m => (o, m).

Definition get_self {T} : prog T T := fun m => (Return (self m), m).

Definition put_self {T} (t : T) : prog T unit := fun m =>
  (Return tt, {| self := t; files := files m; log := log m; clock := clock m |}).

Definition emit {T} (e : event) : prog T unit := fun m =>
  (Return tt, {| self := self m; files := files m; log := log m ++ [e]; clock := clock m |}).

(** [time_since(time.time() - start)]: one reading of the stopwatch. *)
Definition elapsed {T} : prog T string := fun m =>
  (Return (time_since (clock m)),
   {| self := self m; files := files m; log := log m; clock := S (clock m) |}).

(** [torch.save(obj, path)] and [torch.load(path)]. *)
Definition torch_save {T} (obj : gmap string pyval) (path : string) : prog T unit :=
  fun m =>
    (Return tt,
     {| self := self m; files := <[path := obj]> (files m); log := log m; clock := clock m |}).

Definition torch_load {T} (path : string) : prog T (gmap string pyval) := fun m =>
  match files m !! path with
  | Some obj => (Return obj, m)
  | None => (Raise (FileNotFoundError path), m)
  end.

(** [for x in xs: body(x)]. *)
Fixpoint for_each {T A} (xs : list A) (body : A -> prog T unit) : prog T unit :=
  match xs with
  | [] => ret tt
  | x :: xs' => bind (body x) (fun _ => for_each xs' body)
  end.

(** [for x in xs: acc = body(acc, x)]. *)
Fixpoint for_fold {T A S} (xs : list A) (body : S -> A -> prog T S) (acc : S) : prog T S :=
  match xs with
  | [] => ret acc
  | x :: xs' => bind (body acc x) (fun acc' => for_fold xs' body acc')
  end.

(** [range(start, stop)] on integers. *)
Definition range_from (start stop : Z) : list Z :=
  map (fun i => start + Z.of_nat i) (seq 0 (Z.to_nat (stop - start))).

End Machine.

Arguments Machine {B T}.
Arguments self {B T}.
Arguments files {B T}.
Arguments log {B T}.
Arguments clock {B T}.

Declare Scope prog_scope.
Delimit Scope prog_scope with prog.
Notation "x <- c ;; k" := (bind c (fun x => k))
  (at level 100, c at next level, right associativity) : prog_scope.
Notation "c ;; k" := (bind c (fun _ => k))
  (at level 100, right associativity) : prog_scope.

Local Open Scope prog_scope.

Section Evaluation.
Context `{B : Backend}.

(** What a check-point entry must be to be loaded into its destination. *)
Definition as_model (v : pyval) : outcome weights :=
  match v with PyModel w => Return w | _ => Raise (TypeError "state_dict") end.
Definition as_optim (v : pyval) : outcome optim_state :=
  match v with PyOptim o => Return o | _ => Raise (TypeError "state_dict") end.
Definition as_sched (v : pyval) : outcome sched_state :=
  match v with PySched s => Return s | _ => Raise (TypeError "state_dict") end.

Definition as_int (v : pyval) : outcome Z :=
  match v with PyInt n => Return n | _ => Raise (TypeError "int") end.
Definition as_float (v : pyval) : outcome Q :=
  match v with PyFloat x => Return x | _ => Raise (TypeError "float") end.

(** [a / b] on non-negative counts, a float. *)
Definition truediv (a b : nat) : outcome Q :=
  match b with
  | O => Raise ZeroDivisionError
  | S _ => Return (Qred (Z.of_nat a # Pos.of_nat b))
  end.

(** [xs.count(True)]. *)
Definition count_true (xs : list bool) : nat := length (filter (fun b => Is_true b) xs).

(** [int(self.dataloader.trainset_nums / train_batch_size) + 1]. *)
Definition train_batch_nums_of (cfg : config) : Z :=
  int_truediv trainset_nums (train_batch_size cfg) + 1.

(** [check_pnt[key]], then the load of the entry into its destination. *)
Definition entry {T A} (check_pnt : gmap string pyval) (key : string)
    (as_ : pyval -> outcome A) : prog T A :=
  v <- lift (dict_getitem check_pnt key) ;; lift (as_ v).

(** The body shared by every [evaluate]: the counters, the loop over the
    batches of the split, the stopwatch, the two divisions.  [eval_batch]
    is the [_eval_batch] of the trainer at its current model. *)
Definition evaluate_loop {T}
    (eval_batch : batch -> outcome (list bool * list bool))
    (eval_set : DatasetType) : prog T (Q * Q * Z * string) :=
  emit (Evaluating eval_set) ;;
  acc <- for_fold (load_data eval_set)
           (fun (acc : nat * nat * nat) b =>
              r <- lift (eval_batch b) ;;
              ret ((acc.1.1 + count_true r.1)%nat,
                   (acc.1.2 + count_true r.2)%nat,
                   (acc.2 + length r.1)%nat))
           (0%nat, 0%nat, 0%nat) ;;
  let value_ac := acc.1.1 in
  let equation_ac := acc.1.2 in
  let eval_total := acc.2 in
  test_time_cost <- elapsed ;;
  equ <- lift (truediv equation_ac eval_total) ;;
  val <- lift (truediv value_ac eval_total) ;;
  ret (equ, val, Z.of_nat eval_total, test_time_cost).
End Evaluation.

(** ** [Trainer], and its copies [SingleEquationTrainer] and [MultiEquationTrainer] *)

(** What the single-optimizer trainers ask of the model, the loss, the
    optimizer and the evaluator. *)
Class SeqOps `{B : Backend} : Type := {
  logits : Type;
  (** [self.model.zero_grad()] *)
  model_zero_grad : weights -> weights;
  (** [self.model(batch["question"], batch["ques len"], batch["equation"])] *)
  model_train : weights -> batch -> outcome logits;
  (** [self.loss.eval_batch(outputs, target.view(-1))] *)
  loss_eval_batch : loss_state -> logits -> tensor2 -> outcome loss_state;
  (** [self.loss.get_loss()] *)
  loss_get_loss : loss_state -> Q;
  (** [self.loss.backward()], which leaves the gradients in the model *)
  loss_backward : loss_state -> weights -> outcome weights;
  (** [self.optimizer.step()] *)
  optimizer_step : weights -> optim_state -> outcome (weights * optim_state);
  (** [self.loss.reset()] *)
  loss_reset : loss_state -> loss_state;
  (** [self.model(batch["question"], batch["ques len"])] *)
  model_infer : weights -> batch -> outcome (list output);
  (** [self.evaluator.result(test_out[idx], target[idx], batch["num list"][idx],
      batch["num stack"][idx])], its first two components *)
  evaluator_result : output -> list Z -> batch -> nat -> outcome (bool * bool)
}.

Module Trainer.
Section WithBackend.
Context `{O : SeqOps}.
Variable ds : dataset.
Variable cfg : config.

(** The attributes of the trainer object that the methods read and write.
    [model] is the state dictionary of [self.model] and [training] its mode,
    set by [self.model.train()] and [self.model.eval()]; [optimizer] is the
    state dictionary of [self.optimizer]; [train_batch_nums] is the attribute
    that [fit] creates ([None]: no such attribute). *)
Record state : Type := State {
  model : weights;
  optimizer : optim_state;
  best_valid_equ_accuracy : Q;
  best_valid_value_accuracy : Q;
  best_test_equ_accuracy : Q;
  best_test_value_accuracy : Q;
  start_epoch : Z;
  epoch_i : Z;
  batch_idx : option Z;
  training : bool;
  loss : loss_state;
  train_batch_nums : option Z
}.

(** The trainer object that the constructor builds when it loads no
    check-point: [AbstractTrainer.__init__], [_build_optimizer] and
    [_build_loss], from the model, the fresh optimizer and the fresh loss
    object. *)
Definition init (w : weights) (o : optim_state) (l : loss_state) : state :=
  {| model := w; optimizer := o;
     best_valid_equ_accuracy := 0; best_valid_value_accuracy := 0;
     best_test_equ_accuracy := 0; best_test_value_accuracy := 0;
     start_epoch := 0; epoch_i := 0; batch_idx := None; training := true;
     loss := l;
     train_batch_nums := None |}.

(** The instance dictionary together with the names the class defines:
    [getattr] raises [AttributeError] on any other name. *)
Definition attributes (t : state) : gmap string pyval :=
  dict_display
    [("config", PyObject "config"); ("dataloader", PyObject "dataloader");
     ("evaluator", PyObject "evaluator"); ("logger", PyObject "logger");
     ("loss", PyObject "loss"); ("train_batch_nums", PyObject "int");
     ("batch_idx", PyObject "int");
     ("_save_checkpoint", PyObject "method"); ("_load_checkpoint", PyObject "method");
     ("_save_model", PyObject "method"); ("_load_model", PyObject "method");
     ("_build_optimizer", PyObject "method"); ("_build_loss", PyObject "method");
     ("_idx2word_2idx", PyObject "method"); ("_train_batch", PyObject "method");
     ("_eval_batch", PyObject "method"); ("_train_epoch", PyObject "method");
     ("fit", PyObject "method"); ("evaluate", PyObject "method");
     ("test", PyObject "method");
     ("model", PyModel (model t)); ("optimizer", PyOptim (optimizer t));
     ("best_valid_equ_accuracy", PyFloat (best_valid_equ_accuracy t));
     ("best_valid_value_accuracy", PyFloat (best_valid_value_accuracy t));
     ("best_test_equ_accuracy", PyFloat (best_test_equ_accuracy t));
     ("best_test_value_accuracy", PyFloat (best_test_value_accuracy t));
     ("start_epoch", PyInt (start_epoch t)); ("epoch_i", PyInt (epoch_i t))].

Definition getattr (t : state) (name : string) : outcome pyval :=
  match attributes t !! name with
  | Some v => Return v
  | None => Raise (AttributeError name)
  end.

(** An attribute of a float, an int or an opaque object: none of the names
    the trainers use is one. *)
Definition getattr_value (v : pyval) (name : string) : outcome pyval :=
  Raise (AttributeError name).

Definition with_model (w : weights) (o : optim_state) (t : state) : state :=
  {| model := w; optimizer := o;
     best_valid_equ_accuracy := best_valid_equ_accuracy t;
     best_valid_value_accuracy := best_valid_value_accuracy t;
     best_test_equ_accuracy := best_test_equ_accuracy t;
     best_test_value_accuracy := best_test_value_accuracy t;
     start_epoch := start_epoch t; epoch_i := epoch_i t; batch_idx := batch_idx t;
     training := training t; loss := loss t;
     train_batch_nums := train_batch_nums t |}.

Definition with_best (valid_equ valid_value test_equ test_value : Q) (t : state) : state :=
  {| model := model t; optimizer := optimizer t;
     best_valid_equ_accuracy := valid_equ;
     best_valid_value_accuracy := valid_value;
     best_test_equ_accuracy := test_equ;
     best_test_value_accuracy := test_value;
     start_epoch := start_epoch t; epoch_i := epoch_i t; batch_idx := batch_idx t;
     training := training t; loss := loss t;
     train_batch_nums := train_batch_nums t |}.

Definition with_start_epoch (n : Z) (t : state) : state :=
  {| model := model t; optimizer := optimizer t;
     best_valid_equ_accuracy := best_valid_equ_accuracy t;
     best_valid_value_accuracy := best_valid_value_accuracy t;
     best_test_equ_accuracy := best_test_equ_accuracy t;
     best_test_value_accuracy := best_test_value_accuracy t;
     start_epoch := n; epoch_i := epoch_i t; batch_idx := batch_idx t;
     training := training t; loss := loss t;
     train_batch_nums := train_batch_nums t |}.

Definition with_epoch_i (n : Z) (t : state) : state :=
  {| model := model t; optimizer := optimizer t;
     best_valid_equ_accuracy := best_valid_equ_accuracy t;
     best_valid_value_accuracy := best_valid_value_accuracy t;
     best_test_equ_accuracy := best_test_equ_accuracy t;
     best_test_value_accuracy := best_test_value_accuracy t;
     start_epoch := start_epoch t; epoch_i := n; batch_idx := batch_idx t;
     training := training t; loss := loss t;
     train_batch_nums := train_batch_nums t |}.

Definition with_batch_idx (n : Z) (t : state) : state :=
  {| model := model t; optimizer := optimizer t;
     best_valid_equ_accuracy := best_valid_equ_accuracy t;
     best_valid_value_accuracy := best_valid_value_accuracy t;
     best_test_equ_accuracy := best_test_equ_accuracy t;
     best_test_value_accuracy := best_test_value_accuracy t;
     start_epoch := start_epoch t; epoch_i := epoch_i t; batch_idx := Some n;
     training := training t; loss := loss t;
     train_batch_nums := train_batch_nums t |}.

Definition with_training (mode : bool) (t : state) : state :=
  {| model := model t; optimizer := optimizer t;
     best_valid_equ_accuracy := best_valid_equ_accuracy t;
     best_valid_value_accuracy := best_valid_value_accuracy t;
     best_test_equ_accuracy := best_test_equ_accuracy t;
     best_test_value_accuracy := best_test_value_accuracy t;
     start_epoch := start_epoch t; epoch_i := epoch_i t; batch_idx := batch_idx t;
     training := mode; loss := loss t;
     train_batch_nums := train_batch_nums t |}.

Definition with_loss (l : loss_state) (t : state) : state :=
  {| model := model t; optimizer := optimizer t;
     best_valid_equ_accuracy := best_valid_equ_accuracy t;
     best_valid_value_accuracy := best_valid_value_accuracy t;
     best_test_equ_accuracy := best_test_equ_accuracy t;
     best_test_value_accuracy := best_test_value_accuracy t;
     start_epoch := start_epoch t; epoch_i := epoch_i t; batch_idx := batch_idx t;
     training := training t; loss := l;
     train_batch_nums := train_batch_nums t |}.

Definition with_train_batch_nums (n : Z) (t : state) : state :=
  {| model := model t; optimizer := optimizer t;
     best_valid_equ_accuracy := best_valid_equ_accuracy t;
     best_valid_value_accuracy := best_valid_value_accuracy t;
     best_test_equ_accuracy := best_test_equ_accuracy t;
     best_test_value_accuracy := best_test_value_accuracy t;
     start_epoch := start_epoch t; epoch_i := epoch_i t; batch_idx := batch_idx t;
     training := training t; loss := loss t;
     train_batch_nums := Some n |}.

(** [self.field = value], or a method call that changes the object held by
    a field. *)
Definition assign (f : state -> state) : prog state unit :=
  t <- get_self ;; put_self (f t).

Definition _save_checkpoint : prog state unit :=
  t <- get_self ;;
  let check_pnt := dict_display
    [("model", PyModel (model t));
     ("optimizer", PyOptim (optimizer t));
     ("start_epoch", PyInt (epoch_i t));
     ("best_valid_value_accuracy", PyFloat (best_valid_value_accuracy t));
     ("best_valid_equ_accuracy", PyFloat (best_valid_equ_accuracy t));
     ("best_test_value_accuracy", PyFloat (best_test_value_accuracy t));
     ("best_test_equ_accuracy", PyFloat (best_test_equ_accuracy t))] in
  torch_save check_pnt (checkpoint_path cfg).

Definition _load_checkpoint : prog state unit :=
  check_pnt <- torch_load (checkpoint_path cfg) ;;
  w <- entry check_pnt "model" as_model ;;
  assign (fun t => with_model w (optimizer t) t) ;;
  o <- entry check_pnt "optimizer" as_optim ;;
  assign (fun t => with_model (model t) o t) ;;
  n <- entry check_pnt "start_epoch" as_int ;;
  assign (with_start_epoch n) ;;
  x <- entry check_pnt "best_valid_value_accuracy" as_float ;;
  assign (fun t => with_best (best_valid_equ_accuracy t) x
                     (best_test_equ_accuracy t) (best_test_value_accuracy t) t) ;;
  x <- entry check_pnt "best_valid_equ_accuracy" as_float ;;
  assign (fun t => with_best x (best_valid_value_accuracy t)
                     (best_test_equ_accuracy t) (best_test_value_accuracy t) t) ;;
  x <- entry check_pnt "best_test_value_accuracy" as_float ;;
  assign (fun t => with_best (best_valid_equ_accuracy t) (best_valid_value_accuracy t)
                     (best_test_equ_accuracy t) x t) ;;
  x <- entry check_pnt "best_test_equ_accuracy" as_float ;;
  assign (fun t => with_best (best_valid_equ_accuracy t) (best_valid_value_accuracy t)
                     x (best_test_value_accuracy t) t).

(** [AbstractTrainer._save_model] and [_load_model]. *)
Definition _save_model : prog state unit :=
  t <- get_self ;;
  let state_dict := dict_display [("model", PyModel (model t))] in
  torch_save state_dict (trained_model_path cfg).

Definition _load_model : prog state unit :=
  state_dict <- torch_load (trained_model_path cfg) ;;
  w <- entry state_dict "model" as_model ;;
  assign (fun t => with_model w (optimizer t) t).

(** [PAD_TOKEN], a constant imported from [mwptoolkit.utils.enum_type]. *)
Variable PAD_TOKEN : string.

(** [Trainer.__init__].  After the check-point is loaded, [_build_loss] is
    called on the index of the padding symbol in the output vocabulary,
    whose look-up raises [KeyError] when the vocabulary has no such symbol.
    [l] is the loss object that [_build_loss] then builds; nothing reads it
    before, and a constructor that raises leaves no trainer behind, so the
    trainer holds it from the start. *)
Definition __init__ (w : weights) (o : optim_state) (l : loss_state) : prog state unit :=
  put_self (init w o l) ;;
  (if resume cfg then _load_checkpoint else ret tt) ;;
  pad <- lift (dict_getitem (out_symbol2idx ds) PAD_TOKEN) ;;
  ret tt.

(** The target of a batch: re-indexed when the vocabularies are shared. *)
Definition target_of (b : batch) : outcome tensor2 :=
  if share_vocab cfg then _idx2word_2idx ds (equation b) else Return (equation b).

Definition _train_batch (b : batch) : prog state Q :=
  t <- get_self ;;
  outputs <- lift (model_train (model t) b) ;;
  batch_equation <- lift (target_of b) ;;
  l <- lift (loss_eval_batch (loss t) outputs batch_equation) ;;
  assign (with_loss l) ;;
  let batch_loss := loss_get_loss l in
  ret batch_loss.

Definition _eval_batch (w : weights) (b : batch) : outcome (list bool * list bool) :=
  test_out ← model_infer w b;
  target ← target_of b;
  let batch_size := size0 target in
  acs ← for_collect (fun idx =>
           out ← list_getitem test_out (Z.of_nat idx);
           evaluator_result out (row target idx) b idx)
         (range batch_size);
  Return (map fst acs, map snd acs).

Definition _train_epoch : prog state (Q * string) :=
  let loss_total := 0%Q in
  assign (with_training true) ;;
  loss_total <- for_fold (imap (fun i b => (Z.of_nat i, b)) (load_data Train))
    (fun (loss_total : Q) ib =>
       assign (with_batch_idx (ib.1 + 1)) ;;
       assign (fun t => with_model (model_zero_grad (model t)) (optimizer t) t) ;;
       batch_loss <- _train_batch ib.2 ;;
       let loss_total := (loss_total + batch_loss)%Q in
       t <- get_self ;;
       w <- lift (loss_backward (loss t) (model t)) ;;
       assign (fun t => with_model w (optimizer t) t) ;;
       t <- get_self ;;
       wo <- lift (optimizer_step (model t) (optimizer t)) ;;
       assign (with_model wo.1 wo.2) ;;
       assign (fun t => with_loss (loss_reset (loss t)) t) ;;
       ret loss_total)
    loss_total ;;
  epoch_time_cost <- elapsed ;;
  ret (loss_total, epoch_time_cost).

Definition evaluate (eval_set : DatasetType) : prog state (Q * Q * Z * string) :=
  assign (with_training false) ;;
  t <- get_self ;;
  evaluate_loop (_eval_batch (model t)) eval_set.

(** Lines 175-189 of [fit]: the two evaluations and the book-keeping of
    the best accuracies. *)
Definition evaluation_point : prog state unit :=
  v <- evaluate Valid ;;
  let '(valid_equ_ac, valid_val_ac, valid_total, valid_time_cost) := v in
  emit (ValidLog valid_total valid_equ_ac valid_val_ac valid_time_cost) ;;
  r <- evaluate Test ;;
  let '(test_equ_ac, test_val_ac, test_total, test_time_cost) := r in
  emit (TestLog test_total test_equ_ac test_val_ac test_time_cost) ;;
  t <- get_self ;;
  if Qle_bool (best_valid_value_accuracy t) valid_val_ac
  then
    assign (fun t => with_best (best_valid_equ_accuracy t) valid_val_ac
                       (best_test_equ_accuracy t) (best_test_value_accuracy t) t) ;;
    assign (fun t => with_best valid_equ_ac (best_valid_value_accuracy t)
                       (best_test_equ_accuracy t) (best_test_value_accuracy t) t) ;;
    assign (fun t => with_best (best_valid_equ_accuracy t) (best_valid_value_accuracy t)
                       (best_test_equ_accuracy t) test_val_ac t) ;;
    assign (fun t => with_best (best_valid_equ_accuracy t) (best_valid_value_accuracy t)
                       test_equ_ac (best_test_value_accuracy t) t) ;;
    _save_model
  else ret tt.

(** The body of the epoch loop of [fit].  The epoch line divides by
    [self.train_batch_nums], which [fit] sets before the loop and nothing
    assigns afterwards: the line carries the value that [fit] set. *)
Definition fit_epoch (epo : Z) : prog state unit :=
  assign (with_epoch_i (epo + 1)) ;;
  assign (with_training true) ;;
  r <- _train_epoch ;;
  t <- get_self ;;
  emit (EpochLog (epoch_i t) r.1 (train_batch_nums_of cfg) r.2) ;;
  (if (epo mod 2 =? 0) || (epo >? epoch_nums cfg - 5)
   then evaluation_point else ret tt) ;;
  (if epo mod 5 =? 0 then _save_checkpoint else ret tt).

(** The four-place format string of the summary line applied to a tuple
    of values. *)
Definition format_summary (args : list pyval) : prog state unit :=
  match args with
  | [PyFloat a; PyFloat b; PyFloat c; PyFloat d] => emit (FinishedLog a b c d)
  | _ => raise (TypeError "format string")
  end.

(** The summary line: its arguments are evaluated from left to right, the
    third is [self.best_test_equ_accuracyself.best_test_value_accuracy]. *)
Definition summary : prog state unit :=
  t <- get_self ;;
  a <- lift (getattr t "best_valid_equ_accuracy") ;;
  b <- lift (getattr t "best_valid_value_accuracy") ;;
  o <- lift (getattr t "best_test_equ_accuracyself") ;;
  c <- lift (getattr_value o "best_test_value_accuracy") ;;
  format_summary [a; b; c].

(** [fit]: [self.train_batch_nums] is set first, then the epochs run from
    [self.start_epoch], then the summary line. *)
Definition fit : prog state unit :=
  assign (with_train_batch_nums (train_batch_nums_of cfg)) ;;
  t <- get_self ;;
  for_each (range_from (start_epoch t) (epoch_nums cfg)) fit_epoch ;;
  summary.

(** [test]: the best model is loaded and run over the test split; the line
    it logs carries the total and the two accuracies, computed in the order
    of the tuple the line is formatted from. *)
Definition test : prog state unit :=
  _load_model ;;
  assign (with_training false) ;;
  t <- get_self ;;
  acc <- for_fold (load_data Test)
           (fun (acc : nat * nat * nat) b =>
              r <- lift (_eval_batch (model t) b) ;;
              ret ((acc.1.1 + count_true r.1)%nat,
                   (acc.1.2 + count_true r.2)%nat,
                   (acc.2 + length r.1)%nat))
           (0%nat, 0%nat, 0%nat) ;;
  let value_ac := acc.1.1 in
  let equation_ac := acc.1.2 in
  let eval_total := acc.2 in
  test_time_cost <- elapsed ;;
  equ <- lift (truediv equation_ac eval_total) ;;
  val <- lift (truediv value_ac eval_total) ;;
  emit (TestLog (Z.of_nat eval_total) equ val test_time_cost).
End WithBackend.
End Trainer.

(** [SingleEquationTrainer] and [MultiEquationTrainer] derive from [Trainer]
    and repeat each of its methods word for word (their log lines carry one
    dash less, and the multi-equation trainer asks the evaluator for
    [result_multi], which is the [evaluator_result] of its [SeqOps]). *)
Module SingleEquationTrainer.
Section WithBackend.
Context `{O : SeqOps}.
Variable ds : dataset.
Variable cfg : config.

Definition _save_checkpoint := Trainer._save_checkpoint cfg.
Definition _load_checkpoint := Trainer._load_checkpoint cfg.
Definition evaluate := Trainer.evaluate ds cfg.
Definition fit := Trainer.fit ds cfg.
Definition test := Trainer.test ds cfg.
End WithBackend.
End SingleEquationTrainer.

Module MultiEquationTrainer.
Section WithBackend.
Context `{O : SeqOps}.
Variable ds : dataset.
Variable cfg : config.

Definition _save_checkpoint := Trainer._save_checkpoint cfg.
Definition _load_checkpoint := Trainer._load_checkpoint cfg.
Definition evaluate := Trainer.evaluate ds cfg.
Definition fit := Trainer.fit ds cfg.
Definition test := Trainer.test ds cfg.
End WithBackend.
End MultiEquationTrainer.

(** ** [TransformerTrainer] *)

(** The transformer trainer keeps the attributes of [Trainer]; its
    [_save_checkpoint], [_load_checkpoint], [_train_epoch], [_eval_batch] and
    [evaluate] repeat those of [Trainer] (the optimizer is the warm-up
    wrapper, the model is called on the question alone).  Its [fit] reads
    the learning rate for the epoch line, evaluates other splits and has no
    summary line. *)
Module TransformerTrainer.
Section WithBackend.
Context `{O : SeqOps}.
(** [self.optimizer.get_lr()] *)
Variable get_lr : optim_state -> outcome (list Q).
Variable ds : dataset.
Variable cfg : config.

Definition _save_checkpoint := Trainer._save_checkpoint cfg.
Definition _load_checkpoint := Trainer._load_checkpoint cfg.
Definition _save_model := Trainer._save_model cfg.
Definition _train_epoch := Trainer._train_epoch ds cfg.
Definition evaluate := Trainer.evaluate ds cfg.

Definition evaluation_point : prog Trainer.state unit :=
  v <- evaluate Train ;;
  let '(valid_equ_ac, valid_val_ac, valid_total, valid_time_cost) := v in
  emit (ValidLog valid_total valid_equ_ac valid_val_ac valid_time_cost) ;;
  r <- evaluate Test ;;
  let '(test_equ_ac, test_val_ac, test_total, test_time_cost) := r in
  emit (TestLog test_total test_equ_ac test_val_ac test_time_cost) ;;
  t <- get_self ;;
  if Qle_bool (Trainer.best_valid_value_accuracy t) valid_val_ac
  then
    Trainer.assign (fun t =>
      Trainer.with_best (Trainer.best_valid_equ_accuracy t) valid_val_ac
        (Trainer.best_test_equ_accuracy t) (Trainer.best_test_value_accuracy t) t) ;;
    Trainer.assign (fun t =>
      Trainer.with_best valid_equ_ac (Trainer.best_valid_value_accuracy t)
        (Trainer.best_test_equ_accuracy t) (Trainer.best_test_value_accuracy t) t) ;;
    Trainer.assign (fun t =>
      Trainer.with_best (Trainer.best_valid_equ_accuracy t)
        (Trainer.best_valid_value_accuracy t)
        (Trainer.best_test_equ_accuracy t) test_val_ac t) ;;
    Trainer.assign (fun t =>
      Trainer.with_best (Trainer.best_valid_equ_accuracy t)
        (Trainer.best_valid_value_accuracy t)
        test_equ_ac (Trainer.best_test_value_accuracy t) t) ;;
    _save_model
  else ret tt.

Definition fit_epoch (epo : Z) : prog Trainer.state unit :=
  Trainer.assign (Trainer.with_epoch_i (epo + 1)) ;;
  Trainer.assign (Trainer.with_training true) ;;
  r <- _train_epoch ;;
  t <- get_self ;;
  lrs <- lift (get_lr (Trainer.optimizer t)) ;;
  lr <- lift (list_getitem lrs 0) ;;
  emit (LrEpochLog (Trainer.epoch_i t) r.1 (train_batch_nums_of cfg) r.2 lr) ;;
  (if (epo mod 2 =? 0) || (epo >? epoch_nums cfg - 5)
   then evaluation_point else ret tt) ;;
  (if epo mod 5 =? 0 then _save_checkpoint else ret tt).

Definition fit : prog Trainer.state unit :=
  Trainer.assign (Trainer.with_train_batch_nums (train_batch_nums_of cfg)) ;;
  t <- get_self ;;
  for_each (range_from (Trainer.start_epoch t) (epoch_nums cfg)) fit_epoch.

Definition _load_model := Trainer._load_model cfg.
Definition test := Trainer.test ds cfg.
End WithBackend.
End TransformerTrainer.

(** ** [GTSTrainer]: the tree decoder *)

(** Modelled from the spec: the tree-decoder model, whose class is not part
    of the trainer file, with its five submodules; each field lists the
    names of the parameters of one submodule.  [parameters] is what
    [self.model.parameters()] yields: the parameters of every submodule. *)
Record gts_module : Type := GtsModule {
  embedder : list string;
  encoder : list string;
  decoder : list string;
  node_generater : list string;
  merge : list string
}.

Definition parameters (m : gts_module) : list string :=
  embedder m ++ encoder m ++ decoder m ++ node_generater m ++ merge m.

(** [torch.optim.Adam(params, lr, weight_decay=...)]: one parameter group. *)
Record Adam : Type := MkAdam {
  params : list string;
  lr : Q;
  adam_weight_decay : Q
}.

(** The five roles, naming the optimizer a scheduler is attached to. *)
Inductive role : Type := Embedder | Encoder | Decoder | NodeGenerater | Merge.

(** [torch.optim.lr_scheduler.StepLR(optimizer, step_size=..., gamma=...)]. *)
Record StepLR : Type := MkStepLR {
  scheduled : role;
  sched_step_size : Z;
  gamma : Q
}.

(** The learning rate a [StepLR] sets after [epoch] steps, from the base
    rate of its optimizer: [base_lr * gamma ** (epoch // step_size)]. *)
Definition steplr_rate (s : StepLR) (base_lr : Q) (epoch : Z) : Q :=
  (base_lr * gamma s ^ (epoch / sched_step_size s))%Q.

(** What the tree-decoder trainer asks of its collaborators. *)
Class GtsOps `{B : Backend} : Type := {
  gts_logits : Type;
  (** the state dictionaries of a fresh optimizer and of a fresh scheduler *)
  adam_state : Adam -> optim_state;
  steplr_state : StepLR -> sched_state;
  (** [zero_grad()] of one submodule of [self.model] *)
  gts_zero_grad : role -> weights -> weights;
  (** [self.model(..., generate_nums, ..., batch["equation"], batch["equ len"],
      UNK_TOKEN=unk)] *)
  gts_model_train : weights -> batch -> list Z -> outcome gts_logits;
  (** [self.loss.eval_batch(outputs, batch["equation"], batch["equ mask"])] *)
  gts_loss_eval_batch : loss_state -> gts_logits -> batch -> outcome loss_state;
  (** [self.loss.get_loss()] *)
  gts_loss_get_loss : loss_state -> Q;
  (** [self.loss.backward()], which leaves the gradients in the model *)
  gts_loss_backward : loss_state -> weights -> outcome weights;
  (** [step()] of the optimizer of a role *)
  gts_optimizer_step : role -> weights -> optim_state -> outcome (weights * optim_state);
  (** [self.loss.reset()] *)
  gts_loss_reset : loss_state -> loss_state;
  (** [step()] of a scheduler, which also sets the rate of its optimizer *)
  gts_scheduler_step : sched_state -> optim_state -> sched_state * optim_state;
  (** [self.model(..., generate_nums, batch["num pos"], num_start)] *)
  gts_model_infer : weights -> batch -> list Z -> outcome output;
  (** [self.evaluator.result(test_out, batch["equation"].tolist()[0],
      batch["num list"][0], batch["num stack"][0])], its first two components *)
  gts_evaluator_result : output -> list Z -> batch -> outcome (bool * bool)
}.

Module GTSTrainer.
Section WithBackend.
Context `{O : GtsOps}.
Variable generate_list : list string.
Variable ds : dataset.
Variable cfg : config.

Record optimizers : Type := Optimizers {
  embedder_optimizer : optim_state;
  encoder_optimizer : optim_state;
  decoder_optimizer : optim_state;
  node_generater_optimizer : optim_state;
  merge_optimizer : optim_state
}.

Record schedulers : Type := Schedulers {
  embedder_scheduler : sched_state;
  encoder_scheduler : sched_state;
  decoder_scheduler : sched_state;
  node_generater_scheduler : sched_state;
  merge_scheduler : sched_state
}.

Record state : Type := State {
  model : weights;
  optims : optimizers;
  scheds : schedulers;
  best_valid_equ_accuracy : Q;
  best_valid_value_accuracy : Q;
  best_test_equ_accuracy : Q;
  best_test_value_accuracy : Q;
  start_epoch : Z;
  epoch_i : Z;
  batch_idx : option Z;
  training : bool;
  loss : loss_state;
  train_batch_nums : option Z
}.

(** What [_build_optimizer] constructs. *)
Record built : Type := Built {
  b_embedder_optimizer : Adam;
  b_encoder_optimizer : Adam;
  b_decoder_optimizer : Adam;
  b_node_generater_optimizer : Adam;
  b_merge_optimizer : Adam;
  b_embedder_scheduler : StepLR;
  b_encoder_scheduler : StepLR;
  b_decoder_scheduler : StepLR;
  b_node_generater_scheduler : StepLR;
  b_merge_scheduler : StepLR
}.

Definition _build_optimizer (m : gts_module) : built :=
  {| b_embedder_optimizer :=
       MkAdam (embedder m) (learning_rate cfg) (weight_decay cfg);
     b_encoder_optimizer :=
       MkAdam (encoder m) (learning_rate cfg) (weight_decay cfg);
     b_decoder_optimizer :=
       MkAdam (parameters m) (learning_rate cfg) (weight_decay cfg);
     b_node_generater_optimizer :=
       MkAdam (node_generater m) (learning_rate cfg) (weight_decay cfg);
     b_merge_optimizer :=
       MkAdam (merge m) (learning_rate cfg) (weight_decay cfg);
     b_embedder_scheduler := MkStepLR Embedder (step_size cfg) (1 # 2);
     b_encoder_scheduler := MkStepLR Encoder (step_size cfg) (1 # 2);
     b_decoder_scheduler := MkStepLR Decoder (step_size cfg) (1 # 2);
     b_node_generater_scheduler := MkStepLR NodeGenerater (step_size cfg) (1 # 2);
     b_merge_scheduler := MkStepLR Merge (step_size cfg) (1 # 2) |}.

(** The optimizer built for a role, and the parameters of the submodule of
    that role. *)
Definition optimizer_of (b : built) (r : role) : Adam :=
  match r with
  | Embedder => b_embedder_optimizer b
  | Encoder => b_encoder_optimizer b
  | Decoder => b_decoder_optimizer b
  | NodeGenerater => b_node_generater_optimizer b
  | Merge => b_merge_optimizer b
  end.

Definition scheduler_of (b : built) (r : role) : StepLR :=
  match r with
  | Embedder => b_embedder_scheduler b
  | Encoder => b_encoder_scheduler b
  | Decoder => b_decoder_scheduler b
  | NodeGenerater => b_node_generater_scheduler b
  | Merge => b_merge_scheduler b
  end.

Definition submodule (m : gts_module) (r : role) : list string :=
  match r with
  | Embedder => embedder m
  | Encoder => encoder m
  | Decoder => decoder m
  | NodeGenerater => node_generater m
  | Merge => merge m
  end.

(** [AbstractTrainer.__init__] followed by [_build_optimizer]. *)
Definition init (w : weights) (m : gts_module) (l : loss_state) : state :=
  let b := _build_optimizer m in
  {| model := w;
     optims :=
       {| embedder_optimizer := adam_state (b_embedder_optimizer b);
          encoder_optimizer := adam_state (b_encoder_optimizer b);
          decoder_optimizer := adam_state (b_decoder_optimizer b);
          node_generater_optimizer := adam_state (b_node_generater_optimizer b);
          merge_optimizer := adam_state (b_merge_optimizer b) |};
     scheds :=
       {| embedder_scheduler := steplr_state (b_embedder_scheduler b);
          encoder_scheduler := steplr_state (b_encoder_scheduler b);
          decoder_scheduler := steplr_state (b_decoder_scheduler b);
          node_generater_scheduler := steplr_state (b_node_generater_scheduler b);
          merge_scheduler := steplr_state (b_merge_scheduler b) |};
     best_valid_equ_accuracy := 0; best_valid_value_accuracy := 0;
     best_test_equ_accuracy := 0; best_test_value_accuracy := 0;
     start_epoch := 0; epoch_i := 0; batch_idx := None; training := true;
     loss := l;
     train_batch_nums := None |}.

Definition with_model (w : weights) (t : state) : state :=
  {| model := w; optims := optims t; scheds := scheds t;
     best_valid_equ_accuracy := best_valid_equ_accuracy t;
     best_valid_value_accuracy := best_valid_value_accuracy t;
     best_test_equ_accuracy := best_test_equ_accuracy t;
     best_test_value_accuracy := best_test_value_accuracy t;
     start_epoch := start_epoch t; epoch_i := epoch_i t; batch_idx := batch_idx t;
     training := training t; loss := loss t;
     train_batch_nums := train_batch_nums t |}.

Definition with_optims (o : optimizers) (t : state) : state :=
  {| model := model t; optims := o; scheds := scheds t;
     best_valid_equ_accuracy := best_valid_equ_accuracy t;
     best_valid_value_accuracy := best_valid_value_accuracy t;
     best_test_equ_accuracy := best_test_equ_accuracy t;
     best_test_value_accuracy := best_test_value_accuracy t;
     start_epoch := start_epoch t; epoch_i := epoch_i t; batch_idx := batch_idx t;
     training := training t; loss := loss t;
     train_batch_nums := train_batch_nums t |}.

Definition with_scheds (s : schedulers) (t : state) : state :=
  {| model := model t; optims := optims t; scheds := s;
     best_valid_equ_accuracy := best_valid_equ_accuracy t;
     best_valid_value_accuracy := best_valid_value_accuracy t;
     best_test_equ_accuracy := best_test_equ_accuracy t;
     best_test_value_accuracy := best_test_value_accuracy t;
     start_epoch := start_epoch t; epoch_i := epoch_i t; batch_idx := batch_idx t;
     training := training t; loss := loss t;
     train_batch_nums := train_batch_nums t |}.

Definition with_best (valid_equ valid_value test_equ test_value : Q) (t : state) : state :=
  {| model := model t; optims := optims t; scheds := scheds t;
     best_valid_equ_accuracy := valid_equ;
     best_valid_value_accuracy := valid_value;
     best_test_equ_accuracy := test_equ;
     best_test_value_accuracy := test_value;
     start_epoch := start_epoch t; epoch_i := epoch_i t; batch_idx := batch_idx t;
     training := training t; loss := loss t;
     train_batch_nums := train_batch_nums t |}.

Definition with_start_epoch (n : Z) (t : state) : state :=
  {| model := model t; optims := optims t; scheds := scheds t;
     best_valid_equ_accuracy := best_valid_equ_accuracy t;
     best_valid_value_accuracy := best_valid_value_accuracy t;
     best_test_equ_accuracy := best_test_equ_accuracy t;
     best_test_value_accuracy := best_test_value_accuracy t;
     start_epoch := n; epoch_i := epoch_i t; batch_idx := batch_idx t;
     training := training t; loss := loss t;
     train_batch_nums := train_batch_nums t |}.

Definition with_epoch_i (n : Z) (t : state) : state :=
  {| model := model t; optims := optims t; scheds := scheds t;
     best_valid_equ_accuracy := best_valid_equ_accuracy t;
     best_valid_value_accuracy := best_valid_value_accuracy t;
     best_test_equ_accuracy := best_test_equ_accuracy t;
     best_test_value_accuracy := best_test_value_accuracy t;
     start_epoch := start_epoch t; epoch_i := n; batch_idx := batch_idx t;
     training := training t; loss := loss t;
     train_batch_nums := train_batch_nums t |}.

Definition with_batch_idx (n : Z) (t : state) : state :=
  {| model := model t; optims := optims t; scheds := scheds t;
     best_valid_equ_accuracy := best_valid_equ_accuracy t;
     best_valid_value_accuracy := best_valid_value_accuracy t;
     best_test_equ_accuracy := best_test_equ_accuracy t;
     best_test_value_accuracy := best_test_value_accuracy t;
     start_epoch := start_epoch t; epoch_i := epoch_i t; batch_idx := Some n;
     training := training t; loss := loss t;
     train_batch_nums := train_batch_nums t |}.

Definition with_training (mode : bool) (t : state) : state :=
  {| model := model t; optims := optims t; scheds := scheds t;
     best_valid_equ_accuracy := best_valid_equ_accuracy t;
     best_valid_value_accuracy := best_valid_value_accuracy t;
     best_test_equ_accuracy := best_test_equ_accuracy t;
     best_test_value_accuracy := best_test_value_accuracy t;
     start_epoch := start_epoch t; epoch_i := epoch_i t; batch_idx := batch_idx t;
     training := mode; loss := loss t;
     train_batch_nums := train_batch_nums t |}.

Definition with_loss (l : loss_state) (t : state) : state :=
  {| model := model t; optims := optims t; scheds := scheds t;
     best_valid_equ_accuracy := best_valid_equ_accuracy t;
     best_valid_value_accuracy := best_valid_value_accuracy t;
     best_test_equ_accuracy := best_test_equ_accuracy t;
     best_test_value_accuracy := best_test_value_accuracy t;
     start_epoch := start_epoch t; epoch_i := epoch_i t; batch_idx := batch_idx t;
     training := training t; loss := l;
     train_batch_nums := train_batch_nums t |}.

Definition set_optimizer (r : role) (o : optim_state) (os : optimizers) : optimizers :=
  {| embedder_optimizer := match r with Embedder => o | _ => embedder_optimizer os end;
     encoder_optimizer := match r with Encoder => o | _ => encoder_optimizer os end;
     decoder_optimizer := match r with Decoder => o | _ => decoder_optimizer os end;
     node_generater_optimizer :=
       match r with NodeGenerater => o | _ => node_generater_optimizer os end;
     merge_optimizer := match r with Merge => o | _ => merge_optimizer os end |}.

Definition get_optimizer (r : role) (os : optimizers) : optim_state :=
  match r with
  | Embedder => embedder_optimizer os
  | Encoder => encoder_optimizer os
  | Decoder => decoder_optimizer os
  | NodeGenerater => node_generater_optimizer os
  | Merge => merge_optimizer os
  end.

Definition set_scheduler (r : role) (s : sched_state) (ss : schedulers) : schedulers :=
  {| embedder_scheduler := match r with Embedder => s | _ => embedder_scheduler ss end;
     encoder_scheduler := match r with Encoder => s | _ => encoder_scheduler ss end;
     decoder_scheduler := match r with Decoder => s | _ => decoder_scheduler ss end;
     node_generater_scheduler :=
       match r with NodeGenerater => s | _ => node_generater_scheduler ss end;
     merge_scheduler := match r with Merge => s | _ => merge_scheduler ss end |}.

Definition get_scheduler (r : role) (ss : schedulers) : sched_state :=
  match r with
  | Embedder => embedder_scheduler ss
  | Encoder => encoder_scheduler ss
  | Decoder => decoder_scheduler ss
  | NodeGenerater => node_generater_scheduler ss
  | Merge => merge_scheduler ss
  end.

Definition with_train_batch_nums (n : Z) (t : state) : state :=
  {| model := model t; optims := optims t; scheds := scheds t;
     best_valid_equ_accuracy := best_valid_equ_accuracy t;
     best_valid_value_accuracy := best_valid_value_accuracy t;
     best_test_equ_accuracy := best_test_equ_accuracy t;
     best_test_value_accuracy := best_test_value_accuracy t;
     start_epoch := start_epoch t; epoch_i := epoch_i t; batch_idx := batch_idx t;
     training := training t; loss := loss t;
     train_batch_nums := Some n |}.

Definition assign (f : state -> state) : prog state unit :=
  t <- get_self ;; put_self (f t).

Definition _save_checkpoint : prog state unit :=
  t <- get_self ;;
  let check_pnt := dict_display
    [("model", PyModel (model t));
     ("embedder_optimizer", PyOptim (embedder_optimizer (optims t)));
     ("encoder_optimizer", PyOptim (encoder_optimizer (optims t)));
     ("decoder_optimizer", PyOptim (decoder_optimizer (optims t)));
     ("generate_optimizer", PyOptim (node_generater_optimizer (optims t)));
     ("merge_optimizer", PyOptim (merge_optimizer (optims t)));
     ("embedder_scheduler", PySched (embedder_scheduler (scheds t)));
     ("encoder_scheduler", PySched (encoder_scheduler (scheds t)));
     ("decoder_optimizer", PyOptim (decoder_optimizer (optims t)));
     ("generate_scheduler", PySched (node_generater_scheduler (scheds t)));
     ("merge_scheduler", PySched (merge_scheduler (scheds t)));
     ("start_epoch", PyInt (epoch_i t));
     ("best_valid_value_accuracy", PyFloat (best_valid_value_accuracy t));
     ("best_valid_equ_accuracy", PyFloat (best_valid_equ_accuracy t));
     ("best_test_value_accuracy", PyFloat (best_test_value_accuracy t));
     ("best_test_equ_accuracy", PyFloat (best_test_equ_accuracy t))] in
  torch_save check_pnt (checkpoint_path cfg).

(** [self.<role>_optimizer.load_state_dict(check_pnt[key])] and the same
    for a scheduler. *)
Definition load_optimizer (check_pnt : gmap string pyval) (r : role) (key : string)
  : prog state unit :=
  o <- entry check_pnt key as_optim ;;
  assign (fun t => with_optims (set_optimizer r o (optims t)) t).

Definition load_scheduler (check_pnt : gmap string pyval) (r : role) (key : string)
  : prog state unit :=
  s <- entry check_pnt key as_sched ;;
  assign (fun t => with_scheds (set_scheduler r s (scheds t)) t).

Definition _load_checkpoint : prog state unit :=
  check_pnt <- torch_load (checkpoint_path cfg) ;;
  w <- entry check_pnt "model" as_model ;;
  assign (with_model w) ;;
  load_optimizer check_pnt Embedder "embedder_optimizer" ;;
  load_optimizer check_pnt Encoder "encoder_optimizer" ;;
  load_optimizer check_pnt Decoder "decoder_optimizer" ;;
  load_optimizer check_pnt NodeGenerater "generate_optimizer" ;;
  load_optimizer check_pnt Merge "merge_optimizer" ;;
  load_scheduler check_pnt Embedder "embedding_scheduler" ;;
  load_scheduler check_pnt Encoder "encoder_scheduler" ;;
  load_scheduler check_pnt Decoder "decoder_scheduler" ;;
  load_scheduler check_pnt NodeGenerater "generate_scheduler" ;;
  load_scheduler check_pnt Merge "merge_scheduler" ;;
  n <- entry check_pnt "start_epoch" as_int ;;
  assign (with_start_epoch n) ;;
  x <- entry check_pnt "best_valid_value_accuracy" as_float ;;
  assign (fun t => with_best (best_valid_equ_accuracy t) x
                     (best_test_equ_accuracy t) (best_test_value_accuracy t) t) ;;
  x <- entry check_pnt "best_valid_equ_accuracy" as_float ;;
  assign (fun t => with_best x (best_valid_value_accuracy t)
                     (best_test_equ_accuracy t) (best_test_value_accuracy t) t) ;;
  x <- entry check_pnt "best_test_value_accuracy" as_float ;;
  assign (fun t => with_best (best_valid_equ_accuracy t) (best_valid_value_accuracy t)
                     (best_test_equ_accuracy t) x t) ;;
  x <- entry check_pnt "best_test_equ_accuracy" as_float ;;
  assign (fun t => with_best (best_valid_equ_accuracy t) (best_valid_value_accuracy t)
                     x (best_test_value_accuracy t) t).

Definition _save_model : prog state unit :=
  t <- get_self ;;
  let state_dict := dict_display [("model", PyModel (model t))] in
  torch_save state_dict (trained_model_path cfg).

(** [GTSTrainer.__init__]; the loss object, which the source builds last
    and from no argument, is held from the start. *)
Definition __init__ (w : weights) (m : gts_module) (l : loss_state) : prog state unit :=
  put_self (init w m l) ;;
  (if resume cfg then _load_checkpoint else ret tt).

Definition all_roles : list role := [Embedder; Encoder; Decoder; NodeGenerater; Merge].

Definition _model_zero_grad : prog state unit :=
  for_each all_roles (fun r => assign (fun t => with_model (gts_zero_grad r (model t)) t)).

(** [_model_train] and [_model_eval] put the five submodules in one mode. *)
Definition _model_train : prog state unit := assign (with_training true).

Definition _model_eval : prog state unit := assign (with_training false).

Definition _scheduler_step : prog state unit :=
  for_each all_roles (fun r =>
    t <- get_self ;;
    let so := gts_scheduler_step (get_scheduler r (scheds t)) (get_optimizer r (optims t)) in
    assign (fun t => with_scheds (set_scheduler r so.1 (scheds t)) t) ;;
    assign (fun t => with_optims (set_optimizer r so.2 (optims t)) t)).

Definition _optimizer_step : prog state unit :=
  for_each all_roles (fun r =>
    t <- get_self ;;
    wo <- lift (gts_optimizer_step r (model t) (get_optimizer r (optims t))) ;;
    assign (with_model wo.1) ;;
    assign (fun t => with_optims (set_optimizer r wo.2 (optims t)) t)).

(** [[out_symbol2idx[symbol] for symbol in generate_list]]. *)
Definition generate_nums : outcome (list Z) :=
  for_collect (dict_getitem (out_symbol2idx ds)) generate_list.

Definition _train_batch (b : batch) : prog state Q :=
  t <- get_self ;;
  nums <- lift generate_nums ;;
  outputs <- lift (gts_model_train (model t) b nums) ;;
  l <- lift (gts_loss_eval_batch (loss t) outputs b) ;;
  assign (with_loss l) ;;
  let batch_loss := gts_loss_get_loss l in
  ret batch_loss.

Definition _eval_batch (w : weights) (b : batch) : outcome (list bool * list bool) :=
  nums ← generate_nums;
  test_out ← gts_model_infer w b nums;
  target ← list_getitem (tolist (equation b)) 0;
  ac ← gts_evaluator_result test_out target b;
  Return ([ac.1], [ac.2]).

Definition _train_epoch : prog state (Q * string) :=
  let loss_total := 0%Q in
  _model_train ;;
  loss_total <- for_fold (imap (fun i b => (Z.of_nat i, b)) (load_data Train))
    (fun (loss_total : Q) ib =>
       assign (with_batch_idx (ib.1 + 1)) ;;
       _model_zero_grad ;;
       batch_loss <- _train_batch ib.2 ;;
       let loss_total := (loss_total + batch_loss)%Q in
       t <- get_self ;;
       w <- lift (gts_loss_backward (loss t) (model t)) ;;
       assign (with_model w) ;;
       _optimizer_step ;;
       assign (fun t => with_loss (gts_loss_reset (loss t)) t) ;;
       ret loss_total)
    loss_total ;;
  epoch_time_cost <- elapsed ;;
  ret (loss_total, epoch_time_cost).

Definition evaluate (eval_set : DatasetType) : prog state (Q * Q * Z * string) :=
  _model_eval ;;
  t <- get_self ;;
  evaluate_loop (_eval_batch (model t)) eval_set.

Definition evaluation_point : prog state unit :=
  v <- evaluate Valid ;;
  let '(valid_equ_ac, valid_val_ac, valid_total, valid_time_cost) := v in
  emit (ValidLog valid_total valid_equ_ac valid_val_ac valid_time_cost) ;;
  r <- evaluate Test ;;
  let '(test_equ_ac, test_val_ac, test_total, test_time_cost) := r in
  emit (TestLog test_total test_equ_ac test_val_ac test_time_cost) ;;
  t <- get_self ;;
  if Qle_bool (best_valid_value_accuracy t) valid_val_ac
  then
    assign (fun t => with_best (best_valid_equ_accuracy t) valid_val_ac
                       (best_test_equ_accuracy t) (best_test_value_accuracy t) t) ;;
    assign (fun t => with_best valid_equ_ac (best_valid_value_accuracy t)
                       (best_test_equ_accuracy t) (best_test_value_accuracy t) t) ;;
    assign (fun t => with_best (best_valid_equ_accuracy t) (best_valid_value_accuracy t)
                       (best_test_equ_accuracy t) test_val_ac t) ;;
    assign (fun t => with_best (best_valid_equ_accuracy t) (best_valid_value_accuracy t)
                       test_equ_ac (best_test_value_accuracy t) t) ;;
    _save_model
  else ret tt.

Definition fit_epoch (epo : Z) : prog state unit :=
  assign (with_epoch_i (epo + 1)) ;;
  assign (with_training true) ;;
  r <- _train_epoch ;;
  _scheduler_step ;;
  t <- get_self ;;
  emit (EpochLog (epoch_i t) r.1 (train_batch_nums_of cfg) r.2) ;;
  (if (epo mod 10 =? 0) || (epo >? epoch_nums cfg - 5)
   then evaluation_point else ret tt) ;;
  (if epo mod 5 =? 0 then _save_checkpoint else ret tt).

Definition fit : prog state unit :=
  assign (with_train_batch_nums (train_batch_nums_of cfg)) ;;
  t <- get_self ;;
  for_each (range_from (start_epoch t) (epoch_nums cfg)) fit_epoch.

(** [AbstractTrainer._load_model] on the tree-decoder trainer. *)
Definition _load_model : prog state unit :=
  state_dict <- torch_load (trained_model_path cfg) ;;
  w <- entry state_dict "model" as_model ;;
  assign (with_model w).

(** [test]: [self.model.eval()] puts the whole model, hence its five
    submodules, in evaluation mode. *)
Definition test : prog state unit :=
  _load_model ;;
  assign (with_training false) ;;
  t <- get_self ;;
  acc <- for_fold (load_data Test)
           (fun (acc : nat * nat * nat) b =>
              r <- lift (_eval_batch (model t) b) ;;
              ret ((acc.1.1 + count_true r.1)%nat,
                   (acc.1.2 + count_true r.2)%nat,
                   (acc.2 + length r.1)%nat))
           (0%nat, 0%nat, 0%nat) ;;
  let value_ac := acc.1.1 in
  let equation_ac := acc.1.2 in
  let eval_total := acc.2 in
  test_time_cost <- elapsed ;;
  equ <- lift (truediv equation_ac eval_total) ;;
  val <- lift (truediv value_ac eval_total) ;;
  emit (TestLog (Z.of_nat eval_total) equ val test_time_cost).
End WithBackend.
End GTSTrainer.

(** ** [SeqGANTrainer]: the adversarial trainer *)

(** A reward or a loss of the adversarial phase: the Python integer [0]
    that [get_reward] starts from, or a scalar tensor. *)
Inductive scalar : Type :=
| PyZero
| Scalar (x : Q).

(** [rewards += x] and [-rewards]. *)
Definition scalar_add (r : scalar) (x : Q) : scalar :=
  match r with
  | PyZero => Scalar (0 + x)
  | Scalar y => Scalar (y + x)
  end.

Definition scalar_neg (r : scalar) : scalar :=
  match r with
  | PyZero => PyZero
  | Scalar y => Scalar (- y)
  end.

(** Element-wise product of two one-dimensional tensors, with broadcasting
    of a tensor of one element. *)
Definition tensor_mul (xs ys : list Q) : outcome (list Q) :=
  if (length xs =? length ys)%nat then Return (zip_with Qmult xs ys)
  else match xs, ys with
       | [x], _ => Return (map (Qmult x) ys)
       | _, [y] => Return (map (fun x => Qmult x y) xs)
       | _, _ => Raise (RuntimeError "size mismatch")
       end.

Definition tensor_sum (xs : list Q) : Q := fold_left Qplus xs 0%Q.

(** [outputs[:, idx] != pad], with [IndexError] past the last column. *)
Definition column_ne (outputs : tensor2) (idx : nat) (pad : Z) : outcome (list bool) :=
  if (idx <? size1 outputs)%nat
  then Return (map (fun b => negb (item outputs b idx =? pad)) (seq 0 (size0 outputs)))
  else Raise IndexError.

(** [mask.float()] and [mask.sum()]. *)
Definition mask_float (mask : list bool) : list Q :=
  map (fun b : bool => if b then 1%Q else 0%Q) mask.

Definition mask_sum (mask : list bool) : nat := count_true mask.

(** What the adversarial trainer asks of its collaborators. *)
Class GanOps `{B : Backend} : Type := {
  gan_logits : Type;
  rollout : Type;
  (** [self.model.zero_grad()] *)
  gan_zero_grad : weights -> weights;
  (** [self.model.generator.pre_train(batch["question"], batch["ques len"],
      batch["equation"])] *)
  generator_pre_train : weights -> batch -> outcome gan_logits;
  (** [self.nll_loss.eval_batch(outputs, target.view(-1))], [get_loss()],
      [backward()] and [reset()] *)
  nll_eval_batch : loss_state -> gan_logits -> tensor2 -> outcome loss_state;
  nll_get_loss : loss_state -> Q;
  nll_backward : loss_state -> weights -> outcome weights;
  nll_reset : loss_state -> loss_state;
  (** [self.generator_optimizer.step()] and [self.discriminator_optimizer.step()] *)
  generator_optimizer_step : weights -> optim_state -> outcome (weights * optim_state);
  discriminator_optimizer_step : weights -> optim_state -> outcome (weights * optim_state);
  (** [self.model.generator(batch["question"], batch["ques len"])], its first
      component *)
  generator_generate : weights -> batch -> outcome tensor2;
  (** [self.model.generator(batch["question"], batch["ques len"], batch["equation"])]:
      the outputs, the roll-outs and the log-probabilities of the tokens *)
  generator_sample : weights -> batch -> outcome (tensor2 * list rollout * list (list Q));
  (** [self.model.discriminator(monte_carlo_outputs[idx])], reshaped to
      [batch_size] rows and averaged along each row *)
  discriminator_mean : weights -> rollout -> nat -> outcome (list Q);
  (** [pred_y = self.model.discriminator(x)], the labels ([true]: ones,
      [false]: zeros) and [self.binary_loss.eval_batch(pred_y, label_y)] *)
  binary_eval_batch : loss_state -> weights -> tensor2 -> bool -> outcome loss_state;
  (** the norm of the output layer of the discriminator and
      [self.binary_loss.add_norm(norm)] *)
  binary_add_norm : loss_state -> weights -> loss_state;
  (** [self.binary_loss.get_loss()], [backward()] and [reset()] *)
  binary_get_loss : loss_state -> Q;
  binary_backward : loss_state -> weights -> outcome weights;
  binary_reset : loss_state -> loss_state;
  (** [g_batch_loss.backward()] on a tensor *)
  reward_backward : Q -> weights -> outcome weights;
  (** [self.model(batch["question"], batch["ques len"])] *)
  gan_model_infer : weights -> batch -> outcome (list output);
  gan_evaluator_result : output -> list Z -> batch -> nat -> outcome (bool * bool)
}.

Module SeqGANTrainer.
Section WithBackend.
Context `{O : GanOps}.
Variable cfg : config.

(** The attributes set by the constructor, the modes of the generator and
    of the discriminator, the two attributes that only [_load_checkpoint]
    ever creates and the one that [fit] creates ([None]: no such
    attribute). *)
Record state : Type := State {
  model : weights;
  generator_optimizer : optim_state;
  discriminator_optimizer : optim_state;
  best_valid_equ_accuracy : Q;
  best_valid_value_accuracy : Q;
  best_test_equ_accuracy : Q;
  best_test_value_accuracy : Q;
  start_epoch : Z;
  epoch_i : Z;
  batch_idx : option Z;
  generator_training : bool;
  discriminator_training : bool;
  nll_loss : loss_state;
  binary_loss : loss_state;
  best_value_accuracy : option Q;
  best_equ_accuracy : option Q;
  train_batch_nums : option Z
}.

Definition init (w : weights) (g d : optim_state) (nll binary : loss_state) : state :=
  {| model := w; generator_optimizer := g; discriminator_optimizer := d;
     best_valid_equ_accuracy := 0; best_valid_value_accuracy := 0;
     best_test_equ_accuracy := 0; best_test_value_accuracy := 0;
     start_epoch := 0; epoch_i := 0; batch_idx := None;
     generator_training := true; discriminator_training := true;
     nll_loss := nll; binary_loss := binary;
     best_value_accuracy := None; best_equ_accuracy := None;
     train_batch_nums := None |}.

Definition with_model (w : weights) (g d : optim_state) (t : state) : state :=
  {| model := w; generator_optimizer := g; discriminator_optimizer := d;
     best_valid_equ_accuracy := best_valid_equ_accuracy t;
     best_valid_value_accuracy := best_valid_value_accuracy t;
     best_test_equ_accuracy := best_test_equ_accuracy t;
     best_test_value_accuracy := best_test_value_accuracy t;
     start_epoch := start_epoch t; epoch_i := epoch_i t; batch_idx := batch_idx t;
     generator_training := generator_training t;
     discriminator_training := discriminator_training t;
     nll_loss := nll_loss t; binary_loss := binary_loss t;
     best_value_accuracy := best_value_accuracy t;
     best_equ_accuracy := best_equ_accuracy t;
     train_batch_nums := train_batch_nums t |}.

Definition with_counters (start epoch : Z) (idx : option Z) (t : state) : state :=
  {| model := model t; generator_optimizer := generator_optimizer t;
     discriminator_optimizer := discriminator_optimizer t;
     best_valid_equ_accuracy := best_valid_equ_accuracy t;
     best_valid_value_accuracy := best_valid_value_accuracy t;
     best_test_equ_accuracy := best_test_equ_accuracy t;
     best_test_value_accuracy := best_test_value_accuracy t;
     start_epoch := start; epoch_i := epoch; batch_idx := idx;
     generator_training := generator_training t;
     discriminator_training := discriminator_training t;
     nll_loss := nll_loss t; binary_loss := binary_loss t;
     best_value_accuracy := best_value_accuracy t;
     best_equ_accuracy := best_equ_accuracy t;
     train_batch_nums := train_batch_nums t |}.

(** [self.model.generator.train()] or [.eval()], and the same for the
    discriminator. *)
Definition with_modes (generator discriminator : bool) (t : state) : state :=
  {| model := model t; generator_optimizer := generator_optimizer t;
     discriminator_optimizer := discriminator_optimizer t;
     best_valid_equ_accuracy := best_valid_equ_accuracy t;
     best_valid_value_accuracy := best_valid_value_accuracy t;
     best_test_equ_accuracy := best_test_equ_accuracy t;
     best_test_value_accuracy := best_test_value_accuracy t;
     start_epoch := start_epoch t; epoch_i := epoch_i t; batch_idx := batch_idx t;
     generator_training := generator;
     discriminator_training := discriminator;
     nll_loss := nll_loss t; binary_loss := binary_loss t;
     best_value_accuracy := best_value_accuracy t;
     best_equ_accuracy := best_equ_accuracy t;
     train_batch_nums := train_batch_nums t |}.

Definition with_losses (nll binary : loss_state) (t : state) : state :=
  {| model := model t; generator_optimizer := generator_optimizer t;
     discriminator_optimizer := discriminator_optimizer t;
     best_valid_equ_accuracy := best_valid_equ_accuracy t;
     best_valid_value_accuracy := best_valid_value_accuracy t;
     best_test_equ_accuracy := best_test_equ_accuracy t;
     best_test_value_accuracy := best_test_value_accuracy t;
     start_epoch := start_epoch t; epoch_i := epoch_i t; batch_idx := batch_idx t;
     generator_training := generator_training t;
     discriminator_training := discriminator_training t;
     nll_loss := nll; binary_loss := binary;
     best_value_accuracy := best_value_accuracy t;
     best_equ_accuracy := best_equ_accuracy t;
     train_batch_nums := train_batch_nums t |}.

Definition with_best_accuracy (value equ : option Q) (t : state) : state :=
  {| model := model t; generator_optimizer := generator_optimizer t;
     discriminator_optimizer := discriminator_optimizer t;
     best_valid_equ_accuracy := best_valid_equ_accuracy t;
     best_valid_value_accuracy := best_valid_value_accuracy t;
     best_test_equ_accuracy := best_test_equ_accuracy t;
     best_test_value_accuracy := best_test_value_accuracy t;
     start_epoch := start_epoch t; epoch_i := epoch_i t; batch_idx := batch_idx t;
     generator_training := generator_training t;
     discriminator_training := discriminator_training t;
     nll_loss := nll_loss t; binary_loss := binary_loss t;
     best_value_accuracy := value; best_equ_accuracy := equ;
     train_batch_nums := train_batch_nums t |}.

Definition with_train_batch_nums (n : Z) (t : state) : state :=
  {| model := model t; generator_optimizer := generator_optimizer t;
     discriminator_optimizer := discriminator_optimizer t;
     best_valid_equ_accuracy := best_valid_equ_accuracy t;
     best_valid_value_accuracy := best_valid_value_accuracy t;
     best_test_equ_accuracy := best_test_equ_accuracy t;
     best_test_value_accuracy := best_test_value_accuracy t;
     start_epoch := start_epoch t; epoch_i := epoch_i t; batch_idx := batch_idx t;
     generator_training := generator_training t;
     discriminator_training := discriminator_training t;
     nll_loss := nll_loss t; binary_loss := binary_loss t;
     best_value_accuracy := best_value_accuracy t;
     best_equ_accuracy := best_equ_accuracy t;
     train_batch_nums := Some n |}.

Definition assign (f : state -> state) : prog state unit :=
  t <- get_self ;; put_self (f t).

Definition _save_checkpoint : prog state unit :=
  t <- get_self ;;
  let check_pnt := dict_display
    [("model", PyModel (model t));
     ("generator_optimizer", PyOptim (generator_optimizer t));
     ("discriminator_optimizer", PyOptim (discriminator_optimizer t));
     ("best_valid_value_accuracy", PyFloat (best_valid_value_accuracy t));
     ("best_valid_equ_accuracy", PyFloat (best_valid_equ_accuracy t));
     ("best_test_value_accuracy", PyFloat (best_test_value_accuracy t));
     ("best_test_equ_accuracy", PyFloat (best_test_equ_accuracy t))] in
  torch_save check_pnt (checkpoint_path cfg).

Definition _load_checkpoint : prog state unit :=
  check_pnt <- torch_load (checkpoint_path cfg) ;;
  w <- entry check_pnt "model" as_model ;;
  assign (fun t => with_model w (generator_optimizer t) (discriminator_optimizer t) t) ;;
  g <- entry check_pnt "generator_optimizer" as_optim ;;
  assign (fun t => with_model (model t) g (discriminator_optimizer t) t) ;;
  d <- entry check_pnt "discriminator_optimizer" as_optim ;;
  assign (fun t => with_model (model t) (generator_optimizer t) d t) ;;
  n <- entry check_pnt "start_epoch" as_int ;;
  assign (fun t => with_counters n (epoch_i t) (batch_idx t) t) ;;
  x <- entry check_pnt "value_acc" as_float ;;
  assign (fun t => with_best_accuracy (Some x) (best_equ_accuracy t) t) ;;
  x <- entry check_pnt "equ_acc" as_float ;;
  assign (fun t => with_best_accuracy (best_value_accuracy t) (Some x) t).

Definition _save_model : prog state unit :=
  t <- get_self ;;
  let state_dict := dict_display [("model", PyModel (model t))] in
  torch_save state_dict (trained_model_path cfg).

(** The data set of the loader and [PAD_TOKEN], a constant imported from
    [mwptoolkit.utils.enum_type]. *)
Variable ds : dataset.
Variable PAD_TOKEN : string.

(** [SeqGANTrainer.__init__]; as in [Trainer], [_build_loss] is called
    after the check-point is loaded, on the index of the padding symbol,
    and the two loss objects it builds are held from the start. *)
Definition __init__ (w : weights) (g d : optim_state) (nll binary : loss_state)
  : prog state unit :=
  put_self (init w g d nll binary) ;;
  (if resume cfg then _load_checkpoint else ret tt) ;;
  pad <- lift (dict_getitem (out_symbol2idx ds) PAD_TOKEN) ;;
  ret tt.

(** The target of a batch.  With shared vocabularies the trainer calls
    [self._idx2word_2idx], which neither it nor [AbstractTrainer] defines. *)
Definition target_of (b : batch) : outcome tensor2 :=
  if share_vocab cfg then Raise (AttributeError "_idx2word_2idx")
  else Return (equation b).

(** The discriminator's part of a batch: the generated sequences against
    zeros, the real equations against ones, and the norm. *)
Definition discriminate (outputs : tensor2) (b : batch) : prog state Q :=
  t <- get_self ;;
  l <- lift (binary_eval_batch (binary_loss t) (model t) outputs false) ;;
  assign (fun t => with_losses (nll_loss t) l t) ;;
  batch_equation <- lift (target_of b) ;;
  t <- get_self ;;
  l <- lift (binary_eval_batch (binary_loss t) (model t) batch_equation true) ;;
  assign (fun t => with_losses (nll_loss t) l t) ;;
  assign (fun t => with_losses (nll_loss t) (binary_add_norm (binary_loss t) (model t)) t) ;;
  t <- get_self ;;
  ret (binary_get_loss (binary_loss t)).

(** [self.binary_loss.backward(); self.discriminator_optimizer.step();
    self.binary_loss.reset()]. *)
Definition discriminator_update : prog state unit :=
  t <- get_self ;;
  w <- lift (binary_backward (binary_loss t) (model t)) ;;
  assign (fun t => with_model w (generator_optimizer t) (discriminator_optimizer t) t) ;;
  t <- get_self ;;
  wd <- lift (discriminator_optimizer_step (model t) (discriminator_optimizer t)) ;;
  assign (fun t => with_model wd.1 (generator_optimizer t) wd.2 t) ;;
  assign (fun t => with_losses (nll_loss t) (binary_reset (binary_loss t)) t).

Definition train_generator : prog state unit :=
  for_each (range_from 0 20) (fun epo =>
    let loss_total := 0%Q in
    assign (with_modes true false) ;;
    loss_total <- for_fold (load_data Train)
      (fun (loss_total : Q) b =>
         assign (fun t => with_model (gan_zero_grad (model t)) (generator_optimizer t)
                            (discriminator_optimizer t) t) ;;
         t <- get_self ;;
         outputs <- lift (generator_pre_train (model t) b) ;;
         batch_equation <- lift (target_of b) ;;
         l <- lift (nll_eval_batch (nll_loss t) outputs batch_equation) ;;
         assign (fun t => with_losses l (binary_loss t) t) ;;
         let batch_loss := nll_get_loss l in
         let loss_total := (loss_total + batch_loss)%Q in
         t <- get_self ;;
         w <- lift (nll_backward (nll_loss t) (model t)) ;;
         assign (fun t => with_model w (generator_optimizer t) (discriminator_optimizer t) t) ;;
         t <- get_self ;;
         wg <- lift (generator_optimizer_step (model t) (generator_optimizer t)) ;;
         assign (fun t => with_model wg.1 wg.2 (discriminator_optimizer t) t) ;;
         assign (fun t => with_losses (nll_reset (nll_loss t)) (binary_loss t) t) ;;
         ret loss_total)
      loss_total ;;
    emit (PretrainLog "generator" (epo + 1) loss_total (train_batch_nums_of cfg))).

Definition train_discriminator : prog state unit :=
  for_each (range_from 0 20) (fun epo =>
    let loss_total := 0%Q in
    assign (with_modes false true) ;;
    loss_total <- for_fold (load_data Train)
      (fun (loss_total : Q) b =>
         assign (fun t => with_model (gan_zero_grad (model t)) (generator_optimizer t)
                            (discriminator_optimizer t) t) ;;
         t <- get_self ;;
         output <- lift (generator_generate (model t) b) ;;
         d_loss <- discriminate output b ;;
         let loss_total := (loss_total + d_loss)%Q in
         discriminator_update ;;
         ret loss_total)
      loss_total ;;
    emit (PretrainLog "discriminator" (epo + 1) loss_total (train_batch_nums_of cfg))).

(** One turn of the loop of [get_reward], at step [idx] on the roll-out
    [monte_carlo_outputs[idx]]. *)
Definition reward_step (w : weights) (outputs : tensor2) (token_logits : list (list Q))
    (batch_size : nat) (rewards : scalar) (idx_mc : nat * rollout) : outcome scalar :=
  let idx := idx_mc.1 in
  reward ← discriminator_mean w idx_mc.2 batch_size;
  mask ← column_ne outputs idx (out_pad_token cfg);
  logit ← list_getitem token_logits (Z.of_nat idx);
  reward ← tensor_mul reward logit;
  reward ← tensor_mul reward (mask_float mask);
  let mask_sum := mask_sum mask in
  if (mask_sum =? 0)%nat then Return rewards
  else Return (scalar_add rewards (tensor_sum reward / inject_Z (Z.of_nat mask_sum))%Q).

Fixpoint reward_loop (w : weights) (outputs : tensor2) (token_logits : list (list Q))
    (batch_size : nat) (rewards : scalar) (steps : list (nat * rollout)) : outcome scalar :=
  match steps with
  | [] => Return rewards
  | s :: steps' =>
      match reward_step w outputs token_logits batch_size rewards s with
      | Return rewards' => reward_loop w outputs token_logits batch_size rewards' steps'
      | Raise e => Raise e
      end
  end.

Definition get_reward (w : weights) (outputs : tensor2) (monte_carlo_outputs : list rollout)
    (token_logits : list (list Q)) : outcome scalar :=
  let rewards := PyZero in
  let batch_size := size0 outputs in
  rewards ← reward_loop w outputs token_logits batch_size rewards
              (imap (fun idx mc => (idx, mc)) monte_carlo_outputs);
  Return (scalar_neg rewards).

Definition _train_batch (b : batch) : prog state (scalar * Q) :=
  assign (with_modes true false) ;;
  t <- get_self ;;
  s <- lift (generator_sample (model t) b) ;;
  let '(outputs, monte_carlo_outputs, P) := s in
  g_loss <- lift (get_reward (model t) outputs monte_carlo_outputs P) ;;
  assign (with_modes false true) ;;
  d_loss <- discriminate outputs b ;;
  assign (with_modes true true) ;;
  ret (g_loss, d_loss).

Definition _eval_batch (w : weights) (b : batch) : outcome (list bool * list bool) :=
  test_out ← gan_model_infer w b;
  target ← target_of b;
  let batch_size := size0 target in
  acs ← for_collect (fun idx =>
           out ← list_getitem test_out (Z.of_nat idx);
           gan_evaluator_result out (row target idx) b idx)
         (range batch_size);
  Return (map fst acs, map snd acs).

(** [g_loss_total += g_batch_loss] on a float total. *)
Definition add_scalar (total : Q) (x : scalar) : Q :=
  match x with
  | PyZero => total
  | Scalar y => (total + y)%Q
  end.

(** [g_batch_loss.backward()]: the integer [0] has no such method. *)
Definition backward_of (g_batch_loss : scalar) (w : weights) : outcome weights :=
  match g_batch_loss with
  | PyZero => Raise (AttributeError "backward")
  | Scalar x => reward_backward x w
  end.

Definition _train_epoch : prog state (Q * Q * string) :=
  assign (with_modes true true) ;;
  totals <- for_fold (imap (fun i b => (Z.of_nat i, b)) (load_data Train))
    (fun (totals : Q * Q) ib =>
       assign (fun t => with_counters (start_epoch t) (epoch_i t) (Some (ib.1 + 1)) t) ;;
       assign (fun t => with_model (gan_zero_grad (model t)) (generator_optimizer t)
                          (discriminator_optimizer t) t) ;;
       r <- _train_batch ib.2 ;;
       let g_loss_total := add_scalar totals.1 r.1 in
       t <- get_self ;;
       w <- lift (backward_of r.1 (model t)) ;;
       assign (fun t => with_model w (generator_optimizer t) (discriminator_optimizer t) t) ;;
       t <- get_self ;;
       wg <- lift (generator_optimizer_step (model t) (generator_optimizer t)) ;;
       assign (fun t => with_model wg.1 wg.2 (discriminator_optimizer t) t) ;;
       let d_loss_total := (totals.2 + r.2)%Q in
       discriminator_update ;;
       ret (g_loss_total, d_loss_total))
    (0%Q, 0%Q) ;;
  epoch_time_cost <- elapsed ;;
  ret (totals, epoch_time_cost).

Definition evaluate (eval_set : DatasetType) : prog state (Q * Q * Z * string) :=
  assign (with_modes false false) ;;
  t <- get_self ;;
  evaluate_loop (_eval_batch (model t)) eval_set.

(** A call of [self.evaluate] on the given positional arguments:
    [evaluate] has exactly one parameter besides [self].  The [TypeError] of
    a call without it is tagged with the parameter; the text of its message
    is the interpreter's and varies with its version. *)
Definition call_evaluate (args : list DatasetType) : prog state (Q * Q * Z * string) :=
  match args with
  | [eval_set] => evaluate eval_set
  | _ => raise (TypeError "eval_set")
  end.

(** [self.best_value_accuracy]. *)
Definition read_best_value_accuracy : prog state Q :=
  t <- get_self ;;
  match best_value_accuracy t with
  | Some x => ret x
  | None => raise (AttributeError "best_value_accuracy")
  end.

Definition evaluation_point : prog state unit :=
  r <- call_evaluate [] ;;
  let '(equation_ac, value_ac, eval_total, test_time_cost) := r in
  emit (TestLog eval_total equation_ac value_ac test_time_cost) ;;
  best <- read_best_value_accuracy ;;
  if Qle_bool best value_ac
  then
    assign (fun t => with_best_accuracy (Some value_ac) (best_equ_accuracy t) t) ;;
    assign (fun t => with_best_accuracy (best_value_accuracy t) (Some equation_ac) t) ;;
    _save_model
  else ret tt.

Definition fit_epoch (epo : Z) : prog state unit :=
  assign (fun t => with_counters (start_epoch t) (epo + 1) (batch_idx t) t) ;;
  assign (with_modes true true) ;;
  r <- _train_epoch ;;
  t <- get_self ;;
  emit (GanEpochLog (epoch_i t) r.1.1 r.1.2 (train_batch_nums_of cfg) r.2) ;;
  (if (epo mod 2 =? 0) || (epo >? epoch_nums cfg - 5)
   then evaluation_point else ret tt) ;;
  (if epo mod 5 =? 0 then _save_checkpoint else ret tt).

Definition fit : prog state unit :=
  assign (with_train_batch_nums (train_batch_nums_of cfg)) ;;
  train_generator ;;
  train_discriminator ;;
  t <- get_self ;;
  for_each (range_from (start_epoch t) (epoch_nums cfg)) fit_epoch.
End WithBackend.
End SeqGANTrainer.

(** ** Concrete collaborators

    Small instances of the collaborators, on which the trainers can be run. *)

(** The vocabularies of the shared-vocabulary scenario: the input words at
    indices 3, 7 and 2 are [plus], [7] and [x]. *)
Definition scenario_dataset : dataset :=
  {| in_idx2word := ["<PAD>"; "<UNK>"; "x"; "plus"; "minus"; "1"; "3"; "7"];
     out_symbol2idx := <["plus" := 1]> (<["7" := 5]> (<["x" := 9]> ∅)) |}.

(** A model is the number of optimizer steps it has taken; a batch is a
    number; an output carries the verdict the evaluator will give.  The
    batches of the validation split are always solved; the batches of the
    test split are solved only by a model that has taken fewer than two
    steps. *)
Definition toy_backend (data : DatasetType -> list nat) : Backend :=
  {| weights := nat;
     optim_state := nat;
     sched_state := nat;
     loss_state := Q;
     batch := nat;
     output := bool * bool;
     load_data := data;
     trainset_nums := 4;
     int_truediv := fun a b => Z.of_N (a / Npos b);
     equation := fun _ => LongTensor [[3; 7; 2]];
     time_since := fun _ => "0s" |}.

Definition toy_data (eval_set : DatasetType) : list nat :=
  match eval_set with
  | Train => [0%nat]
  | Valid => [1%nat; 1%nat]
  | Test => [2%nat]
  end.

Definition no_data (eval_set : DatasetType) : list nat := [].

Definition toy_verdict (w b : nat) : bool * bool :=
  match b with
  | 2%nat => ((w <? 2)%nat, (w <? 2)%nat)
  | _ => (true, true)
  end.

Definition toy_seq_ops (data : DatasetType -> list nat) : @SeqOps (toy_backend data) :=
  @Build_SeqOps (toy_backend data) unit
    (fun w => w)
    (fun _ _ => Return tt)
    (fun (l : Q) _ _ => Return (l + 1)%Q)
    (fun (l : Q) => l)
    (fun _ (w : nat) => Return w)
    (fun (w o : nat) => Return (S w, S o))
    (fun _ => 0%Q)
    (fun (w b : nat) => Return [toy_verdict w b])
    (fun out _ _ _ => Return out).

Definition toy_gts_ops (data : DatasetType -> list nat) : @GtsOps (toy_backend data) :=
  @Build_GtsOps (toy_backend data) unit
    (fun _ => 0%nat)
    (fun _ => 0%nat)
    (fun _ w => w)
    (fun _ _ _ => Return tt)
    (fun (l : Q) _ _ => Return (l + 1)%Q)
    (fun (l : Q) => l)
    (fun _ (w : nat) => Return (S w))
    (fun _ (w o : nat) => Return (w, S o))
    (fun _ => 0%Q)
    (fun (s o : nat) => (S s, o))
    (fun (w b : nat) _ => Return (toy_verdict w b))
    (fun out _ _ => Return out).

(** The generator of the adversarial instance samples two sequences of two
    tokens, the second one ending on the padding token [0]. *)
Definition toy_gan_ops (data : DatasetType -> list nat) : @GanOps (toy_backend data) :=
  @Build_GanOps (toy_backend data) unit (list Q)
    (fun w => w)
    (fun _ _ => Return tt)
    (fun (l : Q) _ _ => Return (l + 1)%Q)
    (fun (l : Q) => l)
    (fun _ (w : nat) => Return w)
    (fun _ => 0%Q)
    (fun (w o : nat) => Return (S w, S o))
    (fun (w o : nat) => Return (w, S o))
    (fun _ _ => Return (LongTensor [[3; 7]; [2; 0]]))
    (fun _ _ =>
       Return (LongTensor [[3; 7]; [2; 0]],
               [[1 # 2; 1 # 4]; [1 # 3; 1 # 5]]%Q,
               [[-1; -2]; [-3; -4]]%Q))
    (fun _ mc _ => Return mc)
    (fun (l : Q) _ _ _ => Return (l + 1)%Q)
    (fun (l : Q) _ => l)
    (fun (l : Q) => l)
    (fun _ (w : nat) => Return w)
    (fun _ => 0%Q)
    (fun _ (w : nat) => Return w)
    (fun (w b : nat) => Return [toy_verdict w b])
    (fun out _ _ _ => Return out).

(** [self.optimizer.get_lr()] of the concrete warm-up wrapper. *)
Definition toy_get_lr (o : nat) : outcome (list Q) := Return [(1 # 1000)%Q].

#[global] Existing Instances toy_seq_ops toy_gts_ops toy_gan_ops.

Definition toy_config_with (share : bool) (epochs : Z) : config :=
  {| checkpoint_path := "checkpoint.pth";
     trained_model_path := "trained_model.pth";
     resume := false;
     share_vocab := share;
     epoch_nums := epochs;
     train_batch_size := 2;
     learning_rate := 1 # 1000;
     weight_decay := 1 # 100000;
     step_size := 20;
     out_pad_token := 0 |}.

Definition toy_config : Z -> config := toy_config_with true.

(** A tree-decoder model with one parameter in each of its five
    submodules. *)
Definition toy_gts_module : gts_module :=
  {| embedder := ["embedder.weight"];
     encoder := ["encoder.weight"];
     decoder := ["decoder.weight"];
     node_generater := ["node_generater.weight"];
     merge := ["merge.weight"] |}.

(** A machine about to run a freshly constructed trainer. *)
Definition fresh {T : Type} `{B : Backend} (t : T) : machine T :=
  {| self := t; files := ∅; log := []; clock := 0 |}.

(** The freshly constructed trainers of the concrete collaborators. *)
Definition toy_trainer (data : DatasetType -> list nat)
  : @machine (toy_backend data) (@Trainer.state (toy_backend data)) :=
  @fresh _ (toy_backend data) (@Trainer.init (toy_backend data) 0%nat 0%nat 0%Q).

Definition toy_gts_trainer (data : DatasetType -> list nat) (cfg : config)
  : @machine (toy_backend data) (@GTSTrainer.state (toy_backend data)) :=
  @fresh _ (toy_backend data)
    (@GTSTrainer.init (toy_backend data) (toy_gts_ops data) cfg 0%nat toy_gts_module 0%Q).

Definition toy_gan_trainer (data : DatasetType -> list nat)
  : @machine (toy_backend data) (@SeqGANTrainer.state (toy_backend data)) :=
  @fresh _ (toy_backend data)
    (@SeqGANTrainer.init (toy_backend data) 0%nat 0%nat 0%nat 0%Q 0%Q).

(** An adversarial instance whose generator samples nothing but the padding
    token [0]. *)
Definition padding_gan_ops (data : DatasetType -> list nat) : @GanOps (toy_backend data) :=
  @Build_GanOps (toy_backend data) unit (list Q)
    (fun w => w)
    (fun _ _ => Return tt)
    (fun (l : Q) _ _ => Return (l + 1)%Q)
    (fun (l : Q) => l)
    (fun _ (w : nat) => Return w)
    (fun _ => 0%Q)
    (fun (w o : nat) => Return (S w, S o))
    (fun (w o : nat) => Return (w, S o))
    (fun _ _ => Return (LongTensor [[0; 0]; [0; 0]]))
    (fun _ _ =>
       Return (LongTensor [[0; 0]; [0; 0]],
               [[1 # 2; 1 # 4]; [1 # 3; 1 # 5]]%Q,
               [[-1; -2]; [-3; -4]]%Q))
    (fun _ mc _ => Return mc)
    (fun (l : Q) _ _ _ => Return (l + 1)%Q)
    (fun (l : Q) _ => l)
    (fun (l : Q) => l)
    (fun _ (w : nat) => Return w)
    (fun _ => 0%Q)
    (fun _ (w : nat) => Return w)
    (fun (w b : nat) => Return [toy_verdict w b])
    (fun out _ _ _ => Return out).

(** The vocabularies of the scenario with the padding symbol in the output
    vocabulary. *)
Definition padded_dataset : dataset :=
  {| in_idx2word := in_idx2word scenario_dataset;
     out_symbol2idx := <["<PAD>" := 0]> (out_symbol2idx scenario_dataset) |}.

(** A loader whose batches hold nothing but the padding token [0] in their
    equations, with the adversarial instance of the concrete generator. *)
Definition padded_targets_backend (data : DatasetType -> list nat) : Backend :=
  {| weights := nat;
     optim_state := nat;
     sched_state := nat;
     loss_state := Q;
     batch := nat;
     output := bool * bool;
     load_data := data;
     trainset_nums := 4;
     int_truediv := fun a b => Z.of_N (a / Npos b);
     equation := fun _ => LongTensor [[0; 0]; [0; 0]];
     time_since := fun _ => "0s" |}.

Definition padded_targets_gan_ops (data : DatasetType -> list nat)
  : @GanOps (padded_targets_backend data) :=
  @Build_GanOps (padded_targets_backend data) unit (list Q)
    (fun w => w)
    (fun _ _ => Return tt)
    (fun (l : Q) _ _ => Return (l + 1)%Q)
    (fun (l : Q) => l)
    (fun _ (w : nat) => Return w)
    (fun _ => 0%Q)
    (fun (w o : nat) => Return (S w, S o))
    (fun (w o : nat) => Return (w, S o))
    (fun _ _ => Return (LongTensor [[3; 7]; [2; 0]]))
    (fun _ _ =>
       Return (LongTensor [[3; 7]; [2; 0]],
               [[1 # 2; 1 # 4]; [1 # 3; 1 # 5]]%Q,
               [[-1; -2]; [-3; -4]]%Q))
    (fun _ mc _ => Return mc)
    (fun (l : Q) _ _ _ => Return (l + 1)%Q)
    (fun (l : Q) _ => l)
    (fun (l : Q) => l)
    (fun _ (w : nat) => Return w)
    (fun _ => 0%Q)
    (fun _ (w : nat) => Return w)
    (fun (w b : nat) => Return [toy_verdict w b])
    (fun out _ _ _ => Return out).

Definition padded_targets_gan_trainer (data : DatasetType -> list nat)
  : @machine (padded_targets_backend data)
      (@SeqGANTrainer.state (padded_targets_backend data)) :=
  @fresh _ (padded_targets_backend data)
    (@SeqGANTrainer.init (padded_targets_backend data) 0%nat 0%nat 0%nat 0%Q 0%Q).

(** The concrete configuration with [resume] enabled. *)
Definition toy_resume_config (epochs : Z) : config :=
  {| checkpoint_path := "checkpoint.pth";
     trained_model_path := "trained_model.pth";
     resume := true;
     share_vocab := true;
     epoch_nums := epochs;
     train_batch_size := 2;
     learning_rate := 1 # 1000;
     weight_decay := 1 # 100000;
     step_size := 20;
     out_pad_token := 0 |}.

(** ** Observations on a run *)

(** The machine on which a trainer [t'] resumes from the files left by [m]. *)
Definition resuming `{B : Backend} {T : Type} (t' : T) (m : machine T) : machine T :=
  {| self := t'; files := files m; log := []; clock := 0 |}.

(** [preserves R c]: the machine after the body [c] is related by [R] to the
    machine before, whether [c] returns or raises. *)
Definition preserves `{B : Backend} {T A : Type} (R : machine T -> machine T -> Prop)
    (c : prog T A) : Prop :=
  forall m, R m (snd (c m)).

(** What leaves the trainer object and the files as they are. *)
Definition untouched `{B : Backend} {T : Type} (m m' : machine T) : Prop :=
  self m' = self m /\ files m' = files m.

(** [kept m m']: the files are the same, and so is the trainer object but
    for the mode of its model. *)
Definition kept `{B : Backend} (m m' : machine Trainer.state) : Prop :=
  Trainer.with_training true (self m') = Trainer.with_training true (self m) /\
  files m' = files m.

(** The same on the tree-decoder trainer. *)
Definition gts_kept `{B : Backend} (m m' : machine GTSTrainer.state) : Prop :=
  GTSTrainer.with_training true (self m') = GTSTrainer.with_training true (self m) /\
  files m' = files m.

(** [best_grows m m']: the best validation value accuracy of the trainer of
    [m'] is at least that of the trainer of [m]. *)
Definition best_grows `{B : Backend} (m m' : machine Trainer.state) : Prop :=
  (Trainer.best_valid_value_accuracy (self m)
   <= Trainer.best_valid_value_accuracy (self m'))%Q.

(** The same relation on the tree-decoder trainer. *)
Definition gts_best_grows `{B : Backend} (m m' : machine GTSTrainer.state) : Prop :=
  (GTSTrainer.best_valid_value_accuracy (self m)
   <= GTSTrainer.best_valid_value_accuracy (self m'))%Q.

(** [same_start m m']: the start epoch of the trainer is the same, and so
    is its attribute [best_value_accuracy]. *)
Definition same_start `{B : Backend} (m m' : machine SeqGANTrainer.state) : Prop :=
  SeqGANTrainer.start_epoch (self m') = SeqGANTrainer.start_epoch (self m) /\
  SeqGANTrainer.best_value_accuracy (self m') = SeqGANTrainer.best_value_accuracy (self m).

(** What the log tells about the schedule: the line of an epoch, and the
    entries into [evaluate]. *)
Inductive mark : Type :=
| EpochMark (epoch_i : Z)
| EvalMark (eval_set : DatasetType).

Definition mark_of (e : event) : option mark :=
  match e with
  | EpochLog epoch_i _ _ _ => Some (EpochMark epoch_i)
  | LrEpochLog epoch_i _ _ _ _ => Some (EpochMark epoch_i)
  | GanEpochLog epoch_i _ _ _ _ => Some (EpochMark epoch_i)
  | Evaluating eval_set => Some (EvalMark eval_set)
  | _ => None
  end.

Definition marks (l : list event) : list mark := omap mark_of l.

(** An epoch with index [epo] is an evaluation epoch for a period when the
    index is a multiple of the period or lies in the last four epochs. *)
Definition evaluation_epoch (period epoch_nums epo : Z) : bool :=
  (epo mod period =? 0) || (epo >? epoch_nums - 5).

(** The marks of one epoch of a run that evaluates the validation split,
    then the test split, on the evaluation epochs. *)
Definition schedule (period epoch_nums epo : Z) : list mark :=
  EpochMark (epo + 1) ::
  (if evaluation_epoch period epoch_nums epo then [EvalMark Valid; EvalMark Test] else []).

(** [quiet ep m m']: no mark was logged and the epoch counter read by [ep]
    is the same. *)
Definition quiet `{B : Backend} {T : Type} (ep : T -> Z) (m m' : machine T) : Prop :=
  marks (log m') = marks (log m) /\ ep (self m') = ep (self m).

(** The counts that the loop of [evaluate] and of [test] keeps over the
    batches [bs]: the value hits, the equation hits and the examples seen. *)
Fixpoint tally `{B : Backend} (eval_batch : batch -> outcome (list bool * list bool))
    (bs : list batch) (acc : nat * nat * nat) : outcome (nat * nat * nat) :=
  match bs with
  | [] => Return acc
  | b :: bs' =>
      match eval_batch b with
      | Return r =>
          tally eval_batch bs'
            ((acc.1.1 + count_true r.1)%nat, (acc.1.2 + count_true r.2)%nat,
             (acc.2 + length r.1)%nat)
      | Raise e => Raise e
      end
  end.

(** The examples held by a list of batches: the rows of their equation
    tensors. *)
Definition examples `{B : Backend} (bs : list batch) : nat :=
  foldr (fun b n => (size0 (equation b) + n)%nat) 0%nat bs.

(** [same_field f m m']: the attribute of the trainer read by [f] is the same. *)
Definition same_field `{B : Backend} {T A : Type} (f : T -> A) (m m' : machine T) : Prop :=
  f (self m') = f (self m).

(** [same_file path m m']: the file at [path] is the same, or is missing in
    both. *)
Definition same_file `{B : Backend} {T : Type} (path : string) (m m' : machine T) : Prop :=
  files m' !! path = files m !! path.

(** The marks of one epoch of the transformer trainer: on the evaluation
    epochs it evaluates the training split, then the test split. *)
Definition transformer_schedule (epoch_nums epo : Z) : list mark :=
  EpochMark (epo + 1) ::
  (if evaluation_epoch 2 epoch_nums epo then [EvalMark Train; EvalMark Test] else []).

(** * Properties *)

(** ** Loops that collect *)

Lemma for_collect_Return {A C} (f : A -> outcome C) (xs : list A) (ys : list C) :
  for_collect f xs = Return ys <-> Forall2 (fun x y => f x = Return y) xs ys.
Proof.
  revert ys. induction xs as [|x xs IH]; intros ys; simpl.
  - split.
    + intros [= <-]. constructor.
    + intros H. inversion H. reflexivity.
  - destruct (f x) as [y|e] eqn:Hx.
    + destruct (for_collect f xs) as [ys'|e] eqn:Hxs.
      * split.
        -- intros [= <-]. constructor; [exact Hx|]. apply IH. reflexivity.
        -- intros H. inversion H as [|? y' ? ys'' Hy Hys]; subst.
           rewrite Hx in Hy. injection Hy as ->.
           apply IH in Hys. injection Hys as ->. reflexivity.
      * split; [discriminate|].
        intros H. inversion H as [|? y' ? ys'' Hy Hys]; subst.
        apply IH in Hys. discriminate.
    + split; [discriminate|].
      intros H. inversion H as [|? y' ? ys'' Hy Hys]; subst.
      rewrite Hx in Hy. discriminate.
Qed.

Lemma for_collect_total {A C} (f : A -> outcome C) (xs : list A) :
  (forall x, In x xs -> exists y, f x = Return y) ->
  exists ys, for_collect f xs = Return ys.
Proof.
  induction xs as [|x xs IH]; intros H; simpl.
  - eexists. reflexivity.
  - destruct (H x) as [y Hy]; [left; reflexivity|]. rewrite Hy.
    destruct IH as [ys Hys]; [intros x' Hx'; apply H; right; exact Hx'|].
    rewrite Hys. eexists. reflexivity.
Qed.

Lemma for_collect_raises {A C} (f : A -> outcome C) (P : exn -> Prop) (xs : list A) :
  (forall x e, In x xs -> f x = Raise e -> P e) ->
  (exists x, In x xs /\ raised (f x)) ->
  exists e, for_collect f xs = Raise e /\ P e.
Proof.
  induction xs as [|x xs IH]; intros HP [x0 [Hin Hr]]; simpl.
  - destruct Hin.
  - destruct (f x) as [y|e] eqn:Hx.
    + destruct IH as [e [He HPe]].
      * intros x' e' Hx' Hf. apply (HP x'); [right; exact Hx'|exact Hf].
      * destruct Hin as [->|Hin].
        -- rewrite Hx in Hr. destruct Hr.
        -- exists x0. split; assumption.
      * rewrite He. exists e. split; [reflexivity|exact HPe].
    + exists e. split; [reflexivity|]. apply (HP x); [left; reflexivity|exact Hx].
Qed.

Lemma for_collect_Raise_inv {A C} (f : A -> outcome C) (xs : list A) (e : exn) :
  for_collect f xs = Raise e -> exists x, In x xs /\ f x = Raise e.
Proof.
  induction xs as [|x xs IH]; simpl; [discriminate|].
  destruct (f x) as [y|e'] eqn:Hx.
  - destruct (for_collect f xs) as [ys|e'] eqn:Hxs; [discriminate|].
    intros [= ->]. destruct IH as [x' [Hin Hf]]; [reflexivity|].
    exists x'. split; [right; exact Hin|exact Hf].
  - intros [= ->]. exists x. split; [left; reflexivity|exact Hx].
Qed.

Lemma in_range (n i : nat) : In i (range n) <-> (i < n)%nat.
Proof. unfold range. rewrite in_seq. lia. Qed.

Lemma range_lookup (n i : nat) : (i < n)%nat -> range n !! i = Some i.
Proof. intros H. unfold range. rewrite lookup_seq. auto. Qed.

(** ** Vocabulary re-indexing *)

Lemma LongTensor_item (rows : list (list Z)) (b idx : nat) (r : list Z) (z : Z) :
  rows !! b = Some r -> r !! idx = Some z -> item (LongTensor rows) b idx = z.
Proof.
  intros Hb Hi. simpl.
  rewrite (nth_lookup_Some _ _ _ _ Hb). apply nth_lookup_Some. exact Hi.
Qed.

(** C6. [_idx2word_2idx] maps every position through the input vocabulary
    and then through the output vocabulary: on the scenario it produces
    [[1; 5; 9]]; when every position has an input word, the result holds at
    each position the output index of that word if all the words are known to
    the output vocabulary, and a [KeyError] on an unknown word is raised as
    soon as some position's word is not. *)
Theorem idx2word_2idx_reindexes :
  _idx2word_2idx scenario_dataset (LongTensor [[3; 7; 2]]) = Return (LongTensor [[1; 5; 9]]) /\
  forall (ds : dataset) (t : tensor2),
    (forall b idx, (b < size0 t)%nat -> (idx < size1 t)%nat ->
       exists w, list_getitem (in_idx2word ds) (item t b idx) = Return w) ->
    ((forall b idx w, (b < size0 t)%nat -> (idx < size1 t)%nat ->
        list_getitem (in_idx2word ds) (item t b idx) = Return w ->
        is_Some (out_symbol2idx ds !! w)) ->
     exists r, _idx2word_2idx ds t = Return r /\ size0 r = size0 t /\
       forall b idx, (b < size0 t)%nat -> (idx < size1 t)%nat ->
         exists w, list_getitem (in_idx2word ds) (item t b idx) = Return w /\
                   out_symbol2idx ds !! w = Some (item r b idx)) /\
    ((exists b idx w, (b < size0 t)%nat /\ (idx < size1 t)%nat /\
        list_getitem (in_idx2word ds) (item t b idx) = Return w /\
        out_symbol2idx ds !! w = None) ->
     exists w, _idx2word_2idx ds t = Raise (KeyError w) /\ out_symbol2idx ds !! w = None).
Proof.
  split; [vm_compute; reflexivity|].
  intros ds t Hword. unfold _idx2word_2idx. split.
  - intros Hknown.
    set (cell := fun b idx =>
           list_getitem (in_idx2word ds) (item t b idx) ≫= dict_getitem (out_symbol2idx ds)).
    assert (Hcell : forall b idx, (b < size0 t)%nat -> (idx < size1 t)%nat ->
              exists z, cell b idx = Return z).
    { intros b idx Hb Hi. unfold cell.
      destruct (Hword b idx Hb Hi) as [w Hw]. rewrite Hw. simpl.
      destruct (Hknown b idx w Hb Hi Hw) as [z Hz].
      unfold dict_getitem. rewrite Hz. eexists. reflexivity. }
    destruct (for_collect_total
                (fun b => for_collect (fun idx => cell b idx) (range (size1 t)))
                (range (size0 t))) as [rows Hrows].
    { intros b Hb. apply in_range in Hb.
      apply for_collect_total. intros idx Hi. apply in_range in Hi.
      apply Hcell; assumption. }
    change (for_collect _ (range (size0 t))) with
      (for_collect (fun b => for_collect (fun idx => cell b idx) (range (size1 t)))
         (range (size0 t))).
    rewrite Hrows. simpl.
    apply for_collect_Return in Hrows.
    exists (LongTensor rows). split; [reflexivity|]. split.
    { simpl. apply Forall2_length in Hrows. rewrite <- Hrows. unfold range. apply length_seq. }
    intros b idx Hb Hi.
    destruct (Forall2_lookup_l _ _ _ b b Hrows (range_lookup _ _ Hb)) as [r [Hr Hrow]].
    apply for_collect_Return in Hrow.
    destruct (Forall2_lookup_l _ _ _ idx idx Hrow (range_lookup _ _ Hi)) as [z [Hz Hc]].
    rewrite (LongTensor_item rows b idx r z Hr Hz).
    unfold cell in Hc.
    destruct (Hword b idx Hb Hi) as [w Hw]. rewrite Hw in Hc. simpl in Hc.
    exists w. split; [exact Hw|].
    unfold dict_getitem in Hc. destruct (out_symbol2idx ds !! w); [|discriminate].
    injection Hc as ->. reflexivity.
  - intros [b [idx [w [Hb [Hi [Hw Hnone]]]]]].
    set (P := fun e => exists w, e = KeyError w /\ out_symbol2idx ds !! w = None).
    assert (Hcell : forall b idx e, (b < size0 t)%nat -> (idx < size1 t)%nat ->
              (list_getitem (in_idx2word ds) (item t b idx)
                 ≫= dict_getitem (out_symbol2idx ds)) = Raise e -> P e).
    { intros b' idx' e Hb' Hi' He.
      destruct (Hword b' idx' Hb' Hi') as [w' Hw']. rewrite Hw' in He. simpl in He.
      unfold dict_getitem in He.
      destruct (out_symbol2idx ds !! w') eqn:Hl; [discriminate|].
      injection He as <-. exists w'. split; [reflexivity|exact Hl]. }
    destruct (for_collect_raises
                (fun b => for_collect (fun idx =>
                   list_getitem (in_idx2word ds) (item t b idx)
                     ≫= dict_getitem (out_symbol2idx ds)) (range (size1 t)))
                P (range (size0 t))) as [e [He [w' [-> Hw']]]].
    { intros b' e Hb' He. apply in_range in Hb'.
      apply for_collect_Raise_inv in He as [idx' [Hi' Hc]]. apply in_range in Hi'.
      apply (Hcell b' idx'); assumption. }
    { exists b. split; [apply in_range; exact Hb|].
      destruct (for_collect_raises
                  (fun idx => list_getitem (in_idx2word ds) (item t b idx)
                                ≫= dict_getitem (out_symbol2idx ds))
                  P (range (size1 t))) as [e' [He' _]].
      - intros idx' e' Hi' Hc. apply in_range in Hi'. apply (Hcell b idx'); assumption.
      - exists idx. split; [apply in_range; exact Hi|].
        rewrite Hw. simpl. unfold dict_getitem. rewrite Hnone. exact I.
      - rewrite He'. exact I. }
    exists w'. split; [|exact Hw'].
    change (for_collect _ (range (size0 t))) with
      (for_collect (fun b => for_collect (fun idx =>
                   list_getitem (in_idx2word ds) (item t b idx)
                     ≫= dict_getitem (out_symbol2idx ds)) (range (size1 t)))
         (range (size0 t))).
    rewrite He. reflexivity.
Qed.

(** The scenario, run through the general statement, and an unknown word. *)
Lemma idx2word_2idx_reindexes_witness :
  (exists r, _idx2word_2idx scenario_dataset (LongTensor [[3; 7; 2]]) = Return r /\
     size0 r = 1%nat /\
     forall b idx, (b < 1)%nat -> (idx < 3)%nat ->
       exists w, list_getitem (in_idx2word scenario_dataset)
                   (item (LongTensor [[3; 7; 2]]) b idx) = Return w /\
                 out_symbol2idx scenario_dataset !! w = Some (item r b idx)) /\
  (exists w, _idx2word_2idx scenario_dataset (LongTensor [[3; 4; 2]]) = Raise (KeyError w) /\
     out_symbol2idx scenario_dataset !! w = None).
Proof.
  split.
  - apply (proj1 (proj2 idx2word_2idx_reindexes scenario_dataset (LongTensor [[3; 7; 2]])
                    ltac:(intros [|b] [|[|[|idx]]] Hb Hi; simpl in Hb, Hi; try lia;
                          eexists; vm_compute; reflexivity))).
    intros [|b] [|[|[|idx]]] w Hb Hi; simpl in Hb, Hi; try lia;
      vm_compute; intros [= <-]; eexists; reflexivity.
  - apply (proj2 (proj2 idx2word_2idx_reindexes scenario_dataset (LongTensor [[3; 4; 2]])
                    ltac:(intros [|b] [|[|[|idx]]] Hb Hi; simpl in Hb, Hi; try lia;
                          eexists; vm_compute; reflexivity))).
    exists 0%nat, 1%nat, "minus". simpl.
    split; [lia|]. split; [lia|]. split; vm_compute; reflexivity.
Defined.

(** ** Running method bodies *)

Section Running.
Context `{B : Backend} {T : Type}.

Lemma bind_Return {A C} (c : prog T A) (k : A -> prog T C) (m m' : machine T) (a : A) :
  c m = (Return a, m') -> bind c k m = k a m'.
Proof. intros H. unfold bind. rewrite H. reflexivity. Qed.

Lemma bind_Raise {A C} (c : prog T A) (k : A -> prog T C) (m m' : machine T) (e : exn) :
  c m = (Raise e, m') -> bind c k m = (Raise e, m').
Proof. intros H. unfold bind. rewrite H. reflexivity. Qed.

Lemma bind_raised {A C} (c : prog T A) (k : A -> prog T C) (m : machine T) :
  raised (fst (c m)) -> raised (fst (bind c k m)).
Proof. unfold bind. destruct (c m) as [[a|e] m']; simpl; [intros []|auto]. Qed.

Lemma bind_raised_then {A C} (c : prog T A) (k : A -> prog T C) (m : machine T) :
  (forall a m', raised (fst (k a m'))) -> raised (fst (bind c k m)).
Proof. intros H. unfold bind. destruct (c m) as [[a|e] m']; simpl; [apply H|exact I]. Qed.

(** A loop raises as soon as its body raises on one of the items. *)
Lemma for_each_raised {A} (xs : list A) (body : A -> prog T unit) (x : A) :
  In x xs -> (forall m, raised (fst (body x m))) ->
  forall m, raised (fst (for_each xs body m)).
Proof.
  induction xs as [|y xs IH]; intros Hin Hx m; [destruct Hin|].
  simpl. destruct Hin as [->|Hin].
  - apply bind_raised. apply Hx.
  - apply bind_raised_then. intros _ m'. apply IH; assumption.
Qed.

(** Relations between the machine before and after that every step of a
    body maintains. *)
Section Preserved.
Variable R : machine T -> machine T -> Prop.
Hypothesis R_refl : forall m, R m m.
Hypothesis R_trans : forall m1 m2 m3, R m1 m2 -> R m2 m3 -> R m1 m3.


Lemma preserves_ret {A} (a : A) : preserves R (ret a).
Proof. intros m. apply R_refl. Qed.

Lemma preserves_raise {A} (e : exn) : preserves R (@raise B T A e).
Proof. intros m. apply R_refl. Qed.

Lemma preserves_lift {A} (o : outcome A) : preserves R (lift o).
Proof. intros m. apply R_refl. Qed.

Lemma preserves_get_self : preserves R get_self.
Proof. intros m. apply R_refl. Qed.

Lemma preserves_torch_load (path : string) : preserves R (torch_load path).
Proof. intros m. unfold torch_load. destruct (files m !! path); apply R_refl. Qed.

Lemma preserves_bind {A C} (c : prog T A) (k : A -> prog T C) :
  preserves R c -> (forall a, preserves R (k a)) -> preserves R (bind c k).
Proof.
  intros Hc Hk m. unfold bind. specialize (Hc m).
  destruct (c m) as [[a|e] m']; simpl in *.
  - apply (R_trans _ m'); [exact Hc|apply Hk].
  - exact Hc.
Qed.

Lemma preserves_bind_self {C} (k : T -> prog T C) :
  (forall m, R m (snd (k (self m) m))) -> preserves R (bind get_self k).
Proof. intros Hk m. apply Hk. Qed.

Lemma preserves_entry {A} (d : gmap string pyval) (key : string) (as_ : pyval -> outcome A) :
  preserves R (entry d key as_).
Proof.
  unfold entry. apply preserves_bind; [apply preserves_lift|].
  intros v. apply preserves_lift.
Qed.

Lemma preserves_for_each {A} (xs : list A) (body : A -> prog T unit) :
  (forall x, preserves R (body x)) -> preserves R (for_each xs body).
Proof.
  intros Hb. induction xs as [|x xs IH]; simpl.
  - apply preserves_ret.
  - apply preserves_bind; [apply Hb|intros _; exact IH].
Qed.

Lemma preserves_for_fold {A S} (xs : list A) (body : S -> A -> prog T S) (acc : S) :
  (forall s x, preserves R (body s x)) -> preserves R (for_fold xs body acc).
Proof.
  intros Hb. revert acc. induction xs as [|x xs IH]; intros acc; simpl.
  - apply preserves_ret.
  - apply preserves_bind; [apply Hb|intros acc'; apply IH].
Qed.

Hypothesis R_emit : forall eval_set, preserves R (emit (Evaluating eval_set)).
Hypothesis R_elapsed : preserves R elapsed.

Lemma preserves_evaluate_loop (eval_batch : batch -> outcome (list bool * list bool))
    (eval_set : DatasetType) :
  preserves R (evaluate_loop eval_batch eval_set).
Proof.
  unfold evaluate_loop.
  apply preserves_bind; [apply R_emit|intros _].
  apply preserves_bind.
  { apply preserves_for_fold. intros s x.
    apply preserves_bind; [apply preserves_lift|intros r; apply preserves_ret]. }
  intros acc.
  apply preserves_bind; [apply R_elapsed|intros c].
  apply preserves_bind; [apply preserves_lift|intros equ].
  apply preserves_bind; [apply preserves_lift|intros val].
  apply preserves_ret.
Qed.
End Preserved.
End Running.

(** ** The evaluation runner *)

Lemma evaluate_loop_empty `{B : Backend} {T : Type}
    (eval_batch : batch -> outcome (list bool * list bool)) (eval_set : DatasetType)
    (m : machine T) :
  load_data eval_set = [] ->
  fst (evaluate_loop eval_batch eval_set m) = Raise ZeroDivisionError.
Proof. intros H. unfold evaluate_loop. rewrite H. reflexivity. Qed.

(** C2, as the code has it.  On a split that yields no batch, [evaluate]
    raises [ZeroDivisionError] in every trainer: the total is zero and the
    accuracies are divided by it. *)
Theorem evaluate_empty_split_raises :
  forall (B : Backend) (eval_set : DatasetType),
    load_data eval_set = [] ->
    (forall (O : SeqOps) ds cfg m,
       fst (Trainer.evaluate ds cfg eval_set m) = Raise ZeroDivisionError /\
       fst (SingleEquationTrainer.evaluate ds cfg eval_set m) = Raise ZeroDivisionError /\
       fst (MultiEquationTrainer.evaluate ds cfg eval_set m) = Raise ZeroDivisionError /\
       fst (TransformerTrainer.evaluate ds cfg eval_set m) = Raise ZeroDivisionError) /\
    (forall (O : GtsOps) generate_list ds m,
       fst (GTSTrainer.evaluate generate_list ds eval_set m) = Raise ZeroDivisionError) /\
    (forall (O : GanOps) cfg m,
       fst (SeqGANTrainer.evaluate cfg eval_set m) = Raise ZeroDivisionError).
Proof.
  intros B eval_set H. split; [|split].
  - intros O ds cfg m.
    assert (Ht : fst (Trainer.evaluate ds cfg eval_set m) = Raise ZeroDivisionError).
    { unfold Trainer.evaluate.
      erewrite (bind_Return (Trainer.assign _)); [|reflexivity].
      erewrite (bind_Return get_self); [|reflexivity].
      apply evaluate_loop_empty. exact H. }
    repeat split; exact Ht.
  - intros O gl ds m. unfold GTSTrainer.evaluate.
    erewrite (bind_Return GTSTrainer._model_eval); [|reflexivity].
    erewrite (bind_Return get_self); [|reflexivity].
    apply evaluate_loop_empty. exact H.
  - intros O cfg m. unfold SeqGANTrainer.evaluate.
    erewrite (bind_Return (SeqGANTrainer.assign _)); [|reflexivity].
    erewrite (bind_Return get_self); [|reflexivity].
    apply evaluate_loop_empty. exact H.
Qed.

Lemma evaluate_empty_split_raises_witness :
  fst (@Trainer.evaluate (toy_backend no_data) (toy_seq_ops no_data) scenario_dataset
         (toy_config 3) Valid (toy_trainer no_data))
  = Raise ZeroDivisionError.
Proof.
  apply (proj1 (evaluate_empty_split_raises (toy_backend no_data) Valid eq_refl)
           (toy_seq_ops no_data)).
Defined.

(** C2, as it is stated, fails: on a split without batches no tuple
    [(0.0, 0.0, 0, elapsed)] is returned. *)
Lemma evaluate_empty_split_no_tuple :
  ~ exists elapsed m',
      @Trainer.evaluate (toy_backend no_data) (toy_seq_ops no_data) scenario_dataset
        (toy_config 3) Valid (toy_trainer no_data)
      = (Return (0%Q, 0%Q, 0, elapsed), m').
Proof. intros [elapsed [m' H]]. vm_compute in H. discriminate H. Qed.

(** ** The summary line of [fit] *)

Lemma summary_raises `{O : SeqOps} (m : machine Trainer.state) :
  Trainer.summary m = (Raise (AttributeError "best_test_equ_accuracyself"), m).
Proof. unfold Trainer.summary. destruct m as [t fs lg ck]. vm_compute. reflexivity. Qed.

Lemma fit_raised `{O : SeqOps} (ds : dataset) (cfg : config) (m : machine Trainer.state) :
  raised (fst (Trainer.fit ds cfg m)).
Proof.
  unfold Trainer.fit.
  apply bind_raised_then. intros _ m0.
  apply bind_raised_then. intros t m1.
  apply bind_raised_then. intros _ m2.
  rewrite summary_raises. exact I.
Qed.

(** C7, against the code.  In the single- and multi-equation trainers (and
    in the trainer they copy) [fit] never terminates normally: the summary
    line reads the attribute [best_test_equ_accuracyself], which no trainer
    has, so that whenever the epoch loop completes [AttributeError] is
    raised and no summary is logged; so it is on the concrete trainer run
    for three epochs. *)
Theorem fit_summary_raises :
  (forall (B : Backend) (O : SeqOps) (ds : dataset) (cfg : config) (m : machine Trainer.state),
     raised (fst (SingleEquationTrainer.fit ds cfg m)) /\
     raised (fst (MultiEquationTrainer.fit ds cfg m)) /\
     raised (fst (Trainer.fit ds cfg m)) /\
     Trainer.summary m = (Raise (AttributeError "best_test_equ_accuracyself"), m)) /\
  fst (@SingleEquationTrainer.fit (toy_backend toy_data) (toy_seq_ops toy_data)
         scenario_dataset (toy_config 3) (toy_trainer toy_data))
  = Raise (AttributeError "best_test_equ_accuracyself").
Proof.
  split.
  - intros B O ds cfg m.
    split; [apply fit_raised|].
    split; [apply fit_raised|].
    split; [apply fit_raised|apply summary_raises].
  - vm_compute. reflexivity.
Qed.

(** ** Check-points *)


Lemma save_load_checkpoint `{O : SeqOps} (cfg : config) (m : machine Trainer.state)
    (t' : Trainer.state) :
  let t := self m in
  let loaded := Trainer._load_checkpoint cfg (resuming t' (snd (Trainer._save_checkpoint cfg m))) in
  fst loaded = Return tt /\
  self (snd loaded) =
    {| Trainer.model := Trainer.model t;
       Trainer.optimizer := Trainer.optimizer t;
       Trainer.best_valid_equ_accuracy := Trainer.best_valid_equ_accuracy t;
       Trainer.best_valid_value_accuracy := Trainer.best_valid_value_accuracy t;
       Trainer.best_test_equ_accuracy := Trainer.best_test_equ_accuracy t;
       Trainer.best_test_value_accuracy := Trainer.best_test_value_accuracy t;
       Trainer.start_epoch := Trainer.epoch_i t;
       Trainer.epoch_i := Trainer.epoch_i t';
       Trainer.batch_idx := Trainer.batch_idx t';
       Trainer.training := Trainer.training t';
       Trainer.loss := Trainer.loss t';
       Trainer.train_batch_nums := Trainer.train_batch_nums t' |}.
Proof.
  destruct m as [t fs lg ck]. simpl.
  unfold Trainer._load_checkpoint.
  erewrite bind_Return.
  2:{ unfold torch_load, resuming, Trainer._save_checkpoint. simpl.
      rewrite lookup_insert_eq. reflexivity. }
  vm_compute. split; reflexivity.
Qed.

(** C1, as the code has it.  In the single-equation, the multi-equation and
    the transformer trainer (and in [Trainer], which they copy), loading
    the check-point that [_save_checkpoint] has just written succeeds in any
    trainer of the same kind, and gives it the model, the optimizer state and
    the four best accuracies of the trainer that saved; its start epoch
    becomes the epoch counter [epoch_i] of the trainer that saved. *)
Theorem checkpoint_roundtrip :
  forall (B : Backend) (O : SeqOps) (cfg : config) (m : machine Trainer.state)
         (t' : Trainer.state),
    let t := self m in
    let restored :=
      {| Trainer.model := Trainer.model t;
         Trainer.optimizer := Trainer.optimizer t;
         Trainer.best_valid_equ_accuracy := Trainer.best_valid_equ_accuracy t;
         Trainer.best_valid_value_accuracy := Trainer.best_valid_value_accuracy t;
         Trainer.best_test_equ_accuracy := Trainer.best_test_equ_accuracy t;
         Trainer.best_test_value_accuracy := Trainer.best_test_value_accuracy t;
         Trainer.start_epoch := Trainer.epoch_i t;
         Trainer.epoch_i := Trainer.epoch_i t';
         Trainer.batch_idx := Trainer.batch_idx t';
         Trainer.training := Trainer.training t';
         Trainer.loss := Trainer.loss t';
       Trainer.train_batch_nums := Trainer.train_batch_nums t' |} in
    let single := SingleEquationTrainer._load_checkpoint cfg
                    (resuming t' (snd (SingleEquationTrainer._save_checkpoint cfg m))) in
    let multi := MultiEquationTrainer._load_checkpoint cfg
                   (resuming t' (snd (MultiEquationTrainer._save_checkpoint cfg m))) in
    let transformer := TransformerTrainer._load_checkpoint cfg
                         (resuming t' (snd (TransformerTrainer._save_checkpoint cfg m))) in
    (fst single = Return tt /\ self (snd single) = restored) /\
    (fst multi = Return tt /\ self (snd multi) = restored) /\
    (fst transformer = Return tt /\ self (snd transformer) = restored).
Proof.
  intros B O cfg m t'. cbv zeta.
  pose proof (save_load_checkpoint cfg m t') as H. cbv zeta in H.
  split; [exact H|]. split; exact H.
Qed.

(** C1, as it is stated, fails.  After the first epoch of the concrete
    trainer the start epoch is 0 and the epoch counter is 1: saving and
    loading sets the start epoch to 1.  In the tree-decoder trainer the
    check-point is written without the key that the loading reads first for a
    scheduler, and in the adversarial trainer without the start epoch:
    loading what was just saved raises [KeyError]. *)
Lemma checkpoint_roundtrip_fails :
  (let m := snd (@Trainer.fit_epoch (toy_backend toy_data) (toy_seq_ops toy_data)
                   scenario_dataset (toy_config 3) 0 (toy_trainer toy_data)) in
   let loaded := Trainer._load_checkpoint (toy_config 3)
                   (resuming (self m) (snd (Trainer._save_checkpoint (toy_config 3) m))) in
   Trainer.start_epoch (self m) = 0 /\
   Trainer.start_epoch (self (snd loaded)) = 1) /\
  (let m := toy_gts_trainer toy_data (toy_config 3) in
   fst (GTSTrainer._load_checkpoint (toy_config 3)
          (resuming (self m) (snd (GTSTrainer._save_checkpoint (toy_config 3) m))))
   = Raise (KeyError "embedding_scheduler")) /\
  (let m := toy_gan_trainer toy_data in
   fst (SeqGANTrainer._load_checkpoint (toy_config 3)
          (resuming (self m) (snd (SeqGANTrainer._save_checkpoint (toy_config 3) m))))
   = Raise (KeyError "start_epoch")).
Proof. vm_compute. repeat split; reflexivity. Qed.

(** In the tree-decoder and in the adversarial trainer the loading of a
    check-point just saved raises [KeyError] whatever the trainer. *)
Lemma gts_load_checkpoint_raises `{O : GtsOps} (cfg : config) (m : machine GTSTrainer.state)
    (t' : GTSTrainer.state) :
  fst (GTSTrainer._load_checkpoint cfg (resuming t' (snd (GTSTrainer._save_checkpoint cfg m))))
  = Raise (KeyError "embedding_scheduler").
Proof.
  destruct m as [t fs lg ck].
  unfold GTSTrainer._load_checkpoint.
  erewrite bind_Return.
  2:{ unfold torch_load, resuming, GTSTrainer._save_checkpoint. simpl.
      rewrite lookup_insert_eq. reflexivity. }
  vm_compute. reflexivity.
Qed.

Lemma gan_load_checkpoint_raises `{O : GanOps} (cfg : config) (m : machine SeqGANTrainer.state)
    (t' : SeqGANTrainer.state) :
  fst (SeqGANTrainer._load_checkpoint cfg
         (resuming t' (snd (SeqGANTrainer._save_checkpoint cfg m))))
  = Raise (KeyError "start_epoch").
Proof.
  destruct m as [t fs lg ck].
  unfold SeqGANTrainer._load_checkpoint.
  erewrite bind_Return.
  2:{ unfold torch_load, resuming, SeqGANTrainer._save_checkpoint. simpl.
      rewrite lookup_insert_eq. reflexivity. }
  vm_compute. reflexivity.
Qed.

(** ** The optimizers of the tree decoder *)

(** The rate of a scheduler with factor one half is halved by [step_size]
    more epochs. *)
Lemma steplr_rate_halves (r : role) (size : Z) (base_lr : Q) (epoch : Z) :
  0 < size ->
  (steplr_rate (MkStepLR r size (1 # 2)) base_lr (epoch + size)
   == (1 # 2) * steplr_rate (MkStepLR r size (1 # 2)) base_lr epoch)%Q.
Proof.
  intros Hsize. unfold steplr_rate. simpl.
  replace (epoch + size) with (epoch + 1 * size) by lia.
  rewrite Z_div_plus by lia.
  rewrite Qpower_plus by discriminate.
  change ((1 # 2) ^ 1)%Q with (1 # 2)%Q. ring.
Qed.

(** C8, against the code.  [_build_optimizer] gives the embedder, the
    encoder, the node generator and the merge module an optimizer over
    exactly their own parameters, and every optimizer a scheduler with step
    [step_size] and factor one half, which halves the rate every [step_size]
    epochs; but the optimizer of the decoder is built over
    [self.model.parameters()], the parameters of the whole model: every
    parameter of a submodule is also in the group of the decoder's optimizer.
    On a model with one parameter per submodule that group is not the
    decoder's, and it shares the embedder's parameter with the embedder's
    optimizer. *)
Theorem gts_decoder_optimizer_overlaps :
  (forall (cfg : config) (m : gts_module),
     let b := GTSTrainer._build_optimizer cfg m in
     params (GTSTrainer.optimizer_of b Embedder) = embedder m /\
     params (GTSTrainer.optimizer_of b Encoder) = encoder m /\
     params (GTSTrainer.optimizer_of b NodeGenerater) = node_generater m /\
     params (GTSTrainer.optimizer_of b Merge) = merge m /\
     params (GTSTrainer.optimizer_of b Decoder) = parameters m /\
     (forall r, GTSTrainer.scheduler_of b r = MkStepLR r (step_size cfg) (1 # 2)) /\
     (forall r base_lr epoch,
        0 < step_size cfg ->
        (steplr_rate (GTSTrainer.scheduler_of b r) base_lr (epoch + step_size cfg)
         == (1 # 2) * steplr_rate (GTSTrainer.scheduler_of b r) base_lr epoch)%Q) /\
     (forall r x,
        In x (GTSTrainer.submodule m r) ->
        In x (params (GTSTrainer.optimizer_of b Decoder)))) /\
  (let b := GTSTrainer._build_optimizer (toy_config 3) toy_gts_module in
   params (GTSTrainer.optimizer_of b Decoder) <> decoder toy_gts_module /\
   In "embedder.weight" (params (GTSTrainer.optimizer_of b Embedder)) /\
   In "embedder.weight" (params (GTSTrainer.optimizer_of b Decoder))).
Proof.
  split.
  - intros cfg m. cbv zeta. repeat (split; [reflexivity|]). split; [|split].
    + intros r. destruct r; reflexivity.
    + intros r base_lr epoch Hsize.
      replace (GTSTrainer.scheduler_of (GTSTrainer._build_optimizer cfg m) r)
        with (MkStepLR r (step_size cfg) (1 # 2)) by (destruct r; reflexivity).
      apply steplr_rate_halves. exact Hsize.
    + intros r x Hx. simpl. unfold parameters. rewrite !in_app_iff.
      destruct r; simpl in Hx; auto.
  - cbv zeta. split; [|split].
    + simpl. discriminate.
    + simpl. left. reflexivity.
    + simpl. left. reflexivity.
Qed.

(** On the concrete configuration the rate after twenty more epochs is half
    the rate, and the parameter of the merge module is in the group of the
    decoder's optimizer. *)
Lemma gts_decoder_optimizer_overlaps_witness :
  let b := GTSTrainer._build_optimizer (toy_config 3) toy_gts_module in
  (steplr_rate (GTSTrainer.scheduler_of b Merge) 1 (4 + step_size (toy_config 3))
   == (1 # 2) * steplr_rate (GTSTrainer.scheduler_of b Merge) 1 4)%Q /\
  In "merge.weight" (params (GTSTrainer.optimizer_of b Decoder)).
Proof.
  cbv zeta.
  destruct gts_decoder_optimizer_overlaps as [Hall _].
  destruct (Hall (toy_config 3) toy_gts_module) as (_ & _ & _ & _ & _ & _ & Hrate & Hin).
  split.
  - apply (Hrate Merge 1%Q 4). vm_compute. reflexivity.
  - apply (Hin Merge "merge.weight"). simpl. left. reflexivity.
Defined.

(** ** The reward of the adversarial phase *)

Lemma list_getitem_lookup {A} (l : list A) (i : nat) (x : A) :
  l !! i = Some x -> list_getitem l (Z.of_nat i) = Return x.
Proof.
  intros H. unfold list_getitem.
  pose proof (lookup_lt_Some _ _ _ H) as Hlt.
  destruct (Z.ltb_spec (Z.of_nat i) 0) as [Hneg|_]; [lia|].
  destruct (Z.leb_spec 0 (Z.of_nat i)) as [_|Hneg]; [|lia].
  destruct (Z.ltb_spec (Z.of_nat i) (Z.of_nat (length l))) as [_|Hge]; [|lia].
  simpl. rewrite Nat2Z.id, H. reflexivity.
Qed.

Lemma count_true_all_false (xs : list bool) :
  Forall (fun b => b = false) xs -> count_true xs = 0%nat.
Proof.
  induction 1 as [|b xs Hb _ IH]; [reflexivity|].
  subst b. unfold count_true in *. simpl. exact IH.
Qed.

Lemma column_ne_padding (outputs : tensor2) (idx : nat) (pad : Z) :
  (idx < size1 outputs)%nat ->
  (forall b, (b < size0 outputs)%nat -> item outputs b idx = pad) ->
  exists mask, column_ne outputs idx pad = Return mask /\
               length mask = size0 outputs /\ mask_sum mask = 0%nat.
Proof.
  intros Hidx Hpad. unfold column_ne.
  destruct (Nat.ltb_spec idx (size1 outputs)) as [_|Hge]; [|lia].
  eexists. split; [reflexivity|]. split.
  - rewrite length_map, length_seq. reflexivity.
  - unfold mask_sum. apply count_true_all_false.
    apply Forall_forall. intros b Hb.
    apply list_elem_of_In in Hb. apply in_map_iff in Hb as [i [<- Hi]].
    apply in_seq in Hi. rewrite (Hpad i) by lia. rewrite Z.eqb_refl. reflexivity.
Qed.

Section Reward.
Context `{O : GanOps}.
Variable cfg : config.
Variable w : weights.
Variable outputs : tensor2.
Variable token_logits : list (list Q).

Lemma reward_step_padding (rewards : scalar) (idx : nat) (mc : rollout) :
  (idx < size1 outputs)%nat ->
  (forall b, (b < size0 outputs)%nat -> item outputs b idx = out_pad_token cfg) ->
  (exists r, discriminator_mean w mc (size0 outputs) = Return r /\
             length r = size0 outputs) ->
  (exists p, token_logits !! idx = Some p /\ length p = size0 outputs) ->
  SeqGANTrainer.reward_step cfg w outputs token_logits (size0 outputs) rewards (idx, mc)
  = Return rewards.
Proof.
  intros Hidx Hpad [r [Hr Hlr]] [p [Hp Hlp]].
  unfold SeqGANTrainer.reward_step. simpl.
  rewrite Hr. simpl.
  destruct (column_ne_padding outputs idx (out_pad_token cfg) Hidx Hpad)
    as [mask [Hmask [Hlm Hsum]]].
  rewrite Hmask. simpl.
  rewrite (list_getitem_lookup _ _ _ Hp). simpl.
  unfold tensor_mul at 2.
  replace (length r =? length p)%nat with true by (symmetry; apply Nat.eqb_eq; lia).
  simpl. unfold tensor_mul.
  replace (length (zip_with Qmult r p) =? length (mask_float mask))%nat with true.
  2:{ symmetry. apply Nat.eqb_eq. rewrite length_zip_with. unfold mask_float.
      rewrite length_map. lia. }
  simpl. rewrite Hsum. reflexivity.
Qed.

Lemma reward_loop_padding (rewards : scalar) (mcs : list rollout) (k : nat) :
  (forall i mc, mcs !! i = Some mc ->
     SeqGANTrainer.reward_step cfg w outputs token_logits (size0 outputs) rewards
       ((k + i)%nat, mc) = Return rewards) ->
  SeqGANTrainer.reward_loop cfg w outputs token_logits (size0 outputs) rewards
    (imap (fun idx mc => ((k + idx)%nat, mc)) mcs) = Return rewards.
Proof.
  revert k. induction mcs as [|mc mcs IH]; intros k H; [reflexivity|].
  simpl. rewrite Nat.add_0_r.
  pose proof (H 0%nat mc eq_refl) as H0. rewrite Nat.add_0_r in H0. rewrite H0.
  rewrite (imap_ext _ (fun idx mc => ((S k + idx)%nat, mc))).
  2:{ intros i x _. simpl. f_equal. lia. }
  apply IH. intros i mc' Hi.
  replace (S k + i)%nat with (k + S i)%nat by lia. apply H. exact Hi.
Qed.
End Reward.

(** C9, as the code has it.  In the adversarial phase, when every token
    that [get_reward] masks is the padding token, the reward it returns is
    exactly the integer zero it started from: every mask is empty and no
    step adds to it.  The tokens it masks are those of its argument
    [outputs], the sequences that the generator sampled for the batch, at
    every step of the roll-out; the target of the batch is not read.  The tensors are
    well-shaped: there are at most as many steps as columns, the discriminator
    answers for each roll-out with one mean per example, and the
    log-probabilities hold one value per example for each step. *)
Theorem get_reward_all_padding :
  forall (B : Backend) (O : GanOps) (cfg : config) (w : weights) (outputs : tensor2)
         (monte_carlo_outputs : list rollout) (token_logits : list (list Q)),
    (forall b idx, (b < size0 outputs)%nat -> (idx < length monte_carlo_outputs)%nat ->
       item outputs b idx = out_pad_token cfg) ->
    (length monte_carlo_outputs <= size1 outputs)%nat ->
    (forall idx mc, monte_carlo_outputs !! idx = Some mc ->
       exists r, discriminator_mean w mc (size0 outputs) = Return r /\
                 length r = size0 outputs) ->
    (forall idx, (idx < length monte_carlo_outputs)%nat ->
       exists p, token_logits !! idx = Some p /\ length p = size0 outputs) ->
    SeqGANTrainer.get_reward cfg w outputs monte_carlo_outputs token_logits = Return PyZero.
Proof.
  intros B O cfg w outputs mcs P Hpad Hsteps Hdisc Hlogits.
  unfold SeqGANTrainer.get_reward. cbv zeta.
  pose proof (reward_loop_padding cfg w outputs P PyZero mcs 0%nat) as Hloop.
  cbn [Nat.add] in Hloop. rewrite Hloop; [reflexivity|].
  intros i mc Hi.
  pose proof (lookup_lt_Some _ _ _ Hi) as Hlt.
  apply reward_step_padding.
  - lia.
  - intros b Hb. apply Hpad; assumption.
  - apply (Hdisc i mc Hi).
  - apply Hlogits. exact Hlt.
Qed.

Lemma get_reward_all_padding_witness :
  @SeqGANTrainer.get_reward (toy_backend toy_data) (toy_gan_ops toy_data) (toy_config 3)
    0%nat (LongTensor [[0; 0]; [0; 0]]) [[1 # 2; 1 # 4]; [1 # 3; 1 # 5]]%Q
    [[-1; -2]; [-3; -4]]%Q
  = Return PyZero.
Proof.
  apply (get_reward_all_padding (toy_backend toy_data) (toy_gan_ops toy_data)).
  - intros b idx Hb Hi. simpl in Hb, Hi.
    destruct b as [|[|b]], idx as [|[|idx]]; try lia; reflexivity.
  - simpl. lia.
  - intros idx mc H. exists mc. split; [reflexivity|].
    destruct idx as [|[|idx]]; simpl in H; inversion H; reflexivity.
  - intros idx Hi. simpl in Hi.
    destruct idx as [|[|idx]]; try lia; eexists; split; reflexivity.
Defined.

(** C9, as it is stated, fails.  On a loader whose batches hold nothing
    but padding in their equations the target of the batch is all padding,
    and yet the reward that [_train_batch] computes for it is 3/2: the
    generator sampled other tokens, and the mask is taken on them. *)
Lemma get_reward_padded_targets_nonzero :
  let B := padded_targets_backend toy_data in
  let O := padded_targets_gan_ops toy_data in
  let cfg := toy_config_with false 3 in
  exists (b : @batch B) (target : tensor2) (g_loss d_loss : Q) m',
    In b (@load_data B Train) /\
    @SeqGANTrainer.target_of B cfg b = Return target /\
    (forall i idx, (i < size0 target)%nat -> (idx < size1 target)%nat ->
       item target i idx = out_pad_token cfg) /\
    @SeqGANTrainer._train_batch B O cfg b (padded_targets_gan_trainer toy_data)
    = (Return (Scalar g_loss, d_loss), m') /\
    (g_loss == 3 # 2)%Q.
Proof.
  cbv zeta. exists 0%nat. eexists. eexists. eexists. eexists.
  split; [left; reflexivity|].
  split; [reflexivity|].
  split.
  - intros i idx Hi Hidx. simpl in Hi, Hidx.
    destruct i as [|[|i]], idx as [|[|idx]]; try lia; reflexivity.
  - split; [vm_compute; reflexivity|]. vm_compute. reflexivity.
Qed.

(** On the sample of the concrete generator, whose tokens are not all
    padding, the reward is not zero. *)
Example get_reward_sample :
  @SeqGANTrainer.get_reward (toy_backend toy_data) (toy_gan_ops toy_data) (toy_config 3)
    0%nat (LongTensor [[3; 7]; [2; 0]]) [[1 # 2; 1 # 4]; [1 # 3; 1 # 5]]%Q
    [[-1; -2]; [-3; -4]]%Q
  = Return (Scalar (- (0 + (0 + (1 # 2) * -1 * 1 + (1 # 4) * -2 * 1) / 2
                         + (0 + (1 # 3) * -3 * 1 + (1 # 5) * -4 * 0) / 1))%Q).
Proof. reflexivity. Qed.

(** ** The evaluation point of [fit] *)


Lemma untouched_refl `{B : Backend} {T : Type} (m : machine T) : untouched m m.
Proof. split; reflexivity. Qed.

Lemma untouched_trans `{B : Backend} {T : Type} (m1 m2 m3 : machine T) :
  untouched m1 m2 -> untouched m2 m3 -> untouched m1 m3.
Proof. intros [H1 H2] [H3 H4]. split; congruence. Qed.

Lemma elapsed_untouched `{B : Backend} {T : Type} : preserves (@untouched B T) elapsed.
Proof. intros m. split; reflexivity. Qed.

Lemma evaluate_loop_untouched `{B : Backend} {T : Type}
    (eval_batch : batch -> outcome (list bool * list bool)) (eval_set : DatasetType)
    (m : machine T) :
  untouched m (snd (evaluate_loop eval_batch eval_set m)).
Proof.
  apply (preserves_evaluate_loop untouched untouched_refl untouched_trans).
  - intros s m0. split; reflexivity.
  - intros m0. split; reflexivity.
Qed.


Lemma evaluate_kept `{O : SeqOps} (ds : dataset) (cfg : config) (eval_set : DatasetType)
    (m : machine Trainer.state) :
  kept m (snd (Trainer.evaluate ds cfg eval_set m)).
Proof.
  unfold Trainer.evaluate.
  erewrite (bind_Return (Trainer.assign _)); [|reflexivity].
  erewrite (bind_Return get_self); [|reflexivity].
  match goal with
  | |- kept _ (snd (evaluate_loop ?eb _ ?m1)) =>
      destruct (evaluate_loop_untouched eb eval_set m1) as [Hs Hf]
  end.
  split; [rewrite Hs; reflexivity|rewrite Hf; reflexivity].
Qed.

Lemma evaluation_point_bookkeeping `{O : SeqOps} (ds : dataset) (cfg : config)
    (m m1 m2 : machine Trainer.state)
    (valid_equ_ac valid_val_ac : Q) (valid_total : Z) (valid_time_cost : string)
    (test_equ_ac test_val_ac : Q) (test_total : Z) (test_time_cost : string) :
  Trainer.evaluate ds cfg Valid m
    = (Return (valid_equ_ac, valid_val_ac, valid_total, valid_time_cost), m1) ->
  Trainer.evaluate ds cfg Test
      (snd (emit (ValidLog valid_total valid_equ_ac valid_val_ac valid_time_cost) m1))
    = (Return (test_equ_ac, test_val_ac, test_total, test_time_cost), m2) ->
  let best := Trainer.best_valid_value_accuracy (self m) in
  let m' := snd (Trainer.evaluation_point ds cfg m) in
  fst (Trainer.evaluation_point ds cfg m) = Return tt /\
  ((best <= valid_val_ac)%Q ->
     Trainer.best_valid_equ_accuracy (self m') = valid_equ_ac /\
     Trainer.best_valid_value_accuracy (self m') = valid_val_ac /\
     Trainer.best_test_equ_accuracy (self m') = test_equ_ac /\
     Trainer.best_test_value_accuracy (self m') = test_val_ac /\
     files m' = <[trained_model_path cfg :=
                   dict_display [("model", PyModel (Trainer.model (self m)))]]> (files m)) /\
  (~ (best <= valid_val_ac)%Q ->
     Trainer.best_valid_equ_accuracy (self m') = Trainer.best_valid_equ_accuracy (self m) /\
     Trainer.best_valid_value_accuracy (self m')
       = Trainer.best_valid_value_accuracy (self m) /\
     Trainer.best_test_equ_accuracy (self m') = Trainer.best_test_equ_accuracy (self m) /\
     Trainer.best_test_value_accuracy (self m')
       = Trainer.best_test_value_accuracy (self m) /\
     Trainer.model (self m') = Trainer.model (self m) /\
     files m' = files m).
Proof.
  intros Hv Ht. cbv zeta.
  pose proof (evaluate_kept ds cfg Valid m) as [Hs1 Hf1]. rewrite Hv in Hs1, Hf1.
  pose proof (evaluate_kept ds cfg Test
                (snd (emit (ValidLog valid_total valid_equ_ac valid_val_ac
                              valid_time_cost) m1)))
    as [Hs2 Hf2].
  rewrite Ht in Hs2, Hf2. simpl in Hs1, Hf1, Hs2, Hf2.
  rewrite Hs1 in Hs2. rewrite Hf1 in Hf2. clear Hs1 Hf1.
  pose proof (f_equal Trainer.model Hs2) as Hmodel.
  pose proof (f_equal Trainer.best_valid_equ_accuracy Hs2) as Hve.
  pose proof (f_equal Trainer.best_valid_value_accuracy Hs2) as Hvv.
  pose proof (f_equal Trainer.best_test_equ_accuracy Hs2) as Hte.
  pose proof (f_equal Trainer.best_test_value_accuracy Hs2) as Htv.
  simpl in Hmodel, Hve, Hvv, Hte, Htv.
  unfold Trainer.evaluation_point.
  rewrite (bind_Return _ _ _ _ _ Hv).
  erewrite (bind_Return (emit _)); [|reflexivity].
  rewrite (bind_Return _ _ _ _ _ Ht).
  cbn -[Qle_bool dict_display insert].
  rewrite Hvv.
  destruct (Qle_bool (Trainer.best_valid_value_accuracy (self m)) valid_val_ac) eqn:Hle;
    cbn -[Qle_bool dict_display insert].
  - split; [reflexivity|]. split.
    + intros _. rewrite Hmodel, Hf2. repeat split; reflexivity.
    + intros Hn. exfalso. apply Hn. apply Qle_bool_iff. exact Hle.
  - split; [reflexivity|]. split.
    + intros Hq. apply Qle_bool_iff in Hq. congruence.
    + intros _. repeat split; assumption.
Qed.


Lemma gts_evaluate_kept `{O : GtsOps} (generate_list : list string) (ds : dataset)
    (eval_set : DatasetType) (m : machine GTSTrainer.state) :
  gts_kept m (snd (GTSTrainer.evaluate generate_list ds eval_set m)).
Proof.
  unfold GTSTrainer.evaluate.
  erewrite (bind_Return GTSTrainer._model_eval); [|reflexivity].
  erewrite (bind_Return get_self); [|reflexivity].
  match goal with
  | |- gts_kept _ (snd (evaluate_loop ?eb _ ?m1)) =>
      destruct (evaluate_loop_untouched eb eval_set m1) as [Hs Hf]
  end.
  split; [rewrite Hs; reflexivity|rewrite Hf; reflexivity].
Qed.

Lemma gts_evaluation_point_bookkeeping `{O : GtsOps} (generate_list : list string)
    (ds : dataset) (cfg : config) (m m1 m2 : machine GTSTrainer.state)
    (valid_equ_ac valid_val_ac : Q) (valid_total : Z) (valid_time_cost : string)
    (test_equ_ac test_val_ac : Q) (test_total : Z) (test_time_cost : string) :
  GTSTrainer.evaluate generate_list ds Valid m
    = (Return (valid_equ_ac, valid_val_ac, valid_total, valid_time_cost), m1) ->
  GTSTrainer.evaluate generate_list ds Test
      (snd (emit (ValidLog valid_total valid_equ_ac valid_val_ac valid_time_cost) m1))
    = (Return (test_equ_ac, test_val_ac, test_total, test_time_cost), m2) ->
  let best := GTSTrainer.best_valid_value_accuracy (self m) in
  let m' := snd (GTSTrainer.evaluation_point generate_list ds cfg m) in
  fst (GTSTrainer.evaluation_point generate_list ds cfg m) = Return tt /\
  ((best <= valid_val_ac)%Q ->
     GTSTrainer.best_valid_equ_accuracy (self m') = valid_equ_ac /\
     GTSTrainer.best_valid_value_accuracy (self m') = valid_val_ac /\
     GTSTrainer.best_test_equ_accuracy (self m') = test_equ_ac /\
     GTSTrainer.best_test_value_accuracy (self m') = test_val_ac /\
     files m' = <[trained_model_path cfg :=
                   dict_display [("model", PyModel (GTSTrainer.model (self m)))]]>
                  (files m)) /\
  (~ (best <= valid_val_ac)%Q ->
     GTSTrainer.best_valid_equ_accuracy (self m')
       = GTSTrainer.best_valid_equ_accuracy (self m) /\
     GTSTrainer.best_valid_value_accuracy (self m')
       = GTSTrainer.best_valid_value_accuracy (self m) /\
     GTSTrainer.best_test_equ_accuracy (self m')
       = GTSTrainer.best_test_equ_accuracy (self m) /\
     GTSTrainer.best_test_value_accuracy (self m')
       = GTSTrainer.best_test_value_accuracy (self m) /\
     GTSTrainer.model (self m') = GTSTrainer.model (self m) /\
     files m' = files m).
Proof.
  intros Hv Ht. cbv zeta.
  pose proof (gts_evaluate_kept generate_list ds Valid m) as [Hs1 Hf1].
  rewrite Hv in Hs1, Hf1.
  pose proof (gts_evaluate_kept generate_list ds Test
                (snd (emit (ValidLog valid_total valid_equ_ac valid_val_ac
                              valid_time_cost) m1)))
    as [Hs2 Hf2].
  rewrite Ht in Hs2, Hf2. simpl in Hs1, Hf1, Hs2, Hf2.
  rewrite Hs1 in Hs2. rewrite Hf1 in Hf2. clear Hs1 Hf1.
  pose proof (f_equal GTSTrainer.model Hs2) as Hmodel.
  pose proof (f_equal GTSTrainer.best_valid_equ_accuracy Hs2) as Hve.
  pose proof (f_equal GTSTrainer.best_valid_value_accuracy Hs2) as Hvv.
  pose proof (f_equal GTSTrainer.best_test_equ_accuracy Hs2) as Hte.
  pose proof (f_equal GTSTrainer.best_test_value_accuracy Hs2) as Htv.
  simpl in Hmodel, Hve, Hvv, Hte, Htv.
  unfold GTSTrainer.evaluation_point.
  rewrite (bind_Return _ _ _ _ _ Hv).
  erewrite (bind_Return (emit _)); [|reflexivity].
  rewrite (bind_Return _ _ _ _ _ Ht).
  cbn -[Qle_bool dict_display insert].
  rewrite Hvv.
  destruct (Qle_bool (GTSTrainer.best_valid_value_accuracy (self m)) valid_val_ac) eqn:Hle;
    cbn -[Qle_bool dict_display insert].
  - split; [reflexivity|]. split.
    + intros _. rewrite Hmodel, Hf2. repeat split; reflexivity.
    + intros Hn. exfalso. apply Hn. apply Qle_bool_iff. exact Hle.
  - split; [reflexivity|]. split.
    + intros Hq. apply Qle_bool_iff in Hq. congruence.
    + intros _. repeat split; assumption.
Qed.

(** C5. At an evaluation point of [fit] where the two evaluations return,
    the evaluation point returns; if the value accuracy measured on the
    validation split is at least the best one recorded, the four best
    accuracies become the four accuracies just measured and the file of the
    best model holds the current model; otherwise the four best accuracies,
    the model and the files are left as they were.  So it is in [Trainer.fit],
    which the single- and multi-equation trainers copy, and in the
    tree-decoder trainer. *)
Theorem evaluation_point_best_model :
  forall (B : Backend) (ds : dataset) (cfg : config)
         (valid_equ_ac valid_val_ac : Q) (valid_total : Z) (valid_time_cost : string)
         (test_equ_ac test_val_ac : Q) (test_total : Z) (test_time_cost : string),
    (forall (O : SeqOps) (m m1 m2 : machine Trainer.state),
       Trainer.evaluate ds cfg Valid m
         = (Return (valid_equ_ac, valid_val_ac, valid_total, valid_time_cost), m1) ->
       Trainer.evaluate ds cfg Test
           (snd (emit (ValidLog valid_total valid_equ_ac valid_val_ac valid_time_cost) m1))
         = (Return (test_equ_ac, test_val_ac, test_total, test_time_cost), m2) ->
       let best := Trainer.best_valid_value_accuracy (self m) in
       let m' := snd (Trainer.evaluation_point ds cfg m) in
       fst (Trainer.evaluation_point ds cfg m) = Return tt /\
       ((best <= valid_val_ac)%Q ->
          Trainer.best_valid_equ_accuracy (self m') = valid_equ_ac /\
          Trainer.best_valid_value_accuracy (self m') = valid_val_ac /\
          Trainer.best_test_equ_accuracy (self m') = test_equ_ac /\
          Trainer.best_test_value_accuracy (self m') = test_val_ac /\
          files m' = <[trained_model_path cfg :=
                        dict_display [("model", PyModel (Trainer.model (self m)))]]>
                       (files m)) /\
       (~ (best <= valid_val_ac)%Q ->
          Trainer.best_valid_equ_accuracy (self m')
            = Trainer.best_valid_equ_accuracy (self m) /\
          Trainer.best_valid_value_accuracy (self m')
            = Trainer.best_valid_value_accuracy (self m) /\
          Trainer.best_test_equ_accuracy (self m')
            = Trainer.best_test_equ_accuracy (self m) /\
          Trainer.best_test_value_accuracy (self m')
            = Trainer.best_test_value_accuracy (self m) /\
          Trainer.model (self m') = Trainer.model (self m) /\
          files m' = files m)) /\
    (forall (O : GtsOps) (generate_list : list string) (m m1 m2 : machine GTSTrainer.state),
       GTSTrainer.evaluate generate_list ds Valid m
         = (Return (valid_equ_ac, valid_val_ac, valid_total, valid_time_cost), m1) ->
       GTSTrainer.evaluate generate_list ds Test
           (snd (emit (ValidLog valid_total valid_equ_ac valid_val_ac valid_time_cost) m1))
         = (Return (test_equ_ac, test_val_ac, test_total, test_time_cost), m2) ->
       let best := GTSTrainer.best_valid_value_accuracy (self m) in
       let m' := snd (GTSTrainer.evaluation_point generate_list ds cfg m) in
       fst (GTSTrainer.evaluation_point generate_list ds cfg m) = Return tt /\
       ((best <= valid_val_ac)%Q ->
          GTSTrainer.best_valid_equ_accuracy (self m') = valid_equ_ac /\
          GTSTrainer.best_valid_value_accuracy (self m') = valid_val_ac /\
          GTSTrainer.best_test_equ_accuracy (self m') = test_equ_ac /\
          GTSTrainer.best_test_value_accuracy (self m') = test_val_ac /\
          files m' = <[trained_model_path cfg :=
                        dict_display [("model", PyModel (GTSTrainer.model (self m)))]]>
                       (files m)) /\
       (~ (best <= valid_val_ac)%Q ->
          GTSTrainer.best_valid_equ_accuracy (self m')
            = GTSTrainer.best_valid_equ_accuracy (self m) /\
          GTSTrainer.best_valid_value_accuracy (self m')
            = GTSTrainer.best_valid_value_accuracy (self m) /\
          GTSTrainer.best_test_equ_accuracy (self m')
            = GTSTrainer.best_test_equ_accuracy (self m) /\
          GTSTrainer.best_test_value_accuracy (self m')
            = GTSTrainer.best_test_value_accuracy (self m) /\
          GTSTrainer.model (self m') = GTSTrainer.model (self m) /\
          files m' = files m)).
Proof.
  intros B ds cfg ve vv vt vc te tv tt' tc. split.
  - intros O m m1 m2 Hv Ht. exact (evaluation_point_bookkeeping ds cfg m m1 m2 _ _ _ _ _ _ _ _ Hv Ht).
  - intros O gl m m1 m2 Hv Ht.
    exact (gts_evaluation_point_bookkeeping gl ds cfg m m1 m2 _ _ _ _ _ _ _ _ Hv Ht).
Qed.

Lemma evaluation_point_best_model_witness :
  let m := toy_trainer toy_data in
  let m' := snd (Trainer.evaluation_point scenario_dataset (toy_config 3) m) in
  fst (Trainer.evaluation_point scenario_dataset (toy_config 3) m) = Return tt /\
  ((0 <= 1)%Q ->
     Trainer.best_valid_equ_accuracy (self m') = 1%Q /\
     Trainer.best_valid_value_accuracy (self m') = 1%Q /\
     Trainer.best_test_equ_accuracy (self m') = 1%Q /\
     Trainer.best_test_value_accuracy (self m') = 1%Q /\
     files m' = <["trained_model.pth" :=
                   @dict_display (toy_backend toy_data)
                     [("model", @PyModel (toy_backend toy_data) 0%nat)]]> ∅) /\
  (~ (0 <= 1)%Q ->
     Trainer.best_valid_equ_accuracy (self m') = 0%Q /\
     Trainer.best_valid_value_accuracy (self m') = 0%Q /\
     Trainer.best_test_equ_accuracy (self m') = 0%Q /\
     Trainer.best_test_value_accuracy (self m') = 0%Q /\
     Trainer.model (self m') = 0%nat /\
     files m' = ∅).
Proof.
  pose (ev := @Trainer.evaluate (toy_backend toy_data) (toy_seq_ops toy_data)
                scenario_dataset (toy_config 3)).
  pose (m1 := snd (ev Valid (toy_trainer toy_data))).
  pose (m2 := snd (ev Test (snd (emit (ValidLog 2 1 1 "0s") m1)))).
  apply (proj1 (evaluation_point_best_model (toy_backend toy_data) scenario_dataset
                  (toy_config 3) 1%Q 1%Q 2 "0s" 1%Q 1%Q 1 "0s")
           (toy_seq_ops toy_data) (toy_trainer toy_data) m1 m2); vm_compute; reflexivity.
Defined.

(** ** The best accuracies along a run *)

Ltac preserve refl trans prim :=
  repeat first
    [ apply (preserves_ret _ refl)
    | apply (preserves_lift _ refl)
    | apply (preserves_raise _ refl)
    | apply (preserves_get_self _ refl)
    | apply (preserves_torch_load _ refl)
    | apply (preserves_entry _ refl trans)
    | progress prim
    | apply (preserves_for_fold _ refl trans); intros ? ?
    | apply (preserves_for_each _ refl trans); intros ?
    | match goal with |- preserves _ (if ?b then _ else _) => destruct b end
    | match goal with |- preserves _ (match ?v with _ => _ end) => destruct v end
    | apply (preserves_bind _ trans); [|intros ?] ].


Lemma best_grows_refl `{B : Backend} (m : machine Trainer.state) : best_grows m m.
Proof. apply Qle_refl. Qed.

Lemma best_grows_trans `{B : Backend} (m1 m2 m3 : machine Trainer.state) :
  best_grows m1 m2 -> best_grows m2 m3 -> best_grows m1 m3.
Proof. apply Qle_trans. Qed.

(** The steps that do not touch the best validation value accuracy. *)
Ltac best_kept :=
  match goal with
  | |- preserves best_grows (Trainer.assign (Trainer.with_batch_idx _)) => idtac
  | |- preserves best_grows (Trainer.assign (Trainer.with_epoch_i _)) => idtac
  | |- preserves best_grows (Trainer.assign (Trainer.with_model _ _)) => idtac
  | |- preserves best_grows (Trainer.assign (Trainer.with_training _)) => idtac
  | |- preserves best_grows (Trainer.assign (Trainer.with_train_batch_nums _)) => idtac
  | |- preserves best_grows (emit _) => idtac
  | |- preserves best_grows elapsed => idtac
  | |- preserves best_grows (torch_save _ _) => idtac
  end;
  let m := fresh "m" in intros m; apply Qle_refl.

Section BestGrows.
Context `{O : SeqOps}.
Variable ds : dataset.
Variable cfg : config.

Lemma train_epoch_best_grows : preserves best_grows (Trainer._train_epoch ds cfg).
Proof.
  unfold Trainer._train_epoch, Trainer._train_batch.
  preserve best_grows_refl best_grows_trans best_kept.
Qed.

Lemma evaluate_best_grows (eval_set : DatasetType) :
  preserves best_grows (Trainer.evaluate ds cfg eval_set).
Proof.
  unfold Trainer.evaluate.
  apply (preserves_bind _ best_grows_trans); [best_kept|intros _].
  apply preserves_bind_self. intros m.
  apply (preserves_evaluate_loop best_grows best_grows_refl best_grows_trans);
    intros; intros m0; apply Qle_refl.
Qed.

Lemma save_checkpoint_best_grows : preserves best_grows (Trainer._save_checkpoint cfg).
Proof. intros m. apply Qle_refl. Qed.

(** The book-keeping after the two evaluations, from the measured
    accuracies. *)
Lemma bookkeeping_best_grows (valid_equ_ac valid_val_ac test_equ_ac test_val_ac : Q)
    (m : machine Trainer.state) (rest : prog Trainer.state unit) :
  (forall m0, self (snd (rest m0)) = self m0) ->
  best_grows m
    (snd ((if Qle_bool (Trainer.best_valid_value_accuracy (self m)) valid_val_ac
           then
             Trainer.assign (fun t =>
               Trainer.with_best (Trainer.best_valid_equ_accuracy t) valid_val_ac
                 (Trainer.best_test_equ_accuracy t) (Trainer.best_test_value_accuracy t) t) ;;
             Trainer.assign (fun t =>
               Trainer.with_best valid_equ_ac (Trainer.best_valid_value_accuracy t)
                 (Trainer.best_test_equ_accuracy t) (Trainer.best_test_value_accuracy t) t) ;;
             Trainer.assign (fun t =>
               Trainer.with_best (Trainer.best_valid_equ_accuracy t)
                 (Trainer.best_valid_value_accuracy t)
                 (Trainer.best_test_equ_accuracy t) test_val_ac t) ;;
             Trainer.assign (fun t =>
               Trainer.with_best (Trainer.best_valid_equ_accuracy t)
                 (Trainer.best_valid_value_accuracy t)
                 test_equ_ac (Trainer.best_test_value_accuracy t) t) ;;
             rest
           else ret tt) m)).
Proof.
  intros Hrest. unfold best_grows.
  destruct (Qle_bool (Trainer.best_valid_value_accuracy (self m)) valid_val_ac) eqn:Hle.
  - unfold bind, Trainer.assign, get_self, put_self. cbn -[Qle_bool].
    match goal with
    | |- context [rest ?x] =>
        pose proof (Hrest x) as Hs; destruct (rest x) as [[u|e] m']
    end; cbn in Hs |- *; rewrite Hs; cbn; apply Qle_bool_iff; exact Hle.
  - apply Qle_refl.
Qed.

Lemma save_model_self (m : machine Trainer.state) :
  self (snd (Trainer._save_model cfg m)) = self m.
Proof. reflexivity. Qed.

Lemma evaluation_point_best_grows : preserves best_grows (Trainer.evaluation_point ds cfg).
Proof.
  unfold Trainer.evaluation_point.
  apply (preserves_bind _ best_grows_trans); [apply evaluate_best_grows|].
  intros [[[valid_equ_ac valid_val_ac] valid_total] valid_time_cost].
  apply (preserves_bind _ best_grows_trans); [best_kept|intros _].
  apply (preserves_bind _ best_grows_trans); [apply evaluate_best_grows|].
  intros [[[test_equ_ac test_val_ac] test_total] test_time_cost].
  apply (preserves_bind _ best_grows_trans); [best_kept|intros _].
  apply preserves_bind_self. intros m.
  apply bookkeeping_best_grows. apply save_model_self.
Qed.

Lemma fit_epoch_best_grows (epo : Z) : preserves best_grows (Trainer.fit_epoch ds cfg epo).
Proof.
  unfold Trainer.fit_epoch.
  apply (preserves_bind _ best_grows_trans); [best_kept|intros _].
  apply (preserves_bind _ best_grows_trans); [best_kept|intros _].
  apply (preserves_bind _ best_grows_trans); [apply train_epoch_best_grows|intros r].
  apply (preserves_bind _ best_grows_trans);
    [apply (preserves_get_self _ best_grows_refl)|intros t].
  apply (preserves_bind _ best_grows_trans); [best_kept|intros _].
  apply (preserves_bind _ best_grows_trans).
  - destruct ((epo mod 2 =? 0) || (epo >? epoch_nums cfg - 5)).
    + apply evaluation_point_best_grows.
    + apply (preserves_ret _ best_grows_refl).
  - intros _. destruct (epo mod 5 =? 0).
    + apply save_checkpoint_best_grows.
    + apply (preserves_ret _ best_grows_refl).
Qed.

Lemma fit_best_grows : preserves best_grows (Trainer.fit ds cfg).
Proof.
  unfold Trainer.fit.
  apply (preserves_bind _ best_grows_trans); [best_kept|intros _].
  apply (preserves_bind _ best_grows_trans);
    [apply (preserves_get_self _ best_grows_refl)|intros t].
  apply (preserves_bind _ best_grows_trans).
  - apply (preserves_for_each _ best_grows_refl best_grows_trans).
    apply fit_epoch_best_grows.
  - intros _ m. rewrite summary_raises. apply Qle_refl.
Qed.
End BestGrows.

Section BestGrowsTransformer.
Context `{O : SeqOps}.
Variable get_lr : optim_state -> outcome (list Q).
Variable ds : dataset.
Variable cfg : config.

Lemma transformer_evaluation_point_best_grows :
  preserves best_grows (TransformerTrainer.evaluation_point ds cfg).
Proof.
  unfold TransformerTrainer.evaluation_point, TransformerTrainer.evaluate.
  apply (preserves_bind _ best_grows_trans); [apply evaluate_best_grows|].
  intros [[[valid_equ_ac valid_val_ac] valid_total] valid_time_cost].
  apply (preserves_bind _ best_grows_trans); [best_kept|intros _].
  apply (preserves_bind _ best_grows_trans); [apply evaluate_best_grows|].
  intros [[[test_equ_ac test_val_ac] test_total] test_time_cost].
  apply (preserves_bind _ best_grows_trans); [best_kept|intros _].
  apply preserves_bind_self. intros m.
  apply bookkeeping_best_grows. apply save_model_self.
Qed.

Lemma transformer_fit_best_grows :
  preserves best_grows (TransformerTrainer.fit get_lr ds cfg).
Proof.
  unfold TransformerTrainer.fit.
  apply (preserves_bind _ best_grows_trans); [best_kept|intros _].
  apply (preserves_bind _ best_grows_trans);
    [apply (preserves_get_self _ best_grows_refl)|intros t].
  apply (preserves_for_each _ best_grows_refl best_grows_trans). intros epo.
  unfold TransformerTrainer.fit_epoch, TransformerTrainer._train_epoch,
    TransformerTrainer._save_checkpoint.
  apply (preserves_bind _ best_grows_trans); [best_kept|intros _].
  apply (preserves_bind _ best_grows_trans); [best_kept|intros _].
  apply (preserves_bind _ best_grows_trans); [apply train_epoch_best_grows|intros r].
  apply (preserves_bind _ best_grows_trans);
    [apply (preserves_get_self _ best_grows_refl)|intros t'].
  apply (preserves_bind _ best_grows_trans);
    [apply (preserves_lift _ best_grows_refl)|intros lrs].
  apply (preserves_bind _ best_grows_trans);
    [apply (preserves_lift _ best_grows_refl)|intros lr0].
  apply (preserves_bind _ best_grows_trans); [best_kept|intros _].
  apply (preserves_bind _ best_grows_trans).
  - destruct ((epo mod 2 =? 0) || (epo >? epoch_nums cfg - 5)).
    + apply transformer_evaluation_point_best_grows.
    + apply (preserves_ret _ best_grows_refl).
  - intros _. destruct (epo mod 5 =? 0).
    + apply save_checkpoint_best_grows.
    + apply (preserves_ret _ best_grows_refl).
Qed.
End BestGrowsTransformer.


Lemma gts_best_grows_refl `{B : Backend} (m : machine GTSTrainer.state) : gts_best_grows m m.
Proof. apply Qle_refl. Qed.

Lemma gts_best_grows_trans `{B : Backend} (m1 m2 m3 : machine GTSTrainer.state) :
  gts_best_grows m1 m2 -> gts_best_grows m2 m3 -> gts_best_grows m1 m3.
Proof. apply Qle_trans. Qed.

Ltac gts_best_kept :=
  match goal with
  | |- preserves gts_best_grows (GTSTrainer.assign (GTSTrainer.with_batch_idx _)) => idtac
  | |- preserves gts_best_grows (GTSTrainer.assign (GTSTrainer.with_epoch_i _)) => idtac
  | |- preserves gts_best_grows (GTSTrainer.assign (GTSTrainer.with_model _)) => idtac
  | |- preserves gts_best_grows (GTSTrainer.assign (GTSTrainer.with_training _)) => idtac
  | |- preserves gts_best_grows (GTSTrainer.assign (GTSTrainer.with_train_batch_nums _)) =>
      idtac
  | |- preserves gts_best_grows (GTSTrainer.assign (fun _ => GTSTrainer.with_optims _ _)) =>
      idtac
  | |- preserves gts_best_grows (GTSTrainer.assign (fun _ => GTSTrainer.with_scheds _ _)) =>
      idtac
  | |- preserves gts_best_grows GTSTrainer._model_train => idtac
  | |- preserves gts_best_grows GTSTrainer._model_eval => idtac
  | |- preserves gts_best_grows (emit _) => idtac
  | |- preserves gts_best_grows elapsed => idtac
  | |- preserves gts_best_grows (torch_save _ _) => idtac
  end;
  let m := fresh "m" in intros m; apply Qle_refl.

Section BestGrowsGTS.
Context `{O : GtsOps}.
Variable generate_list : list string.
Variable ds : dataset.
Variable cfg : config.

Lemma gts_train_epoch_best_grows :
  preserves gts_best_grows (GTSTrainer._train_epoch generate_list ds).
Proof.
  unfold GTSTrainer._train_epoch, GTSTrainer._train_batch, GTSTrainer._optimizer_step.
  preserve gts_best_grows_refl gts_best_grows_trans gts_best_kept.
Qed.

Lemma gts_scheduler_step_best_grows : preserves gts_best_grows GTSTrainer._scheduler_step.
Proof.
  unfold GTSTrainer._scheduler_step.
  apply (preserves_for_each _ gts_best_grows_refl gts_best_grows_trans). intros r.
  apply preserves_bind_self. intros m. apply Qle_refl.
Qed.

Lemma gts_evaluate_best_grows (eval_set : DatasetType) :
  preserves gts_best_grows (GTSTrainer.evaluate generate_list ds eval_set).
Proof.
  unfold GTSTrainer.evaluate.
  apply (preserves_bind _ gts_best_grows_trans); [gts_best_kept|intros _].
  apply preserves_bind_self. intros m.
  apply (preserves_evaluate_loop gts_best_grows gts_best_grows_refl gts_best_grows_trans);
    intros; intros m0; apply Qle_refl.
Qed.

Lemma gts_evaluation_point_best_grows :
  preserves gts_best_grows (GTSTrainer.evaluation_point generate_list ds cfg).
Proof.
  unfold GTSTrainer.evaluation_point.
  apply (preserves_bind _ gts_best_grows_trans); [apply gts_evaluate_best_grows|].
  intros [[[valid_equ_ac valid_val_ac] valid_total] valid_time_cost].
  apply (preserves_bind _ gts_best_grows_trans); [gts_best_kept|intros _].
  apply (preserves_bind _ gts_best_grows_trans); [apply gts_evaluate_best_grows|].
  intros [[[test_equ_ac test_val_ac] test_total] test_time_cost].
  apply (preserves_bind _ gts_best_grows_trans); [gts_best_kept|intros _].
  apply preserves_bind_self. intros m. unfold gts_best_grows.
  destruct (Qle_bool (GTSTrainer.best_valid_value_accuracy (self m)) valid_val_ac) eqn:Hle.
  - cbn -[Qle_bool]. apply Qle_bool_iff. exact Hle.
  - apply Qle_refl.
Qed.

Lemma gts_fit_best_grows : preserves gts_best_grows (GTSTrainer.fit generate_list ds cfg).
Proof.
  unfold GTSTrainer.fit.
  apply (preserves_bind _ gts_best_grows_trans); [gts_best_kept|intros _].
  apply (preserves_bind _ gts_best_grows_trans);
    [apply (preserves_get_self _ gts_best_grows_refl)|intros t].
  apply (preserves_for_each _ gts_best_grows_refl gts_best_grows_trans). intros epo.
  unfold GTSTrainer.fit_epoch.
  apply (preserves_bind _ gts_best_grows_trans); [gts_best_kept|intros _].
  apply (preserves_bind _ gts_best_grows_trans); [gts_best_kept|intros _].
  apply (preserves_bind _ gts_best_grows_trans); [apply gts_train_epoch_best_grows|intros r].
  apply (preserves_bind _ gts_best_grows_trans);
    [apply gts_scheduler_step_best_grows|intros _].
  apply (preserves_bind _ gts_best_grows_trans);
    [apply (preserves_get_self _ gts_best_grows_refl)|intros t'].
  apply (preserves_bind _ gts_best_grows_trans); [gts_best_kept|intros _].
  apply (preserves_bind _ gts_best_grows_trans).
  - destruct ((epo mod 10 =? 0) || (epo >? epoch_nums cfg - 5)).
    + apply gts_evaluation_point_best_grows.
    + apply (preserves_ret _ gts_best_grows_refl).
  - intros _. destruct (epo mod 5 =? 0).
    + intros m. apply Qle_refl.
    + apply (preserves_ret _ gts_best_grows_refl).
Qed.
End BestGrowsGTS.

(** C3, as the code has it.  Along a run of [fit] the best validation value
    accuracy never decreases: in the single- and multi-equation trainers (and
    the trainer they copy) not over an evaluation point, not over an epoch,
    not over the whole run; nor over the run of the transformer and of the
    tree-decoder trainer.  (The three other best accuracies are set to what
    was measured at the evaluation point where it last grew.) *)
Theorem best_valid_value_accuracy_monotone :
  forall (B : Backend) (ds : dataset) (cfg : config),
    (forall (O : SeqOps) (m : machine Trainer.state),
       (Trainer.best_valid_value_accuracy (self m) <=
        Trainer.best_valid_value_accuracy
          (self (snd (Trainer.evaluation_point ds cfg m))))%Q /\
       (forall epo,
          (Trainer.best_valid_value_accuracy (self m) <=
           Trainer.best_valid_value_accuracy
             (self (snd (Trainer.fit_epoch ds cfg epo m))))%Q) /\
       (Trainer.best_valid_value_accuracy (self m) <=
        Trainer.best_valid_value_accuracy
          (self (snd (SingleEquationTrainer.fit ds cfg m))))%Q /\
       (Trainer.best_valid_value_accuracy (self m) <=
        Trainer.best_valid_value_accuracy
          (self (snd (MultiEquationTrainer.fit ds cfg m))))%Q /\
       (forall get_lr,
          (Trainer.best_valid_value_accuracy (self m) <=
           Trainer.best_valid_value_accuracy
             (self (snd (TransformerTrainer.fit get_lr ds cfg m))))%Q)) /\
    (forall (O : GtsOps) (generate_list : list string) (m : machine GTSTrainer.state),
       (GTSTrainer.best_valid_value_accuracy (self m) <=
        GTSTrainer.best_valid_value_accuracy
          (self (snd (GTSTrainer.fit generate_list ds cfg m))))%Q).
Proof.
  intros B ds cfg. split.
  - intros O m. split; [|split; [|split; [|split]]].
    + apply (evaluation_point_best_grows ds cfg m).
    + intros epo. apply (fit_epoch_best_grows ds cfg epo m).
    + apply (fit_best_grows ds cfg m).
    + apply (fit_best_grows ds cfg m).
    + intros get_lr. apply (transformer_fit_best_grows get_lr ds cfg m).
  - intros O gl m. apply (gts_fit_best_grows gl ds cfg m).
Qed.

(** C3, as it is stated, fails for the best test value accuracy.  With eight
    epochs the epochs 0 and 2 of the concrete trainer are consecutive
    evaluation points; the test value accuracy recorded at the first is 1, and
    at the second it is overwritten with 0. *)
Lemma best_test_value_accuracy_decreases :
  let fit_epoch := @Trainer.fit_epoch (toy_backend toy_data) (toy_seq_ops toy_data)
                     scenario_dataset (toy_config 8) in
  let m0 := snd (fit_epoch 0 (toy_trainer toy_data)) in
  let m1 := snd (fit_epoch 1 m0) in
  let m2 := snd (fit_epoch 2 m1) in
  Trainer.best_test_value_accuracy (self m0) = 1%Q /\
  Trainer.best_test_value_accuracy (self m1) = 1%Q /\
  Trainer.best_test_value_accuracy (self m2) = 0%Q /\
  ~ (Trainer.best_test_value_accuracy (self m1)
     <= Trainer.best_test_value_accuracy (self m2))%Q.
Proof.
  cbv zeta. repeat split; try (vm_compute; reflexivity).
  vm_compute. intros H. apply H. reflexivity.
Qed.

(** ** The adversarial trainer never evaluates *)

Lemma in_range_from (start stop epo : Z) :
  In epo (range_from start stop) <-> start <= epo < stop.
Proof.
  unfold range_from. rewrite in_map_iff. split.
  - intros [i [<- Hi]]. apply in_seq in Hi. lia.
  - intros H. exists (Z.to_nat (epo - start)). split; [lia|].
    apply in_seq. lia.
Qed.


Lemma same_start_refl `{B : Backend} (m : machine SeqGANTrainer.state) : same_start m m.
Proof. split; reflexivity. Qed.

Lemma same_start_trans `{B : Backend} (m1 m2 m3 : machine SeqGANTrainer.state) :
  same_start m1 m2 -> same_start m2 m3 -> same_start m1 m3.
Proof. unfold same_start. intros [H1 H2] [H3 H4]. split; congruence. Qed.

Ltac start_kept :=
  match goal with
  | |- preserves same_start (SeqGANTrainer.assign _) => idtac
  | |- preserves same_start (emit _) => idtac
  | |- preserves same_start elapsed => idtac
  | |- preserves same_start (SeqGANTrainer._save_checkpoint _) => idtac
  end;
  let m := fresh "m" in intros m; split; reflexivity.

Section NeverEvaluates.
Context `{O : GanOps}.
Variable cfg : config.

Lemma train_generator_same_start : preserves same_start (SeqGANTrainer.train_generator cfg).
Proof.
  unfold SeqGANTrainer.train_generator.
  preserve same_start_refl same_start_trans start_kept.
Qed.

Lemma train_discriminator_same_start :
  preserves same_start (SeqGANTrainer.train_discriminator cfg).
Proof.
  unfold SeqGANTrainer.train_discriminator.
  preserve same_start_refl same_start_trans start_kept.
Qed.

Lemma gan_evaluation_point_raises (m : machine SeqGANTrainer.state) :
  SeqGANTrainer.evaluation_point cfg m
  = (Raise (TypeError "eval_set"), m).
Proof. reflexivity. Qed.

Lemma gan_fit_epoch_raised (epo : Z) (m : machine SeqGANTrainer.state) :
  epo mod 2 = 0 \/ epo > epoch_nums cfg - 5 ->
  raised (fst (SeqGANTrainer.fit_epoch cfg epo m)).
Proof.
  intros Hs. unfold SeqGANTrainer.fit_epoch.
  apply bind_raised_then. intros _ m0.
  apply bind_raised_then. intros _ m1.
  apply bind_raised_then. intros r m2.
  apply bind_raised_then. intros t m3.
  apply bind_raised_then. intros _ m4.
  apply bind_raised.
  replace ((epo mod 2 =? 0) || (epo >? epoch_nums cfg - 5)) with true.
  - rewrite gan_evaluation_point_raises. exact I.
  - symmetry. apply orb_true_iff. destruct Hs as [Hs|Hs].
    + left. apply Z.eqb_eq. exact Hs.
    + right. apply Z.gtb_lt. lia.
Qed.

Lemma gan_fit_raised (m : machine SeqGANTrainer.state) (epo : Z) :
  SeqGANTrainer.start_epoch (self m) <= epo < epoch_nums cfg ->
  epo mod 2 = 0 \/ epo > epoch_nums cfg - 5 ->
  raised (fst (SeqGANTrainer.fit cfg m)).
Proof.
  intros Hin Hs. unfold SeqGANTrainer.fit.
  erewrite (bind_Return (SeqGANTrainer.assign _)); [|reflexivity].
  match goal with
  | |- raised (fst (_ ?ma)) =>
      assert (Ha : SeqGANTrainer.start_epoch (self ma) = SeqGANTrainer.start_epoch (self m))
        by reflexivity;
      revert Ha; generalize ma; intros m0 Ha
  end.
  unfold bind at 1.
  pose proof (train_generator_same_start m0) as H1.
  destruct (SeqGANTrainer.train_generator cfg m0) as [[u|e] m1]; [|exact I].
  unfold bind at 1.
  pose proof (train_discriminator_same_start m1) as H2.
  destruct (SeqGANTrainer.train_discriminator cfg m1) as [[u'|e] m2]; [|exact I].
  destruct H1 as [H1 _]. destruct H2 as [H2 _]. simpl in H1, H2.
  unfold bind at 1. simpl get_self. cbv iota beta.
  apply (for_each_raised _ _ epo).
  - apply in_range_from. rewrite H2, H1, Ha. exact Hin.
  - intros m'. apply gan_fit_epoch_raised. exact Hs.
Qed.

(** Up to the comparison of the evaluation point no line of [fit] assigns
    [best_value_accuracy], and the evaluation point raises before it. *)
Lemma gan_evaluation_point_same_start :
  preserves same_start (SeqGANTrainer.evaluation_point cfg).
Proof. intros m. rewrite gan_evaluation_point_raises. apply same_start_refl. Qed.

Lemma gan_train_epoch_same_start : preserves same_start (SeqGANTrainer._train_epoch cfg).
Proof.
  unfold SeqGANTrainer._train_epoch, SeqGANTrainer._train_batch,
    SeqGANTrainer.discriminate, SeqGANTrainer.discriminator_update.
  preserve same_start_refl same_start_trans start_kept.
Qed.

Lemma gan_fit_same_start : preserves same_start (SeqGANTrainer.fit cfg).
Proof.
  unfold SeqGANTrainer.fit.
  apply (preserves_bind _ same_start_trans); [start_kept|intros _].
  apply (preserves_bind _ same_start_trans); [apply train_generator_same_start|intros _].
  apply (preserves_bind _ same_start_trans); [apply train_discriminator_same_start|intros _].
  apply (preserves_bind _ same_start_trans);
    [apply (preserves_get_self _ same_start_refl)|intros t].
  apply (preserves_for_each _ same_start_refl same_start_trans). intros epo.
  unfold SeqGANTrainer.fit_epoch.
  apply (preserves_bind _ same_start_trans); [start_kept|intros _].
  apply (preserves_bind _ same_start_trans); [start_kept|intros _].
  apply (preserves_bind _ same_start_trans); [apply gan_train_epoch_same_start|intros r].
  apply (preserves_bind _ same_start_trans);
    [apply (preserves_get_self _ same_start_refl)|intros t'].
  apply (preserves_bind _ same_start_trans); [start_kept|intros _].
  apply (preserves_bind _ same_start_trans).
  - destruct ((epo mod 2 =? 0) || (epo >? epoch_nums cfg - 5)).
    + apply gan_evaluation_point_same_start.
    + apply (preserves_ret _ same_start_refl).
  - intros _. destruct (epo mod 5 =? 0).
    + start_kept.
    + apply (preserves_ret _ same_start_refl).
Qed.
End NeverEvaluates.

(** C10. An adversarial trainer constructed with [resume] disabled has no
    attribute [best_value_accuracy]; if one of the epochs of its run is an
    evaluation epoch, [fit] raises, and the attribute is still missing when
    it does.  The evaluation point itself always raises [TypeError]: it
    calls [evaluate] without the argument [eval_set]. *)
Theorem seqgan_fit_raises :
  forall (B : Backend) (O : GanOps) (cfg : config) (ds : dataset) (PAD_TOKEN : string)
         (w : weights) (g d : optim_state) (nll binary : loss_state)
         (m0 m : machine SeqGANTrainer.state) (epo : Z),
    resume cfg = false ->
    SeqGANTrainer.__init__ cfg ds PAD_TOKEN w g d nll binary m0 = (Return tt, m) ->
    0 <= epo < epoch_nums cfg ->
    epo mod 2 = 0 \/ epo > epoch_nums cfg - 5 ->
    SeqGANTrainer.best_value_accuracy (self m) = None /\
    raised (fst (SeqGANTrainer.fit cfg m)) /\
    SeqGANTrainer.best_value_accuracy (self (snd (SeqGANTrainer.fit cfg m))) = None /\
    forall m', exists tag,
      fst (SeqGANTrainer.evaluation_point cfg m') = Raise (TypeError tag).
Proof.
  intros B O cfg ds PAD_TOKEN w g d nll binary m0 m epo Hres Hinit Hin Hs.
  assert (Hm : self m = SeqGANTrainer.init w g d nll binary).
  { unfold SeqGANTrainer.__init__ in Hinit. rewrite Hres in Hinit.
    unfold bind, put_self, ret, lift, dict_getitem in Hinit. simpl in Hinit.
    destruct (out_symbol2idx ds !! PAD_TOKEN); simpl in Hinit; [|discriminate Hinit].
    injection Hinit as <-. reflexivity. }
  split; [rewrite Hm; reflexivity|]. split; [|split].
  - apply (gan_fit_raised cfg _ epo); [rewrite Hm; exact Hin|exact Hs].
  - destruct (gan_fit_same_start cfg m) as [_ Hbest]. rewrite Hbest, Hm. reflexivity.
  - intros m'. eexists. reflexivity.
Qed.

Lemma seqgan_fit_raises_witness :
  let m := snd (@SeqGANTrainer.__init__ (toy_backend toy_data) (toy_config_with false 3)
                  padded_dataset "<PAD>" 0%nat 0%nat 0%nat 0%Q 0%Q
                  (toy_gan_trainer toy_data)) in
  SeqGANTrainer.best_value_accuracy (self m) = None /\
  raised (fst (SeqGANTrainer.fit (toy_config_with false 3) m)) /\
  SeqGANTrainer.best_value_accuracy
    (self (snd (SeqGANTrainer.fit (toy_config_with false 3) m))) = None /\
  forall m', exists tag,
    fst (@SeqGANTrainer.evaluation_point (toy_backend toy_data) (toy_gan_ops toy_data)
           (toy_config_with false 3) m')
    = Raise (TypeError tag).
Proof.
  apply (seqgan_fit_raises (toy_backend toy_data) (toy_gan_ops toy_data)
           (toy_config_with false 3) padded_dataset "<PAD>"
           0%nat 0%nat 0%nat 0%Q 0%Q (toy_gan_trainer toy_data) _ 0).
  - reflexivity.
  - reflexivity.
  - simpl. lia.
  - left. reflexivity.
Defined.

(** On the concrete trainer with vocabularies of its own the pre-training
    and the first epoch succeed, and the exception of the run is the [TypeError] of the evaluation point;
    [evaluate] is never entered. *)
Example seqgan_fit_type_error :
  let run := @SeqGANTrainer.fit (toy_backend toy_data) (toy_gan_ops toy_data)
               (toy_config_with false 3) (toy_gan_trainer toy_data) in
  fst run = Raise (TypeError "eval_set")
  /\ SeqGANTrainer.epoch_i (self (snd run)) = 1
  /\ Forall (fun e => forall s, e <> Evaluating s) (log (snd run)).
Proof.
  cbv zeta. split; [vm_compute; reflexivity|]. split; [vm_compute; reflexivity|].
  vm_compute. repeat constructor; discriminate.
Qed.

(** ** The schedule of the evaluations *)


Lemma marks_app (l l' : list event) : marks (l ++ l') = marks l ++ marks l'.
Proof. apply omap_app. Qed.

Lemma quiet_refl `{B : Backend} {T : Type} (ep : T -> Z) (m : machine T) : quiet ep m m.
Proof. split; reflexivity. Qed.

Lemma quiet_trans `{B : Backend} {T : Type} (ep : T -> Z) (m1 m2 m3 : machine T) :
  quiet ep m1 m2 -> quiet ep m2 m3 -> quiet ep m1 m3.
Proof. intros [H1 H2] [H3 H4]. split; congruence. Qed.

Lemma elapsed_quiet `{B : Backend} {T : Type} (ep : T -> Z) : preserves (quiet ep) elapsed.
Proof. intros m. split; reflexivity. Qed.

Lemma evaluate_loop_marks `{B : Backend} {T : Type} (ep : T -> Z)
    (eval_batch : batch -> outcome (list bool * list bool)) (eval_set : DatasetType)
    (m : machine T) :
  marks (log (snd (evaluate_loop eval_batch eval_set m)))
  = marks (log m) ++ [EvalMark eval_set].
Proof.
  unfold evaluate_loop.
  erewrite (bind_Return (emit _)); [|reflexivity].
  match goal with
  | |- context [snd (?c ?m1)] => assert (Hq : quiet ep m1 (snd (c m1)))
  end.
  - match goal with |- quiet ep ?m1 (snd (?c ?m1)) => generalize m1 end.
    change (preserves (quiet ep)
              (acc <- for_fold (load_data eval_set)
                        (fun (acc : nat * nat * nat) b =>
                           r <- lift (eval_batch b) ;;
                           ret ((acc.1.1 + count_true r.1)%nat,
                                (acc.1.2 + count_true r.2)%nat,
                                (acc.2 + length r.1)%nat))
                        (0%nat, 0%nat, 0%nat) ;;
               test_time_cost <- elapsed ;;
               equ <- lift (truediv acc.1.2 acc.2) ;;
               val <- lift (truediv acc.1.1 acc.2) ;;
               ret (equ, val, Z.of_nat acc.2, test_time_cost))).
    preserve (@quiet_refl B T ep) (@quiet_trans B T ep) ltac:(apply elapsed_quiet).
  - destruct Hq as [Hq _]. rewrite Hq. simpl. apply marks_app.
Qed.

Lemma for_each_marks `{B : Backend} {T A : Type} (body : A -> prog T unit)
    (f : A -> list mark) :
  (forall x m, exists m', body x m = (Return tt, m') /\
                          marks (log m') = marks (log m) ++ f x) ->
  forall xs m, exists m', for_each xs body m = (Return tt, m') /\
                          marks (log m') = marks (log m) ++ flat_map f xs.
Proof.
  intros Hbody xs. induction xs as [|x xs IH]; intros m; simpl.
  - exists m. split; [reflexivity|]. rewrite app_nil_r. reflexivity.
  - destruct (Hbody x m) as [m1 [H1 Hm1]].
    destruct (IH m1) as [m2 [H2 Hm2]].
    exists m2. split.
    + rewrite (bind_Return _ _ _ _ _ H1). exact H2.
    + rewrite Hm2, Hm1, app_assoc. reflexivity.
Qed.

Lemma for_each_quiet `{B : Backend} {T A : Type} (ep : T -> Z) (body : A -> prog T unit)
    (xs : list A) :
  (forall x m, exists m', body x m = (Return tt, m') /\
                          log m' = log m /\ ep (self m') = ep (self m)) ->
  forall m, exists m', for_each xs body m = (Return tt, m') /\
                       log m' = log m /\ ep (self m') = ep (self m).
Proof.
  intros Hbody. induction xs as [|x xs IH]; intros m; simpl.
  - exists m. split; [reflexivity|]. split; reflexivity.
  - destruct (Hbody x m) as [m1 [H1 [Hl1 He1]]].
    destruct (IH m1) as [m2 [H2 [Hl2 He2]]].
    exists m2. split.
    + rewrite (bind_Return _ _ _ _ _ H1). exact H2.
    + split; congruence.
Qed.

Ltac quiet_kept :=
  match goal with
  | |- preserves (quiet _) (Trainer.assign _) => idtac
  | |- preserves (quiet _) (GTSTrainer.assign _) => idtac
  | |- preserves (quiet _) elapsed => idtac
  end;
  let m := fresh "m" in intros m; split; reflexivity.

Section ScheduleTrainer.
Context `{O : SeqOps}.
Variable ds : dataset.
Variable cfg : config.
Hypothesis trains :
  forall m, exists r m', Trainer._train_epoch ds cfg m = (Return r, m').
Hypothesis evaluates :
  forall eval_set m, exists r m', Trainer.evaluate ds cfg eval_set m = (Return r, m').

Lemma train_epoch_quiet :
  preserves (quiet Trainer.epoch_i) (Trainer._train_epoch ds cfg).
Proof.
  unfold Trainer._train_epoch, Trainer._train_batch.
  preserve (@quiet_refl B _ Trainer.epoch_i) (@quiet_trans B _ Trainer.epoch_i) quiet_kept.
Qed.

Lemma evaluate_marks (eval_set : DatasetType) (m : machine Trainer.state) :
  marks (log (snd (Trainer.evaluate ds cfg eval_set m)))
  = marks (log m) ++ [EvalMark eval_set].
Proof.
  unfold Trainer.evaluate.
  erewrite (bind_Return (Trainer.assign _)); [|reflexivity].
  erewrite (bind_Return get_self); [|reflexivity].
  rewrite (evaluate_loop_marks Trainer.epoch_i). reflexivity.
Qed.

Lemma evaluation_point_marks (m : machine Trainer.state) :
  exists m', Trainer.evaluation_point ds cfg m = (Return tt, m') /\
             marks (log m') = marks (log m) ++ [EvalMark Valid; EvalMark Test].
Proof.
  unfold Trainer.evaluation_point.
  destruct (evaluates Valid m) as [[[[ve vv] vt] vc] [m1 H1]].
  pose proof (evaluate_marks Valid m) as Hm1. rewrite H1 in Hm1. simpl in Hm1.
  rewrite (bind_Return _ _ _ _ _ H1).
  erewrite (bind_Return (emit _)); [|reflexivity].
  match goal with
  | |- context [bind (Trainer.evaluate ds cfg Test) _ ?mm] =>
      destruct (evaluates Test mm) as [[[[te tv] tt'] tc] [m2 H2]];
      pose proof (evaluate_marks Test mm) as Hm2
  end.
  rewrite H2 in Hm2. simpl in Hm2. rewrite marks_app in Hm2. simpl in Hm2.
  rewrite app_nil_r in Hm2.
  rewrite (bind_Return _ _ _ _ _ H2).
  erewrite (bind_Return (emit _)); [|reflexivity].
  erewrite (bind_Return get_self); [|reflexivity].
  match goal with |- context [Qle_bool ?a ?b] => destruct (Qle_bool a b) end;
    cbn -[insert dict_display marks];
    (eexists; split; [reflexivity|]); cbn -[insert dict_display marks];
    rewrite marks_app; simpl; rewrite app_nil_r, Hm2, Hm1, <- app_assoc; reflexivity.
Qed.

Lemma fit_epoch_marks (epo : Z) (m : machine Trainer.state) :
  exists m', Trainer.fit_epoch ds cfg epo m = (Return tt, m') /\
             marks (log m') = marks (log m) ++ schedule 2 (epoch_nums cfg) epo.
Proof.
  unfold Trainer.fit_epoch.
  erewrite (bind_Return (Trainer.assign _)); [|reflexivity].
  erewrite (bind_Return (Trainer.assign _)); [|reflexivity].
  match goal with
  | |- context [bind (Trainer._train_epoch ds cfg) _ ?mm] =>
      destruct (trains mm) as [r [m1 H1]];
      pose proof (train_epoch_quiet mm) as [Hm1 He1]
  end.
  rewrite H1 in Hm1, He1. simpl in Hm1, He1.
  rewrite (bind_Return _ _ _ _ _ H1).
  erewrite (bind_Return get_self); [|reflexivity].
  erewrite (bind_Return (emit _)); [|reflexivity].
  rewrite He1. unfold schedule, evaluation_epoch.
  destruct ((epo mod 2 =? 0) || (epo >? epoch_nums cfg - 5)).
  - match goal with
    | |- context [bind (Trainer.evaluation_point ds cfg) _ ?mm] =>
        destruct (evaluation_point_marks mm) as [m2 [H2 Hm2]]
    end.
    rewrite (bind_Return _ _ _ _ _ H2).
    simpl in Hm2. rewrite marks_app, Hm1 in Hm2. simpl in Hm2.
    destruct (epo mod 5 =? 0); cbn -[insert dict_display marks];
      (eexists; split; [reflexivity|]); cbn -[insert dict_display marks];
      rewrite Hm2, <- app_assoc; reflexivity.
  - erewrite (bind_Return (ret _)); [|reflexivity].
    destruct (epo mod 5 =? 0); cbn -[insert dict_display marks];
      (eexists; split; [reflexivity|]); cbn -[insert dict_display marks];
      rewrite marks_app, Hm1; reflexivity.
Qed.

Lemma fit_marks (m : machine Trainer.state) :
  marks (log (snd (Trainer.fit ds cfg m))) =
  marks (log m) ++ flat_map (schedule 2 (epoch_nums cfg))
                     (range_from (Trainer.start_epoch (self m)) (epoch_nums cfg)).
Proof.
  unfold Trainer.fit.
  erewrite (bind_Return (Trainer.assign _)); [|reflexivity].
  erewrite (bind_Return get_self); [|reflexivity]. cbv beta.
  match goal with
  | |- context [bind (for_each ?xs _) _ ?ma] =>
      destruct (for_each_marks (Trainer.fit_epoch ds cfg) (schedule 2 (epoch_nums cfg))
                  fit_epoch_marks xs ma)
        as [m1 [H1 Hm1]]
  end.
  rewrite (bind_Return _ _ _ _ _ H1). rewrite summary_raises. exact Hm1.
Qed.
End ScheduleTrainer.

Section ScheduleGTS.
Context `{O : GtsOps}.
Variable generate_list : list string.
Variable ds : dataset.
Variable cfg : config.
Hypothesis trains :
  forall m, exists r m', GTSTrainer._train_epoch generate_list ds m = (Return r, m').
Hypothesis evaluates :
  forall eval_set m,
    exists r m', GTSTrainer.evaluate generate_list ds eval_set m = (Return r, m').

Lemma gts_train_epoch_quiet :
  preserves (quiet GTSTrainer.epoch_i) (GTSTrainer._train_epoch generate_list ds).
Proof.
  unfold GTSTrainer._train_epoch, GTSTrainer._train_batch, GTSTrainer._optimizer_step,
    GTSTrainer._model_train.
  preserve (@quiet_refl B _ GTSTrainer.epoch_i) (@quiet_trans B _ GTSTrainer.epoch_i)
    quiet_kept.
Qed.

Lemma gts_scheduler_step_quiet (m : machine GTSTrainer.state) :
  exists m', GTSTrainer._scheduler_step m = (Return tt, m') /\
             log m' = log m /\ GTSTrainer.epoch_i (self m') = GTSTrainer.epoch_i (self m).
Proof.
  unfold GTSTrainer._scheduler_step.
  destruct (for_each_quiet GTSTrainer.epoch_i
              (fun r =>
                 t <- get_self ;;
                 let so := gts_scheduler_step (GTSTrainer.get_scheduler r (GTSTrainer.scheds t))
                             (GTSTrainer.get_optimizer r (GTSTrainer.optims t)) in
                 GTSTrainer.assign (fun t =>
                   GTSTrainer.with_scheds
                     (GTSTrainer.set_scheduler r so.1 (GTSTrainer.scheds t)) t) ;;
                 GTSTrainer.assign (fun t =>
                   GTSTrainer.with_optims
                     (GTSTrainer.set_optimizer r so.2 (GTSTrainer.optims t)) t))
              GTSTrainer.all_roles) with (m := m) as [m' [H [Hl He]]].
  - intros r m0. cbn. eexists. split; [reflexivity|]. split; reflexivity.
  - exists m'. split; [exact H|]. split; assumption.
Qed.

Lemma gts_evaluate_marks (eval_set : DatasetType) (m : machine GTSTrainer.state) :
  marks (log (snd (GTSTrainer.evaluate generate_list ds eval_set m)))
  = marks (log m) ++ [EvalMark eval_set].
Proof.
  unfold GTSTrainer.evaluate.
  erewrite (bind_Return GTSTrainer._model_eval); [|reflexivity].
  erewrite (bind_Return get_self); [|reflexivity].
  rewrite (evaluate_loop_marks GTSTrainer.epoch_i). reflexivity.
Qed.

Lemma gts_evaluation_point_marks (m : machine GTSTrainer.state) :
  exists m', GTSTrainer.evaluation_point generate_list ds cfg m = (Return tt, m') /\
             marks (log m') = marks (log m) ++ [EvalMark Valid; EvalMark Test].
Proof.
  unfold GTSTrainer.evaluation_point.
  destruct (evaluates Valid m) as [[[[ve vv] vt] vc] [m1 H1]].
  pose proof (gts_evaluate_marks Valid m) as Hm1. rewrite H1 in Hm1. simpl in Hm1.
  rewrite (bind_Return _ _ _ _ _ H1).
  erewrite (bind_Return (emit _)); [|reflexivity].
  match goal with
  | |- context [bind (GTSTrainer.evaluate generate_list ds Test) _ ?mm] =>
      destruct (evaluates Test mm) as [[[[te tv] tt'] tc] [m2 H2]];
      pose proof (gts_evaluate_marks Test mm) as Hm2
  end.
  rewrite H2 in Hm2. simpl in Hm2. rewrite marks_app in Hm2. simpl in Hm2.
  rewrite app_nil_r in Hm2.
  rewrite (bind_Return _ _ _ _ _ H2).
  erewrite (bind_Return (emit _)); [|reflexivity].
  erewrite (bind_Return get_self); [|reflexivity].
  match goal with |- context [Qle_bool ?a ?b] => destruct (Qle_bool a b) end;
    cbn -[insert dict_display marks];
    (eexists; split; [reflexivity|]); cbn -[insert dict_display marks];
    rewrite marks_app; simpl; rewrite app_nil_r, Hm2, Hm1, <- app_assoc; reflexivity.
Qed.

Lemma gts_fit_epoch_marks (epo : Z) (m : machine GTSTrainer.state) :
  exists m', GTSTrainer.fit_epoch generate_list ds cfg epo m = (Return tt, m') /\
             marks (log m') = marks (log m) ++ schedule 10 (epoch_nums cfg) epo.
Proof.
  unfold GTSTrainer.fit_epoch.
  erewrite (bind_Return (GTSTrainer.assign _)); [|reflexivity].
  erewrite (bind_Return (GTSTrainer.assign _)); [|reflexivity].
  match goal with
  | |- context [bind (GTSTrainer._train_epoch generate_list ds) _ ?mm] =>
      destruct (trains mm) as [r [m1 H1]];
      pose proof (gts_train_epoch_quiet mm) as [Hm1 He1]
  end.
  rewrite H1 in Hm1, He1. simpl in Hm1, He1.
  rewrite (bind_Return _ _ _ _ _ H1).
  destruct (gts_scheduler_step_quiet m1) as [m1' [Hs [Hl He]]].
  rewrite (bind_Return _ _ _ _ _ Hs).
  erewrite (bind_Return get_self); [|reflexivity].
  erewrite (bind_Return (emit _)); [|reflexivity].
  rewrite He, He1, Hl. unfold schedule, evaluation_epoch.
  destruct ((epo mod 10 =? 0) || (epo >? epoch_nums cfg - 5)).
  - match goal with
    | |- context [bind (GTSTrainer.evaluation_point generate_list ds cfg) _ ?mm] =>
        destruct (gts_evaluation_point_marks mm) as [m2 [H2 Hm2]]
    end.
    rewrite (bind_Return _ _ _ _ _ H2).
    simpl in Hm2. rewrite marks_app, Hm1 in Hm2. simpl in Hm2.
    destruct (epo mod 5 =? 0); cbn -[insert dict_display marks];
      (eexists; split; [reflexivity|]); cbn -[insert dict_display marks];
      rewrite Hm2, <- app_assoc; reflexivity.
  - erewrite (bind_Return (ret _)); [|reflexivity].
    destruct (epo mod 5 =? 0); cbn -[insert dict_display marks];
      (eexists; split; [reflexivity|]); cbn -[insert dict_display marks];
      rewrite marks_app, Hm1; reflexivity.
Qed.

Lemma gts_fit_marks (m : machine GTSTrainer.state) :
  fst (GTSTrainer.fit generate_list ds cfg m) = Return tt /\
  marks (log (snd (GTSTrainer.fit generate_list ds cfg m))) =
  marks (log m) ++ flat_map (schedule 10 (epoch_nums cfg))
                     (range_from (GTSTrainer.start_epoch (self m)) (epoch_nums cfg)).
Proof.
  unfold GTSTrainer.fit.
  erewrite (bind_Return (GTSTrainer.assign _)); [|reflexivity].
  erewrite (bind_Return get_self); [|reflexivity]. cbv beta.
  match goal with
  | |- context [for_each ?xs _ ?ma] =>
      destruct (for_each_marks (GTSTrainer.fit_epoch generate_list ds cfg)
                  (schedule 10 (epoch_nums cfg)) gts_fit_epoch_marks xs ma)
        as [m1 [H1 Hm1]]
  end.
  rewrite H1. split; [reflexivity|exact Hm1].
Qed.
End ScheduleGTS.

(** C4, as the code has it.  When training and evaluating do not raise,
    the run of [fit] logs, for each epoch from the start epoch to the last
    in turn, the line of the epoch followed, on the evaluation epochs and on
    no other, by an evaluation of the validation split and then one of the
    test split.  The evaluation epochs are those whose index is a multiple
    of the period or greater than [epoch_nums - 5]; the period is 2 in the
    single- and multi-equation trainers (and in the trainer they copy) and
    10 in the tree-decoder trainer, whose [fit] returns. *)
Theorem fit_evaluation_schedule :
  forall (B : Backend) (ds : dataset) (cfg : config),
    (forall (O : SeqOps) (m : machine Trainer.state),
       (forall m0, exists r m', Trainer._train_epoch ds cfg m0 = (Return r, m')) ->
       (forall eval_set m0,
          exists r m', Trainer.evaluate ds cfg eval_set m0 = (Return r, m')) ->
       let expected :=
         marks (log m) ++ flat_map (schedule 2 (epoch_nums cfg))
                            (range_from (Trainer.start_epoch (self m)) (epoch_nums cfg)) in
       marks (log (snd (SingleEquationTrainer.fit ds cfg m))) = expected /\
       marks (log (snd (MultiEquationTrainer.fit ds cfg m))) = expected /\
       marks (log (snd (Trainer.fit ds cfg m))) = expected) /\
    (forall (O : GtsOps) (generate_list : list string) (m : machine GTSTrainer.state),
       (forall m0,
          exists r m', GTSTrainer._train_epoch generate_list ds m0 = (Return r, m')) ->
       (forall eval_set m0,
          exists r m', GTSTrainer.evaluate generate_list ds eval_set m0 = (Return r, m')) ->
       fst (GTSTrainer.fit generate_list ds cfg m) = Return tt /\
       marks (log (snd (GTSTrainer.fit generate_list ds cfg m))) =
       marks (log m) ++ flat_map (schedule 10 (epoch_nums cfg))
                          (range_from (GTSTrainer.start_epoch (self m)) (epoch_nums cfg))).
Proof.
  intros B ds cfg. split.
  - intros O m Ht He. cbv zeta.
    pose proof (fit_marks ds cfg Ht He m) as H.
    split; [exact H|]. split; exact H.
  - intros O gl m Ht He. apply gts_fit_marks; assumption.
Qed.

Lemma fit_evaluation_schedule_witness :
  marks (log (snd (@SingleEquationTrainer.fit (toy_backend toy_data) (toy_seq_ops toy_data)
                     scenario_dataset (toy_config 8) (toy_trainer toy_data))))
  = flat_map (schedule 2 8) (range_from 0 8) /\
  marks (log (snd (@GTSTrainer.fit (toy_backend toy_data) (toy_gts_ops toy_data) []
                     scenario_dataset (toy_config 8)
                     (toy_gts_trainer toy_data (toy_config 8)))))
  = flat_map (schedule 10 8) (range_from 0 8).
Proof.
  split.
  - refine (proj1 (proj1 (fit_evaluation_schedule (toy_backend toy_data) scenario_dataset
                            (toy_config 8)) (toy_seq_ops toy_data) (toy_trainer toy_data)
                     _ _)).
    + intros m0. vm_compute. eexists. eexists. reflexivity.
    + intros eval_set m0. destruct eval_set; vm_compute; eexists; eexists; reflexivity.
  - refine (proj2 (proj2 (fit_evaluation_schedule (toy_backend toy_data) scenario_dataset
                            (toy_config 8)) (toy_gts_ops toy_data) []
                     (toy_gts_trainer toy_data (toy_config 8)) _ _)).
    + intros m0. vm_compute. eexists. eexists. reflexivity.
    + intros eval_set m0. destruct eval_set; vm_compute; eexists; eexists; reflexivity.
Defined.

(** C4, as it is stated, fails.  With eight epochs the tree-decoder trainer
    does not evaluate at the epoch of index 2; the transformer trainer
    evaluates the training split where the validation split is claimed, and
    never the validation split; the adversarial trainer logs its first epoch
    and evaluates nothing. *)
Lemma fit_evaluation_schedule_fails :
  marks (log (snd (@GTSTrainer.fit (toy_backend toy_data) (toy_gts_ops toy_data) []
                     scenario_dataset (toy_config 8)
                     (toy_gts_trainer toy_data (toy_config 8)))))
  <> flat_map (schedule 2 8) (range_from 0 8) /\
  (let tr := marks (log (snd (@TransformerTrainer.fit (toy_backend toy_data)
                                (toy_seq_ops toy_data) toy_get_lr scenario_dataset
                                (toy_config 8) (toy_trainer toy_data)))) in
   In (EvalMark Train) tr /\ ~ In (EvalMark Valid) tr) /\
  marks (log (snd (@SeqGANTrainer.fit (toy_backend toy_data) (toy_gan_ops toy_data)
                     (toy_config_with false 8) (toy_gan_trainer toy_data))))
  = [EpochMark 1].
Proof.
  split; [|split].
  - vm_compute. discriminate.
  - cbv zeta. split.
    + vm_compute. right. left. reflexivity.
    + vm_compute. intros H.
      repeat match goal with
             | H : _ \/ _ |- _ => destruct H as [H|H]; [discriminate H|]
             end.
      exact H.
  - vm_compute. reflexivity.
Qed.

(** * Further properties *)

(** ** More on the vocabulary re-indexing *)

Lemma for_collect_length {A C} (f : A -> outcome C) (xs : list A) (ys : list C) :
  for_collect f xs = Return ys -> length ys = length xs.
Proof.
  intros H. apply for_collect_Return in H. apply Forall2_length in H. auto.
Qed.

Lemma list_getitem_Raise {A} (l : list A) (i : Z) (e : exn) :
  list_getitem l i = Raise e ->
  e = IndexError /\ ~ (- Z.of_nat (length l) <= i < Z.of_nat (length l)).
Proof.
  unfold list_getitem. cbv zeta.
  destruct (Z.ltb_spec i 0) as [Hneg|Hpos].
  - destruct (Z.leb_spec 0 (i + Z.of_nat (length l))) as [H0|H0];
      destruct (Z.ltb_spec (i + Z.of_nat (length l)) (Z.of_nat (length l))) as [H1|H1];
      simpl; try (intros [= <-]; split; [reflexivity|lia]).
    destruct (l !! Z.to_nat (i + Z.of_nat (length l))) eqn:Hl; [discriminate|].
    apply lookup_ge_None in Hl. lia.
  - destruct (Z.leb_spec 0 i) as [H0|H0];
      destruct (Z.ltb_spec i (Z.of_nat (length l))) as [H1|H1];
      simpl; try (intros [= <-]; split; [reflexivity|lia]).
    destruct (l !! Z.to_nat i) eqn:Hl; [discriminate|].
    apply lookup_ge_None in Hl. lia.
Qed.

Lemma idx2word_2idx_rows (ds : dataset) (t r : tensor2) :
  _idx2word_2idx ds t = Return r ->
  exists rows,
    r = LongTensor rows /\
    Forall2 (fun b row =>
      Forall2 (fun idx z =>
        (list_getitem (in_idx2word ds) (item t b idx)
           ≫= dict_getitem (out_symbol2idx ds)) = Return z)
        (range (size1 t)) row)
      (range (size0 t)) rows.
Proof.
  unfold _idx2word_2idx. cbv zeta.
  destruct (for_collect _ (range (size0 t))) as [rows|e] eqn:Hrows; simpl; [|discriminate].
  intros [= <-]. exists rows. split; [reflexivity|].
  apply for_collect_Return in Hrows.
  eapply Forall2_impl; [exact Hrows|].
  intros b row Hrow. apply for_collect_Return in Hrow. exact Hrow.
Qed.

Lemma idx2word_2idx_size0 (ds : dataset) (t r : tensor2) :
  _idx2word_2idx ds t = Return r -> size0 r = size0 t.
Proof.
  intros H. apply idx2word_2idx_rows in H as [rows [-> Hrows]].
  apply Forall2_length in Hrows. simpl. rewrite <- Hrows. unfold range. apply length_seq.
Qed.

(** X1. Whenever [_idx2word_2idx] returns, the tensor it returns has the
    rows of its argument (and its columns, when there is a row), and holds
    at every position the output index of the input word that the argument
    names there: it never returns a wrong index. *)
Theorem idx2word_2idx_sound (ds : dataset) (t r : tensor2) :
  _idx2word_2idx ds t = Return r ->
  size0 r = size0 t /\
  ((0 < size0 t)%nat -> size1 r = size1 t) /\
  forall b idx, (b < size0 t)%nat -> (idx < size1 t)%nat ->
    exists w, list_getitem (in_idx2word ds) (item t b idx) = Return w /\
              out_symbol2idx ds !! w = Some (item r b idx).
Proof.
  intros H. split; [apply (idx2word_2idx_size0 ds); exact H|].
  apply idx2word_2idx_rows in H as [rows [-> Hrows]]. split.
  - intros Hpos.
    destruct (Forall2_lookup_l _ _ _ 0%nat 0%nat Hrows (range_lookup _ _ Hpos))
      as [row [Hrow Hcells]].
    destruct rows as [|row0 rows]; [discriminate|]. injection Hrow as ->.
    simpl. apply Forall2_length in Hcells. rewrite <- Hcells. unfold range. apply length_seq.
  - intros b idx Hb Hi.
    destruct (Forall2_lookup_l _ _ _ b b Hrows (range_lookup _ _ Hb)) as [row [Hrow Hcells]].
    destruct (Forall2_lookup_l _ _ _ idx idx Hcells (range_lookup _ _ Hi)) as [z [Hz Hc]].
    rewrite (LongTensor_item rows b idx row z Hrow Hz).
    destruct (list_getitem (in_idx2word ds) (item t b idx)) as [w|e]; [|discriminate].
    simpl in Hc. exists w. split; [reflexivity|].
    unfold dict_getitem in Hc. destruct (out_symbol2idx ds !! w); [|discriminate].
    injection Hc as ->. reflexivity.
Qed.

Lemma idx2word_2idx_sound_witness :
  let t := LongTensor [[3; 7; 2]] in
  let r := LongTensor [[1; 5; 9]] in
  size0 r = size0 t /\
  ((0 < size0 t)%nat -> size1 r = size1 t) /\
  forall b idx, (b < size0 t)%nat -> (idx < size1 t)%nat ->
    exists w, list_getitem (in_idx2word scenario_dataset) (item t b idx) = Return w /\
              out_symbol2idx scenario_dataset !! w = Some (item r b idx).
Proof.
  apply (idx2word_2idx_sound scenario_dataset (LongTensor [[3; 7; 2]])
           (LongTensor [[1; 5; 9]])).
  vm_compute. reflexivity.
Defined.

(** X2. The only exceptions of [_idx2word_2idx]: an [IndexError] for a
    position whose index lies outside the input vocabulary (below [-len] or
    from [len] on), or the [KeyError] of a position's input word that the
    output vocabulary does not have. *)
Theorem idx2word_2idx_exceptions (ds : dataset) (t : tensor2) (e : exn) :
  _idx2word_2idx ds t = Raise e ->
  exists b idx, (b < size0 t)%nat /\ (idx < size1 t)%nat /\
    ((e = IndexError /\
      ~ (- Z.of_nat (length (in_idx2word ds)) <= item t b idx
         < Z.of_nat (length (in_idx2word ds)))) \/
     (exists w, e = KeyError w /\
                list_getitem (in_idx2word ds) (item t b idx) = Return w /\
                out_symbol2idx ds !! w = None)).
Proof.
  unfold _idx2word_2idx. cbv zeta.
  destruct (for_collect _ (range (size0 t))) as [rows|e'] eqn:Hrows; simpl; [discriminate|].
  intros [= ->].
  apply for_collect_Raise_inv in Hrows as [b [Hb Hrow]]. apply in_range in Hb.
  apply for_collect_Raise_inv in Hrow as [idx [Hi Hc]]. apply in_range in Hi.
  exists b, idx. split; [exact Hb|]. split; [exact Hi|].
  destruct (list_getitem (in_idx2word ds) (item t b idx)) as [w|e'] eqn:Hw.
  - right. simpl in Hc. unfold dict_getitem in Hc.
    destruct (out_symbol2idx ds !! w) eqn:Hl; [discriminate|].
    injection Hc as <-. exists w. split; [reflexivity|]. split; [reflexivity|exact Hl].
  - left. simpl in Hc. injection Hc as ->. apply (list_getitem_Raise _ _ _ Hw).
Qed.

Lemma idx2word_2idx_exceptions_witness :
  let t := LongTensor [[3; 8; 2]] in
  exists b idx, (b < size0 t)%nat /\ (idx < size1 t)%nat /\
    ((IndexError = IndexError /\
      ~ (- Z.of_nat (length (in_idx2word scenario_dataset)) <= item t b idx
         < Z.of_nat (length (in_idx2word scenario_dataset)))) \/
     (exists w, IndexError = KeyError w /\
                list_getitem (in_idx2word scenario_dataset) (item t b idx) = Return w /\
                out_symbol2idx scenario_dataset !! w = None)).
Proof.
  apply (idx2word_2idx_exceptions scenario_dataset (LongTensor [[3; 8; 2]]) IndexError).
  vm_compute. reflexivity.
Defined.

(** ** The counts of [evaluate] *)

Lemma for_fold_tally `{B : Backend} {T : Type}
    (eval_batch : batch -> outcome (list bool * list bool)) (bs : list batch)
    (acc : nat * nat * nat) (m : machine T) :
  for_fold bs
    (fun (acc : nat * nat * nat) b =>
       r <- lift (eval_batch b) ;;
       ret ((acc.1.1 + count_true r.1)%nat,
            (acc.1.2 + count_true r.2)%nat,
            (acc.2 + length r.1)%nat))
    acc m
  = (tally eval_batch bs acc, m).
Proof.
  revert acc. induction bs as [|b bs IH]; intros acc; simpl; [reflexivity|].
  unfold bind at 1. unfold bind at 1. unfold lift.
  destruct (eval_batch b) as [r|e]; simpl; [apply IH|reflexivity].
Qed.

Lemma evaluate_loop_tally `{B : Backend} {T : Type}
    (eval_batch : batch -> outcome (list bool * list bool)) (eval_set : DatasetType)
    (m : machine T) :
  evaluate_loop eval_batch eval_set m =
  let m1 := snd (emit (Evaluating eval_set) m) in
  match tally eval_batch (load_data eval_set) (0%nat, 0%nat, 0%nat) with
  | Raise e => (Raise e, m1)
  | Return acc =>
      let m2 := snd (elapsed m1) in
      match truediv acc.1.2 acc.2 with
      | Raise e => (Raise e, m2)
      | Return equ =>
          match truediv acc.1.1 acc.2 with
          | Raise e => (Raise e, m2)
          | Return val => (Return (equ, val, Z.of_nat acc.2, time_since (clock m1)), m2)
          end
      end
  end.
Proof.
  unfold evaluate_loop.
  erewrite (bind_Return (emit _)); [|reflexivity].
  unfold bind at 1. rewrite for_fold_tally. cbv zeta.
  destruct (tally eval_batch (load_data eval_set) (0%nat, 0%nat, 0%nat)) as [acc|e];
    [|reflexivity].
  erewrite (bind_Return elapsed); [|reflexivity].
  unfold bind, lift, ret.
  destruct (truediv acc.1.2 acc.2); [|reflexivity].
  destruct (truediv acc.1.1 acc.2); reflexivity.
Qed.

Lemma count_true_le (xs : list bool) : (count_true xs <= length xs)%nat.
Proof. unfold count_true. apply length_filter. Qed.

Lemma tally_counts `{B : Backend} (eval_batch : batch -> outcome (list bool * list bool))
    (size : batch -> nat) (bs : list batch) (acc acc' : nat * nat * nat) :
  (forall b r, In b bs -> eval_batch b = Return r ->
     length r.1 = size b /\ length r.2 = size b) ->
  tally eval_batch bs acc = Return acc' ->
  acc'.2 = (acc.2 + foldr (fun b n => (size b + n)%nat) 0%nat bs)%nat /\
  ((acc.1.1 <= acc.2)%nat -> (acc'.1.1 <= acc'.2)%nat) /\
  ((acc.1.2 <= acc.2)%nat -> (acc'.1.2 <= acc'.2)%nat).
Proof.
  revert acc. induction bs as [|b bs IH]; intros acc Hsize; simpl.
  - intros [= <-]. split; [lia|]. split; auto.
  - destruct (eval_batch b) as [r|e] eqn:Hb; [|discriminate].
    destruct (Hsize b r (or_introl eq_refl) Hb) as [H1 H2].
    intros H. apply IH in H; [|intros b' r' Hin; apply Hsize; right; exact Hin].
    simpl in H. destruct H as [Ht [Hv He]].
    pose proof (count_true_le r.1). pose proof (count_true_le r.2).
    split; [lia|]. split; intros Hle; [apply Hv|apply He]; lia.
Qed.

Lemma truediv_Return (a b : nat) (q : Q) :
  truediv a b = Return q ->
  (0 < b)%nat /\ (0 <= q)%Q /\ ((a <= b)%nat -> (q <= 1)%Q).
Proof.
  unfold truediv. destruct b as [|b]; [discriminate|]. intros [= <-].
  split; [lia|].
  assert (Hp : Zpos (Pos.of_nat (S b)) = Z.of_nat (S b)).
  { rewrite <- positive_nat_Z. rewrite Nat2Pos.id by discriminate. reflexivity. }
  split.
  - rewrite Qred_correct. unfold Qle. simpl Qnum. simpl Qden. lia.
  - intros Hle. rewrite Qred_correct. unfold Qle. simpl Qnum. simpl Qden.
    rewrite Hp. lia.
Qed.

Lemma evaluate_loop_Return `{B : Backend} {T : Type}
    (eval_batch : batch -> outcome (list bool * list bool)) (size : batch -> nat)
    (eval_set : DatasetType) (m m' : machine T) (equ val : Q) (total : Z) (time : string) :
  (forall b r, eval_batch b = Return r -> length r.1 = size b /\ length r.2 = size b) ->
  evaluate_loop eval_batch eval_set m = (Return (equ, val, total, time), m') ->
  total = Z.of_nat (foldr (fun b n => (size b + n)%nat) 0%nat (load_data eval_set)) /\
  0 < total /\ (0 <= equ <= 1)%Q /\ (0 <= val <= 1)%Q.
Proof.
  intros Hsize. rewrite evaluate_loop_tally. cbv zeta.
  destruct (tally eval_batch (load_data eval_set) (0%nat, 0%nat, 0%nat)) as [acc|e] eqn:Ht;
    [|discriminate].
  apply (tally_counts _ size) in Ht; [|intros b r _; apply Hsize].
  simpl in Ht. destruct Ht as [Ht [Hv He]].
  destruct (truediv acc.1.2 acc.2) as [q1|e] eqn:H1; [|discriminate].
  destruct (truediv acc.1.1 acc.2) as [q2|e] eqn:H2; [|discriminate].
  intros [= <- <- <- <-] .
  apply truediv_Return in H1 as [Hpos [H10 H11]].
  apply truediv_Return in H2 as [_ [H20 H21]].
  split; [rewrite Ht; reflexivity|]. split; [lia|].
  split; (split; [assumption|]); [apply H11, He|apply H21, Hv]; lia.
Qed.

Lemma target_of_size0 `{O : SeqOps} (ds : dataset) (cfg : config) (b : batch) (t : tensor2) :
  Trainer.target_of ds cfg b = Return t -> size0 t = size0 (equation b).
Proof.
  unfold Trainer.target_of. destruct (share_vocab cfg).
  - apply idx2word_2idx_size0.
  - intros [= <-]. reflexivity.
Qed.

Lemma eval_batch_lengths `{O : SeqOps} (ds : dataset) (cfg : config) (w : weights)
    (b : batch) (r : list bool * list bool) :
  Trainer._eval_batch ds cfg w b = Return r ->
  length r.1 = size0 (equation b) /\ length r.2 = size0 (equation b).
Proof.
  unfold Trainer._eval_batch.
  destruct (model_infer w b) as [test_out|e]; simpl; [|discriminate].
  destruct (Trainer.target_of ds cfg b) as [target|e] eqn:Ht; simpl; [|discriminate].
  apply target_of_size0 in Ht.
  destruct (for_collect _ (range (size0 target))) as [acs|e] eqn:Hacs; simpl; [|discriminate].
  intros [= <-]. apply for_collect_length in Hacs. simpl.
  rewrite !length_map, Hacs. unfold range. rewrite length_seq. auto.
Qed.

(** X3. When [evaluate] returns (in [Trainer], hence in its copies and in
    the transformer trainer, which call it), the total is the number of
    examples in the batches of the split and is positive, and the two
    accuracies lie between 0 and 1. *)
Theorem evaluate_accuracies :
  forall (B : Backend) (O : SeqOps) (ds : dataset) (cfg : config) (eval_set : DatasetType)
         (m m' : machine Trainer.state) (equ val : Q) (total : Z) (time : string),
    Trainer.evaluate ds cfg eval_set m = (Return (equ, val, total, time), m') ->
    total = Z.of_nat (examples (load_data eval_set)) /\
    0 < total /\ (0 <= equ <= 1)%Q /\ (0 <= val <= 1)%Q.
Proof.
  intros B O ds cfg eval_set m m' equ val total time.
  unfold Trainer.evaluate.
  erewrite (bind_Return (Trainer.assign _)); [|reflexivity].
  erewrite (bind_Return get_self); [|reflexivity].
  apply (evaluate_loop_Return _ (fun b => size0 (equation b))).
  intros b r. apply eval_batch_lengths.
Qed.

Lemma evaluate_accuracies_witness :
  (2 : Z) = Z.of_nat (@examples (toy_backend toy_data) (@load_data (toy_backend toy_data) Valid))
  /\ 0 < 2 /\ (0 <= 1 <= 1)%Q /\ (0 <= 1 <= 1)%Q.
Proof.
  refine (evaluate_accuracies (toy_backend toy_data) (toy_seq_ops toy_data) scenario_dataset
            (toy_config 3) Valid (toy_trainer toy_data) _ 1%Q 1%Q 2 "0s" _).
  vm_compute. reflexivity.
Defined.

Lemma gts_eval_batch_lengths `{O : GtsOps} (generate_list : list string) (ds : dataset)
    (w : weights) (b : batch) (r : list bool * list bool) :
  GTSTrainer._eval_batch generate_list ds w b = Return r ->
  length r.1 = 1%nat /\ length r.2 = 1%nat.
Proof.
  unfold GTSTrainer._eval_batch.
  destruct (GTSTrainer.generate_nums generate_list ds) as [nums|e]; simpl; [|discriminate].
  destruct (gts_model_infer w b nums) as [test_out|e]; simpl; [|discriminate].
  destruct (list_getitem (tolist (equation b)) 0) as [target|e]; simpl; [|discriminate].
  destruct (gts_evaluator_result test_out target b) as [ac|e]; simpl; [|discriminate].
  intros [= <-]. split; reflexivity.
Qed.

Lemma foldr_ones {A} (xs : list A) : foldr (fun _ n => S n) 0%nat xs = length xs.
Proof. induction xs as [|x xs IH]; simpl; [reflexivity|]. rewrite IH. reflexivity. Qed.

(** X4. The tree-decoder trainer scores one example per batch: when its
    [evaluate] returns, the total is the number of batches of the split,
    whatever their sizes, and the two accuracies lie between 0 and 1. *)
Theorem gts_evaluate_counts_batches :
  forall (B : Backend) (O : GtsOps) (generate_list : list string) (ds : dataset)
         (eval_set : DatasetType) (m m' : machine GTSTrainer.state)
         (equ val : Q) (total : Z) (time : string),
    GTSTrainer.evaluate generate_list ds eval_set m = (Return (equ, val, total, time), m') ->
    total = Z.of_nat (length (load_data eval_set)) /\
    0 < total /\ (0 <= equ <= 1)%Q /\ (0 <= val <= 1)%Q.
Proof.
  intros B O gl ds eval_set m m' equ val total time.
  unfold GTSTrainer.evaluate.
  erewrite (bind_Return GTSTrainer._model_eval); [|reflexivity].
  erewrite (bind_Return get_self); [|reflexivity].
  intros H. apply (evaluate_loop_Return _ (fun _ => 1%nat)) in H.
  - destruct H as [Ht Hrest]. split; [|exact Hrest].
    rewrite Ht. rewrite <- (foldr_ones (load_data eval_set)). reflexivity.
  - intros b r. apply gts_eval_batch_lengths.
Qed.

Lemma gts_evaluate_counts_batches_witness :
  (2 : Z) = Z.of_nat (length (@load_data (toy_backend toy_data) Valid))
  /\ 0 < 2 /\ (0 <= 1 <= 1)%Q /\ (0 <= 1 <= 1)%Q.
Proof.
  refine (gts_evaluate_counts_batches (toy_backend toy_data) (toy_gts_ops toy_data) []
            scenario_dataset Valid (toy_gts_trainer toy_data (toy_config 3)) _
            1%Q 1%Q 2 "0s" _).
  vm_compute. reflexivity.
Defined.

(** X5. [evaluate] changes nothing but the mode of the model: whether it
    returns or raises, the trainer object is the one before with the model
    (in the adversarial trainer the generator and the discriminator) put in
    evaluation mode, and no file is written. *)
Theorem evaluate_changes_mode_only :
  forall (B : Backend) (ds : dataset) (cfg : config) (eval_set : DatasetType),
    (forall (O : SeqOps) (m : machine Trainer.state),
       let m' := snd (Trainer.evaluate ds cfg eval_set m) in
       self m' = Trainer.with_training false (self m) /\ files m' = files m) /\
    (forall (O : GtsOps) (generate_list : list string) (m : machine GTSTrainer.state),
       let m' := snd (GTSTrainer.evaluate generate_list ds eval_set m) in
       self m' = GTSTrainer.with_training false (self m) /\ files m' = files m) /\
    (forall (O : GanOps) (m : machine SeqGANTrainer.state),
       let m' := snd (SeqGANTrainer.evaluate cfg eval_set m) in
       self m' = SeqGANTrainer.with_modes false false (self m) /\ files m' = files m).
Proof.
  intros B ds cfg eval_set. split; [|split].
  - intros O m. cbv zeta. unfold Trainer.evaluate.
    erewrite (bind_Return (Trainer.assign _)); [|reflexivity].
    erewrite (bind_Return get_self); [|reflexivity].
    match goal with
    | |- context [evaluate_loop ?eb _ ?m1] =>
        destruct (evaluate_loop_untouched eb eval_set m1) as [Hs Hf]
    end.
    rewrite Hs, Hf. split; reflexivity.
  - intros O gl m. cbv zeta. unfold GTSTrainer.evaluate.
    erewrite (bind_Return GTSTrainer._model_eval); [|reflexivity].
    erewrite (bind_Return get_self); [|reflexivity].
    match goal with
    | |- context [evaluate_loop ?eb _ ?m1] =>
        destruct (evaluate_loop_untouched eb eval_set m1) as [Hs Hf]
    end.
    rewrite Hs, Hf. split; reflexivity.
  - intros O m. cbv zeta. unfold SeqGANTrainer.evaluate.
    erewrite (bind_Return (SeqGANTrainer.assign _)); [|reflexivity].
    erewrite (bind_Return get_self); [|reflexivity].
    match goal with
    | |- context [evaluate_loop ?eb _ ?m1] =>
        destruct (evaluate_loop_untouched eb eval_set m1) as [Hs Hf]
    end.
    rewrite Hs, Hf. split; reflexivity.
Qed.

Lemma load_model_from `{O : SeqOps} (cfg : config) (m : machine Trainer.state)
    (state_dict : gmap string pyval) (w : weights) :
  files m !! trained_model_path cfg = Some state_dict ->
  state_dict !! "model" = Some (PyModel w) ->
  Trainer._load_model cfg m
  = (Return tt,
     {| self := Trainer.with_model w (Trainer.optimizer (self m)) (self m);
        files := files m; log := log m; clock := clock m |}).
Proof.
  intros Hf Hsd. unfold Trainer._load_model.
  unfold bind at 1. unfold torch_load. rewrite Hf.
  unfold entry, bind, lift, dict_getitem. rewrite Hsd. reflexivity.
Qed.

Lemma gts_load_model_from `{O : GtsOps} (cfg : config) (m : machine GTSTrainer.state)
    (state_dict : gmap string pyval) (w : weights) :
  files m !! trained_model_path cfg = Some state_dict ->
  state_dict !! "model" = Some (PyModel w) ->
  GTSTrainer._load_model cfg m
  = (Return tt,
     {| self := GTSTrainer.with_model w (self m);
        files := files m; log := log m; clock := clock m |}).
Proof.
  intros Hf Hsd. unfold GTSTrainer._load_model.
  unfold bind at 1. unfold torch_load. rewrite Hf.
  unfold entry, bind, lift, dict_getitem. rewrite Hsd. reflexivity.
Qed.

Lemma model_dict_lookup `{B : Backend} (w : weights) :
  dict_display [("model", PyModel w)] !! "model" = Some (PyModel w).
Proof. unfold dict_display. simpl. apply lookup_insert_eq. Qed.

(** ** The best model and [test] *)

(** X6. [_load_model] after [_save_model]: any trainer of the same kind that
    loads the file just written gets the model of the trainer that saved and
    keeps every other attribute; the files stay as the saving left them. *)
Theorem save_load_model_roundtrip :
  forall (B : Backend) (cfg : config),
    (forall (O : SeqOps) (m : machine Trainer.state) (t' : Trainer.state),
       let loaded := Trainer._load_model cfg (resuming t' (snd (Trainer._save_model cfg m))) in
       fst loaded = Return tt /\
       self (snd loaded) = Trainer.with_model (Trainer.model (self m)) (Trainer.optimizer t') t' /\
       files (snd loaded) = files (snd (Trainer._save_model cfg m))) /\
    (forall (O : GtsOps) (m : machine GTSTrainer.state) (t' : GTSTrainer.state),
       let loaded := GTSTrainer._load_model cfg
                       (resuming t' (snd (GTSTrainer._save_model cfg m))) in
       fst loaded = Return tt /\
       self (snd loaded) = GTSTrainer.with_model (GTSTrainer.model (self m)) t' /\
       files (snd loaded) = files (snd (GTSTrainer._save_model cfg m))).
Proof.
  intros B cfg. split.
  - intros O m t'. cbv zeta.
    rewrite (load_model_from cfg _ (dict_display [("model", PyModel (Trainer.model (self m)))])
               (Trainer.model (self m))).
    + split; [reflexivity|]. split; reflexivity.
    + unfold resuming, Trainer._save_model. simpl. apply lookup_insert_eq.
    + apply model_dict_lookup.
  - intros O m t'. cbv zeta.
    rewrite (gts_load_model_from cfg _
               (dict_display [("model", PyModel (GTSTrainer.model (self m)))])
               (GTSTrainer.model (self m))).
    + split; [reflexivity|]. split; reflexivity.
    + unfold resuming, GTSTrainer._save_model. simpl. apply lookup_insert_eq.
    + apply model_dict_lookup.
Qed.

(** X7. Without a saved best model [test] raises [FileNotFoundError] for
    the path of the model file and leaves the machine as it was. *)
Theorem test_without_saved_model :
  forall (B : Backend) (ds : dataset) (cfg : config),
    (forall (O : SeqOps) (m : machine Trainer.state),
       files m !! trained_model_path cfg = None ->
       let missing := (Raise (FileNotFoundError (trained_model_path cfg)), m) in
       Trainer.test ds cfg m = missing /\
       SingleEquationTrainer.test ds cfg m = missing /\
       MultiEquationTrainer.test ds cfg m = missing /\
       TransformerTrainer.test ds cfg m = missing) /\
    (forall (O : GtsOps) (generate_list : list string) (m : machine GTSTrainer.state),
       files m !! trained_model_path cfg = None ->
       GTSTrainer.test generate_list ds cfg m
       = (Raise (FileNotFoundError (trained_model_path cfg)), m)).
Proof.
  intros B ds cfg. split.
  - intros O m Hf. cbv zeta.
    assert (H : Trainer.test ds cfg m
                = (Raise (FileNotFoundError (trained_model_path cfg)), m)).
    { unfold Trainer.test. apply bind_Raise.
      unfold Trainer._load_model. apply bind_Raise.
      unfold torch_load. rewrite Hf. reflexivity. }
    split; [exact H|]. split; [exact H|]. split; exact H.
  - intros O gl m Hf.
    unfold GTSTrainer.test. apply bind_Raise.
    unfold GTSTrainer._load_model. apply bind_Raise.
    unfold torch_load. rewrite Hf. reflexivity.
Qed.

Lemma test_without_saved_model_witness :
  @Trainer.test (toy_backend toy_data) (toy_seq_ops toy_data) scenario_dataset (toy_config 3)
    (toy_trainer toy_data)
  = (Raise (FileNotFoundError "trained_model.pth"), toy_trainer toy_data) /\
  @GTSTrainer.test (toy_backend toy_data) (toy_gts_ops toy_data) [] scenario_dataset
    (toy_config 3) (toy_gts_trainer toy_data (toy_config 3))
  = (Raise (FileNotFoundError "trained_model.pth"), toy_gts_trainer toy_data (toy_config 3)).
Proof.
  split.
  - apply (proj1 (test_without_saved_model (toy_backend toy_data) scenario_dataset
                    (toy_config 3)) (toy_seq_ops toy_data) (toy_trainer toy_data)).
    reflexivity.
  - apply (proj2 (test_without_saved_model (toy_backend toy_data) scenario_dataset
                    (toy_config 3)) (toy_gts_ops toy_data) []
             (toy_gts_trainer toy_data (toy_config 3))).
    reflexivity.
Defined.

(** X8. [test] is [evaluate] on the test split with the saved model: with
    a model [w] in the model file, [test] logs the total and the accuracies
    that [evaluate(DatasetType.Test)] returns on the trainer holding [w],
    and raises what it raises. *)
Theorem test_evaluates_saved_model :
  forall (B : Backend) (O : SeqOps) (ds : dataset) (cfg : config)
         (m : machine Trainer.state) (state_dict : gmap string pyval) (w : weights),
    files m !! trained_model_path cfg = Some state_dict ->
    state_dict !! "model" = Some (PyModel w) ->
    let loaded :=
      {| self := Trainer.with_model w (Trainer.optimizer (self m)) (self m);
         files := files m; log := log m; clock := clock m |} in
    match Trainer.evaluate ds cfg Test loaded with
    | (Return (equ, val, total, time), m1) =>
        Trainer.test ds cfg m
        = (Return tt,
           {| self := self m1; files := files m;
              log := log m ++ [TestLog total equ val time]; clock := clock m1 |})
    | (Raise e, m1) =>
        Trainer.test ds cfg m
        = (Raise e, {| self := self m1; files := files m; log := log m; clock := clock m1 |})
    end.
Proof.
  intros B O ds cfg m sd w Hf Hsd. cbv zeta.
  match goal with
  | |- context [Trainer.evaluate ds cfg Test ?l] =>
      assert (He : Trainer.evaluate ds cfg Test l
                   = evaluate_loop (Trainer._eval_batch ds cfg w) Test
                       {| self := Trainer.with_training false (self l);
                          files := files m; log := log m; clock := clock m |})
        by reflexivity;
      rewrite He; clear He
  end.
  rewrite evaluate_loop_tally. cbv zeta.
  unfold Trainer.test.
  rewrite (bind_Return _ _ _ _ _ (load_model_from cfg m sd w Hf Hsd)).
  erewrite (bind_Return (Trainer.assign _)); [|reflexivity].
  erewrite (bind_Return get_self); [|reflexivity].
  simpl self. simpl Trainer.model.
  destruct (tally (Trainer._eval_batch ds cfg w) (load_data Test) (0%nat, 0%nat, 0%nat))
    as [acc|e] eqn:Ht.
  - erewrite (bind_Return (for_fold _ _ _)); [|rewrite for_fold_tally, Ht; reflexivity].
    erewrite (bind_Return elapsed); [|reflexivity].
    unfold bind, lift.
    destruct (truediv acc.1.2 acc.2) as [equ|e]; [|reflexivity].
    destruct (truediv acc.1.1 acc.2) as [val|e]; reflexivity.
  - erewrite (bind_Raise (for_fold _ _ _)); [|rewrite for_fold_tally, Ht; reflexivity].
    reflexivity.
Qed.

Lemma test_evaluates_saved_model_witness :
  let saved := snd (@Trainer._save_model (toy_backend toy_data) (toy_config 3)
                      (toy_trainer toy_data)) in
  @Trainer.test (toy_backend toy_data) (toy_seq_ops toy_data) scenario_dataset (toy_config 3)
    saved
  = (Return tt,
     {| self := Trainer.with_training false (self saved); files := files saved;
        log := [TestLog 1 1 1 "0s"]; clock := 1 |}).
Proof.
  exact (test_evaluates_saved_model (toy_backend toy_data) (toy_seq_ops toy_data)
           scenario_dataset (toy_config 3)
           (snd (@Trainer._save_model (toy_backend toy_data) (toy_config 3)
                   (toy_trainer toy_data)))
           (@dict_display (toy_backend toy_data) [("model", @PyModel (toy_backend toy_data) 0%nat)])
           0%nat eq_refl eq_refl).
Defined.

(** ** Resuming from a check-point *)

Lemma bind_Return_inv `{B : Backend} {T A C : Type} (c : prog T A) (k : A -> prog T C)
    (m m' : machine T) (b : C) :
  bind c k m = (Return b, m') ->
  exists a m1, c m = (Return a, m1) /\ k a m1 = (Return b, m').
Proof.
  unfold bind. destruct (c m) as [[a|e] m1]; [|discriminate].
  intros H. exists a, m1. split; [reflexivity|exact H].
Qed.

Lemma same_field_refl `{B : Backend} {T A : Type} (f : T -> A) (m : machine T) :
  same_field f m m.
Proof. reflexivity. Qed.

Lemma same_field_trans `{B : Backend} {T A : Type} (f : T -> A) (m1 m2 m3 : machine T) :
  same_field f m1 m2 -> same_field f m2 m3 -> same_field f m1 m3.
Proof. unfold same_field. congruence. Qed.

Ltac field_kept :=
  match goal with
  | |- preserves (same_field _) (Trainer.assign _) => idtac
  | |- preserves (same_field _) (GTSTrainer.assign _) => idtac
  | |- preserves (same_field _) (SeqGANTrainer.assign _) => idtac
  | |- preserves (same_field _) (emit _) => idtac
  | |- preserves (same_field _) elapsed => idtac
  | |- preserves (same_field _) (torch_save _ _) => idtac
  end;
  let m := fresh "m" in intros m; reflexivity.

Section Resume.
Context `{O : SeqOps}.
Variable ds : dataset.
Variable cfg : config.

Lemma train_epoch_same_epoch :
  preserves (same_field Trainer.epoch_i) (Trainer._train_epoch ds cfg).
Proof.
  unfold Trainer._train_epoch, Trainer._train_batch.
  preserve (@same_field_refl B _ _ Trainer.epoch_i) (@same_field_trans B _ _ Trainer.epoch_i)
    field_kept.
Qed.

Lemma evaluation_point_same_epoch :
  preserves (same_field Trainer.epoch_i) (Trainer.evaluation_point ds cfg).
Proof.
  unfold Trainer.evaluation_point, Trainer.evaluate, evaluate_loop, Trainer._save_model.
  preserve (@same_field_refl B _ _ Trainer.epoch_i) (@same_field_trans B _ _ Trainer.epoch_i)
    field_kept.
Qed.

Lemma fit_epoch_saves (epo : Z) (m m' : machine Trainer.state) :
  epo mod 5 = 0 ->
  Trainer.fit_epoch ds cfg epo m = (Return tt, m') ->
  exists m2, m' = snd (Trainer._save_checkpoint cfg m2) /\
             Trainer.epoch_i (self m2) = epo + 1.
Proof.
  intros Hmod H. unfold Trainer.fit_epoch in H.
  erewrite (bind_Return (Trainer.assign _)) in H; [|reflexivity].
  erewrite (bind_Return (Trainer.assign _)) in H; [|reflexivity].
  apply bind_Return_inv in H as [r [m1 [Htrain H]]].
  match type of Htrain with
  | _ ?m0 = _ => pose proof (train_epoch_same_epoch m0) as He1
  end.
  rewrite Htrain in He1. unfold same_field in He1. simpl in He1.
  erewrite (bind_Return get_self) in H; [|reflexivity].
  erewrite (bind_Return (emit _)) in H; [|reflexivity].
  apply bind_Return_inv in H as [u [m2 [Heval H]]].
  assert (He2 : Trainer.epoch_i (self m2) = epo + 1).
  { destruct ((epo mod 2 =? 0) || (epo >? epoch_nums cfg - 5)).
    - match type of Heval with
      | _ ?m0 = _ => pose proof (evaluation_point_same_epoch m0) as He2
      end.
      rewrite Heval in He2. unfold same_field in He2. simpl in He2.
      rewrite He2. exact He1.
    - injection Heval as _ <-. exact He1. }
  rewrite Hmod in H. change (0 =? 0) with true in H. cbv iota in H.
  exists m2. split; [|exact He2]. rewrite H. reflexivity.
Qed.
End Resume.

(** X9. A check-point resumes at the next epoch.  When the epoch of index
    [epo], a multiple of 5, returns, constructing a trainer with [resume]
    enabled on the files it left loads the check-point and then looks the
    padding symbol up in the output vocabulary.  Without the symbol the
    constructor raises [KeyError]; with it the constructor succeeds, with
    the start epoch [epo + 1] and the model, the optimizer state and the
    four best accuracies of the end of that epoch. *)
Theorem checkpoint_resumes_next_epoch :
  forall (B : Backend) (O : SeqOps) (ds : dataset) (cfg : config) (PAD_TOKEN : string)
         (epo : Z) (m m' : machine Trainer.state) (w : weights) (o : optim_state)
         (l : loss_state) (t0 : Trainer.state),
    epo mod 5 = 0 ->
    resume cfg = true ->
    Trainer.fit_epoch ds cfg epo m = (Return tt, m') ->
    let r := Trainer.__init__ ds cfg PAD_TOKEN w o l (resuming t0 m') in
    (out_symbol2idx ds !! PAD_TOKEN = None -> fst r = Raise (KeyError PAD_TOKEN)) /\
    (is_Some (out_symbol2idx ds !! PAD_TOKEN) ->
     fst r = Return tt /\
     Trainer.start_epoch (self (snd r)) = epo + 1 /\
     Trainer.model (self (snd r)) = Trainer.model (self m') /\
     Trainer.optimizer (self (snd r)) = Trainer.optimizer (self m') /\
     Trainer.best_valid_equ_accuracy (self (snd r))
       = Trainer.best_valid_equ_accuracy (self m') /\
     Trainer.best_valid_value_accuracy (self (snd r))
       = Trainer.best_valid_value_accuracy (self m') /\
     Trainer.best_test_equ_accuracy (self (snd r))
       = Trainer.best_test_equ_accuracy (self m') /\
     Trainer.best_test_value_accuracy (self (snd r))
       = Trainer.best_test_value_accuracy (self m')).
Proof.
  intros B O ds cfg PAD_TOKEN epo m m' w o l t0 Hmod Hres Hfit. cbv zeta.
  destruct (fit_epoch_saves ds cfg epo m m' Hmod Hfit) as [m2 [-> Hepoch]].
  pose proof (save_load_checkpoint cfg m2 (Trainer.init w o l)) as H. cbv zeta in H.
  destruct (Trainer._load_checkpoint cfg
              (resuming (Trainer.init w o l) (snd (Trainer._save_checkpoint cfg m2))))
    as [o1 m3] eqn:Hload.
  destruct H as [H1 H2]. simpl in H1, H2. subst o1.
  unfold Trainer.__init__. rewrite Hres.
  rewrite (bind_Return (put_self _) _
             (resuming t0 (snd (Trainer._save_checkpoint cfg m2)))
             (resuming (Trainer.init w o l) (snd (Trainer._save_checkpoint cfg m2)))
             tt eq_refl).
  rewrite (bind_Return _ _ _ _ _ Hload).
  unfold bind, lift, dict_getitem, ret.
  split.
  - intros Hnone. rewrite Hnone. reflexivity.
  - intros [pad Hpad]. rewrite Hpad. simpl. rewrite H2. simpl.
    repeat (split; [first [reflexivity|exact Hepoch]|]). reflexivity.
Qed.

Lemma checkpoint_resumes_next_epoch_witness :
  let cfg := toy_resume_config 8 in
  let m' := snd (@Trainer.fit_epoch (toy_backend toy_data) (toy_seq_ops toy_data)
                   padded_dataset cfg 5 (toy_trainer toy_data)) in
  let r := @Trainer.__init__ (toy_backend toy_data) padded_dataset cfg "<PAD>"
             0%nat 0%nat 0%Q (resuming (self (toy_trainer toy_data)) m') in
  fst r = Return tt /\
  Trainer.start_epoch (self (snd r)) = 5 + 1 /\
  Trainer.model (self (snd r)) = Trainer.model (self m') /\
  Trainer.optimizer (self (snd r)) = Trainer.optimizer (self m') /\
  Trainer.best_valid_equ_accuracy (self (snd r))
    = Trainer.best_valid_equ_accuracy (self m') /\
  Trainer.best_valid_value_accuracy (self (snd r))
    = Trainer.best_valid_value_accuracy (self m') /\
  Trainer.best_test_equ_accuracy (self (snd r))
    = Trainer.best_test_equ_accuracy (self m') /\
  Trainer.best_test_value_accuracy (self (snd r))
    = Trainer.best_test_value_accuracy (self m').
Proof.
  cbv zeta.
  apply (checkpoint_resumes_next_epoch (toy_backend toy_data) (toy_seq_ops toy_data)
           padded_dataset (toy_resume_config 8) "<PAD>" 5 (toy_trainer toy_data)).
  - reflexivity.
  - reflexivity.
  - vm_compute. reflexivity.
  - exists 0. vm_compute. reflexivity.
Defined.

Lemma bind_fst_Raise `{B : Backend} {T A C : Type} (c : prog T A) (k : A -> prog T C)
    (m : machine T) (e : exn) :
  fst (c m) = Raise e -> fst (bind c k m) = Raise e.
Proof.
  unfold bind. destruct (c m) as [[a|e'] m']; simpl; intros H;
    [discriminate H|injection H as ->; reflexivity].
Qed.

Section SharedVocabulary.
Context `{O : GanOps}.
Variable cfg : config.
Hypothesis shared : share_vocab cfg = true.

Lemma gan_target_of_raises (b : batch) :
  SeqGANTrainer.target_of cfg b = Raise (AttributeError "_idx2word_2idx").
Proof. unfold SeqGANTrainer.target_of. rewrite shared. reflexivity. Qed.

Lemma train_generator_shared (m : machine SeqGANTrainer.state) (b : batch) (rest : list batch) :
  load_data Train = b :: rest ->
  fst (SeqGANTrainer.train_generator cfg m)
  = match generator_pre_train (gan_zero_grad (SeqGANTrainer.model (self m))) b with
    | Return _ => Raise (AttributeError "_idx2word_2idx")
    | Raise e => Raise e
    end.
Proof.
  intros Hdata.
  destruct (generator_pre_train (gan_zero_grad (SeqGANTrainer.model (self m))) b)
    as [o|e] eqn:Hpre;
    unfold SeqGANTrainer.train_generator;
    change (range_from 0 20) with (0 :: range_from 1 20); cbn [for_each];
    apply bind_fst_Raise;
    (erewrite (bind_Return (SeqGANTrainer.assign _)); [|reflexivity]);
    apply bind_fst_Raise; rewrite Hdata; cbn [for_fold];
    apply bind_fst_Raise;
    (erewrite (bind_Return (SeqGANTrainer.assign _)); [|reflexivity]);
    (erewrite (bind_Return get_self); [|reflexivity]);
    match goal with
    | |- context [generator_pre_train ?w b] =>
        change w with (gan_zero_grad (SeqGANTrainer.model (self m)))
    end;
    rewrite Hpre.
  - erewrite (bind_Return (lift _)); [|reflexivity].
    apply bind_fst_Raise. rewrite gan_target_of_raises. reflexivity.
  - reflexivity.
Qed.

Lemma gan_eval_batch_shared (w : weights) (b : batch) :
  SeqGANTrainer._eval_batch cfg w b
  = match gan_model_infer w b with
    | Return _ => Raise (AttributeError "_idx2word_2idx")
    | Raise e => Raise e
    end.
Proof.
  unfold SeqGANTrainer._eval_batch.
  destruct (gan_model_infer w b) as [test_out|e]; simpl; [|reflexivity].
  rewrite gan_target_of_raises. reflexivity.
Qed.
End SharedVocabulary.

(** ** The adversarial trainer *)

(** X12. With shared vocabularies the adversarial trainer cannot run: it
    calls [self._idx2word_2idx], which it does not define.  On a training
    set with a batch, [fit] raises at the first batch of the generator's
    pre-training, with [AttributeError] unless the generator raises before;
    and so does [_eval_batch] once the model has answered. *)
Theorem seqgan_shared_vocab_raises :
  forall (B : Backend) (O : GanOps) (cfg : config),
    share_vocab cfg = true ->
    (forall (m : machine SeqGANTrainer.state) (b : batch) (rest : list batch),
       load_data Train = b :: rest ->
       fst (SeqGANTrainer.fit cfg m)
       = match generator_pre_train (gan_zero_grad (SeqGANTrainer.model (self m))) b with
         | Return _ => Raise (AttributeError "_idx2word_2idx")
         | Raise e => Raise e
         end) /\
    (forall (w : weights) (b : batch),
       SeqGANTrainer._eval_batch cfg w b
       = match gan_model_infer w b with
         | Return _ => Raise (AttributeError "_idx2word_2idx")
         | Raise e => Raise e
         end).
Proof.
  intros B O cfg Hshared. split.
  - intros m b rest Hdata. unfold SeqGANTrainer.fit.
    erewrite (bind_Return (SeqGANTrainer.assign _)); [|reflexivity].
    match goal with
    | |- fst (bind _ _ ?ma) = _ =>
        pose proof (train_generator_shared cfg Hshared ma b rest Hdata) as H;
        change (SeqGANTrainer.model (self ma)) with (SeqGANTrainer.model (self m)) in H
    end.
    destruct (generator_pre_train _ b); apply bind_fst_Raise; rewrite H; reflexivity.
  - intros w b. apply gan_eval_batch_shared. exact Hshared.
Qed.

Lemma seqgan_shared_vocab_raises_witness :
  fst (@SeqGANTrainer.fit (toy_backend toy_data) (toy_gan_ops toy_data) (toy_config 3)
         (toy_gan_trainer toy_data))
  = Raise (AttributeError "_idx2word_2idx").
Proof.
  exact (proj1 (seqgan_shared_vocab_raises (toy_backend toy_data) (toy_gan_ops toy_data)
                  (toy_config 3) eq_refl)
           (toy_gan_trainer toy_data) 0%nat [] eq_refl).
Defined.

(** X13. A batch whose reward is the integer 0 that [get_reward] starts
    from (all its tokens are padding, or there is no roll-out) stops the
    adversarial phase: [_train_epoch] calls [backward] on that integer and
    raises, with [AttributeError] when the discriminator's part returns. *)
Theorem seqgan_integer_reward_raises :
  forall (B : Backend) (O : GanOps) (cfg : config) (m : machine SeqGANTrainer.state)
         (b : batch) (rest : list batch) (outputs : tensor2)
         (monte_carlo_outputs : list rollout) (P : list (list Q)),
    load_data Train = b :: rest ->
    let w := gan_zero_grad (SeqGANTrainer.model (self m)) in
    generator_sample w b = Return (outputs, monte_carlo_outputs, P) ->
    SeqGANTrainer.get_reward cfg w outputs monte_carlo_outputs P = Return PyZero ->
    raised (fst (SeqGANTrainer._train_epoch cfg m)) /\
    ((forall m0, exists d_loss m1,
        SeqGANTrainer.discriminate cfg outputs b m0 = (Return d_loss, m1)) ->
     fst (SeqGANTrainer._train_epoch cfg m) = Raise (AttributeError "backward")).
Proof.
  intros B O cfg m b rest outputs mcs P Hdata w Hsample Hreward.
  assert (Hbatch : forall m0,
            SeqGANTrainer.model (self m0) = w ->
            match SeqGANTrainer._train_batch cfg b m0 with
            | (Return r, _) => r.1 = PyZero
            | (Raise _, _) => True
            end).
  { intros m0 Hw. unfold SeqGANTrainer._train_batch.
    erewrite (bind_Return (SeqGANTrainer.assign _)); [|reflexivity].
    erewrite (bind_Return get_self); [|reflexivity].
    simpl SeqGANTrainer.model. rewrite Hw.
    erewrite (bind_Return (lift _)); [|unfold lift; rewrite Hsample; reflexivity].
    cbv iota beta.
    erewrite (bind_Return (lift _)); [|unfold lift; rewrite Hreward; reflexivity].
    erewrite (bind_Return (SeqGANTrainer.assign _)); [|reflexivity].
    unfold bind at 1.
    destruct (SeqGANTrainer.discriminate cfg outputs b _) as [[d|e] m1]; [|exact I].
    reflexivity. }
  unfold SeqGANTrainer._train_epoch.
  erewrite (bind_Return (SeqGANTrainer.assign _)); [|reflexivity].
  rewrite Hdata. cbn [imap for_fold].
  split.
  - apply bind_raised. apply bind_raised.
    erewrite (bind_Return (SeqGANTrainer.assign _)); [|reflexivity].
    erewrite (bind_Return (SeqGANTrainer.assign _)); [|reflexivity].
    match goal with
    | |- context [bind (SeqGANTrainer._train_batch cfg _) _ ?m0] =>
        pose proof (Hbatch m0 eq_refl) as H; unfold bind at 1;
        destruct (SeqGANTrainer._train_batch cfg _ m0) as [[[g d]|e] m1]; [|exact I]
    end.
    simpl in H. subst g. exact I.
  - intros Hdisc. apply bind_fst_Raise. apply bind_fst_Raise.
    erewrite (bind_Return (SeqGANTrainer.assign _)); [|reflexivity].
    erewrite (bind_Return (SeqGANTrainer.assign _)); [|reflexivity].
    match goal with
    | |- context [bind (SeqGANTrainer._train_batch cfg _) _ ?m0] =>
        assert (Hb : exists d m1, SeqGANTrainer._train_batch cfg b m0 = (Return (PyZero, d), m1))
    end.
    { unfold SeqGANTrainer._train_batch.
      erewrite (bind_Return (SeqGANTrainer.assign _)); [|reflexivity].
      erewrite (bind_Return get_self); [|reflexivity].
      erewrite (bind_Return (lift _)); [|unfold lift; simpl; fold w; rewrite Hsample; reflexivity].
      cbv iota beta.
      erewrite (bind_Return (lift _)); [|unfold lift; simpl; fold w; rewrite Hreward; reflexivity].
      erewrite (bind_Return (SeqGANTrainer.assign _)); [|reflexivity].
      match goal with
      | |- context [bind (SeqGANTrainer.discriminate cfg outputs b) _ ?m1] =>
          destruct (Hdisc m1) as [d [m2 Hd]]
      end.
      rewrite (bind_Return _ _ _ _ _ Hd).
      erewrite (bind_Return (SeqGANTrainer.assign _)); [|reflexivity].
      eexists. eexists. reflexivity. }
    destruct Hb as [d [m1 Hb]]. simpl fst. simpl snd.
    rewrite (bind_Return _ _ _ _ _ Hb). reflexivity.
Qed.

Lemma seqgan_integer_reward_raises_witness :
  fst (@SeqGANTrainer._train_epoch (toy_backend toy_data) (padding_gan_ops toy_data)
         (toy_config_with false 3) (toy_gan_trainer toy_data))
  = Raise (AttributeError "backward").
Proof.
  refine (proj2 (seqgan_integer_reward_raises (toy_backend toy_data) (padding_gan_ops toy_data)
                   (toy_config_with false 3) (toy_gan_trainer toy_data) 0%nat []
                   (LongTensor [[0; 0]; [0; 0]]) [[1 # 2; 1 # 4]; [1 # 3; 1 # 5]]%Q
                   [[-1; -2]; [-3; -4]]%Q eq_refl eq_refl eq_refl) _).
  intros m0. eexists. eexists. reflexivity.
Defined.

(** ** The tree-decoder trainer *)

(** X16. When a symbol of [generate_list] is missing from the output
    vocabulary, every [_eval_batch] and every [_train_batch] of the
    tree-decoder trainer raises the [KeyError] of the first such symbol,
    before the model is called; [_train_batch] leaves the machine as it was. *)
Theorem gts_missing_generate_symbol :
  forall (B : Backend) (O : GtsOps) (generate_list : list string) (ds : dataset)
         (symbol : string),
    In symbol generate_list ->
    out_symbol2idx ds !! symbol = None ->
    exists missing,
      In missing generate_list /\ out_symbol2idx ds !! missing = None /\
      (forall w b, GTSTrainer._eval_batch generate_list ds w b = Raise (KeyError missing)) /\
      (forall b m, GTSTrainer._train_batch generate_list ds b m = (Raise (KeyError missing), m)).
Proof.
  intros B O gl ds symbol Hin Hnone.
  destruct (for_collect_raises (dict_getitem (out_symbol2idx ds))
              (fun e => exists s, e = KeyError s /\ In s gl /\ out_symbol2idx ds !! s = None)
              gl) as [e [He [s [-> [Hs Hsn]]]]].
  - intros x e Hx. unfold dict_getitem.
    destruct (out_symbol2idx ds !! x) eqn:Hl; [discriminate|].
    intros [= <-]. exists x. split; [reflexivity|]. split; assumption.
  - exists symbol. split; [exact Hin|]. unfold dict_getitem. rewrite Hnone. exact I.
  - exists s. split; [exact Hs|]. split; [exact Hsn|]. split.
    + intros w b. unfold GTSTrainer._eval_batch, GTSTrainer.generate_nums.
      rewrite He. reflexivity.
    + intros b m. unfold GTSTrainer._train_batch.
      erewrite (bind_Return get_self); [|reflexivity].
      unfold GTSTrainer.generate_nums. rewrite He. reflexivity.
Qed.

Lemma gts_missing_generate_symbol_witness :
  exists missing,
    In missing ["x"; "pi"] /\ out_symbol2idx scenario_dataset !! missing = None /\
    (forall w b, @GTSTrainer._eval_batch (toy_backend toy_data) (toy_gts_ops toy_data)
                   ["x"; "pi"] scenario_dataset w b = Raise (KeyError missing)) /\
    (forall b m, @GTSTrainer._train_batch (toy_backend toy_data) (toy_gts_ops toy_data)
                   ["x"; "pi"] scenario_dataset b m = (Raise (KeyError missing), m)).
Proof.
  apply (gts_missing_generate_symbol (toy_backend toy_data) (toy_gts_ops toy_data)
           ["x"; "pi"] scenario_dataset "pi").
  - right. left. reflexivity.
  - vm_compute. reflexivity.
Defined.

(** ** The transformer trainer *)

Section ScheduleTransformer.
Context `{O : SeqOps}.
Variable get_lr : optim_state -> outcome (list Q).
Variable ds : dataset.
Variable cfg : config.
Hypothesis trains :
  forall m, exists r m', Trainer._train_epoch ds cfg m = (Return r, m').
Hypothesis evaluates :
  forall eval_set m, exists r m', Trainer.evaluate ds cfg eval_set m = (Return r, m').
Hypothesis rates : forall o, exists lr lrs, get_lr o = Return (lr :: lrs).

Lemma transformer_evaluation_point_marks (m : machine Trainer.state) :
  exists m', TransformerTrainer.evaluation_point ds cfg m = (Return tt, m') /\
             marks (log m') = marks (log m) ++ [EvalMark Train; EvalMark Test].
Proof.
  unfold TransformerTrainer.evaluation_point, TransformerTrainer.evaluate,
    TransformerTrainer._save_model.
  destruct (evaluates Train m) as [[[[ve vv] vt] vc] [m1 H1]].
  pose proof (evaluate_marks ds cfg Train m) as Hm1. rewrite H1 in Hm1. simpl in Hm1.
  rewrite (bind_Return _ _ _ _ _ H1).
  erewrite (bind_Return (emit _)); [|reflexivity].
  match goal with
  | |- context [bind (Trainer.evaluate ds cfg Test) _ ?mm] =>
      destruct (evaluates Test mm) as [[[[te tv] tt'] tc] [m2 H2]];
      pose proof (evaluate_marks ds cfg Test mm) as Hm2
  end.
  rewrite H2 in Hm2. simpl in Hm2. rewrite marks_app in Hm2. simpl in Hm2.
  rewrite app_nil_r in Hm2.
  rewrite (bind_Return _ _ _ _ _ H2).
  erewrite (bind_Return (emit _)); [|reflexivity].
  erewrite (bind_Return get_self); [|reflexivity].
  match goal with |- context [Qle_bool ?a ?b] => destruct (Qle_bool a b) end;
    cbn -[insert dict_display marks];
    (eexists; split; [reflexivity|]); cbn -[insert dict_display marks];
    rewrite marks_app; simpl; rewrite app_nil_r, Hm2, Hm1, <- app_assoc; reflexivity.
Qed.

Lemma transformer_fit_epoch_marks (epo : Z) (m : machine Trainer.state) :
  exists m', TransformerTrainer.fit_epoch get_lr ds cfg epo m = (Return tt, m') /\
             marks (log m') = marks (log m) ++ transformer_schedule (epoch_nums cfg) epo.
Proof.
  unfold TransformerTrainer.fit_epoch, TransformerTrainer._train_epoch,
    TransformerTrainer._save_checkpoint.
  erewrite (bind_Return (Trainer.assign _)); [|reflexivity].
  erewrite (bind_Return (Trainer.assign _)); [|reflexivity].
  match goal with
  | |- context [bind (Trainer._train_epoch ds cfg) _ ?mm] =>
      destruct (trains mm) as [r [m1 H1]];
      pose proof (train_epoch_quiet ds cfg mm) as [Hm1 He1]
  end.
  rewrite H1 in Hm1, He1. simpl in Hm1, He1.
  rewrite (bind_Return _ _ _ _ _ H1).
  erewrite (bind_Return get_self); [|reflexivity].
  destruct (rates (Trainer.optimizer (self m1))) as [lr [lrs Hlr]].
  erewrite (bind_Return (lift _)); [|unfold lift; rewrite Hlr; reflexivity].
  erewrite (bind_Return (lift _)); [|reflexivity].
  erewrite (bind_Return (emit _)); [|reflexivity].
  rewrite He1. unfold transformer_schedule, evaluation_epoch.
  destruct ((epo mod 2 =? 0) || (epo >? epoch_nums cfg - 5)).
  - match goal with
    | |- context [bind (TransformerTrainer.evaluation_point ds cfg) _ ?mm] =>
        destruct (transformer_evaluation_point_marks mm) as [m2 [H2 Hm2]]
    end.
    rewrite (bind_Return _ _ _ _ _ H2).
    simpl in Hm2. rewrite marks_app, Hm1 in Hm2. simpl in Hm2.
    destruct (epo mod 5 =? 0); cbn -[insert dict_display marks];
      (eexists; split; [reflexivity|]); cbn -[insert dict_display marks];
      rewrite Hm2, <- app_assoc; reflexivity.
  - erewrite (bind_Return (ret _)); [|reflexivity].
    destruct (epo mod 5 =? 0); cbn -[insert dict_display marks];
      (eexists; split; [reflexivity|]); cbn -[insert dict_display marks];
      rewrite marks_app, Hm1; reflexivity.
Qed.

Lemma transformer_fit_marks (m : machine Trainer.state) :
  fst (TransformerTrainer.fit get_lr ds cfg m) = Return tt /\
  marks (log (snd (TransformerTrainer.fit get_lr ds cfg m))) =
  marks (log m) ++ flat_map (transformer_schedule (epoch_nums cfg))
                     (range_from (Trainer.start_epoch (self m)) (epoch_nums cfg)).
Proof.
  unfold TransformerTrainer.fit.
  erewrite (bind_Return (Trainer.assign _)); [|reflexivity].
  erewrite (bind_Return get_self); [|reflexivity]. cbv beta.
  match goal with
  | |- context [for_each ?xs _ ?ma] =>
      destruct (for_each_marks (TransformerTrainer.fit_epoch get_lr ds cfg)
                  (transformer_schedule (epoch_nums cfg)) transformer_fit_epoch_marks xs ma)
        as [m1 [H1 Hm1]]
  end.
  rewrite H1. split; [reflexivity|exact Hm1].
Qed.
End ScheduleTransformer.

(** X14. The schedule of the transformer trainer.  When training and
    evaluating do not raise and the optimizer reports a learning rate,
    [fit] returns and logs, for each epoch in turn, the line of the epoch
    followed, on the epochs whose index is even or greater than
    [epoch_nums - 5] and on no other, by an evaluation of the training split
    and then one of the test split. *)
Theorem transformer_fit_evaluation_schedule :
  forall (B : Backend) (O : SeqOps) (get_lr : optim_state -> outcome (list Q))
         (ds : dataset) (cfg : config) (m : machine Trainer.state),
    (forall m0, exists r m', Trainer._train_epoch ds cfg m0 = (Return r, m')) ->
    (forall eval_set m0,
       exists r m', TransformerTrainer.evaluate ds cfg eval_set m0 = (Return r, m')) ->
    (forall o, exists lr lrs, get_lr o = Return (lr :: lrs)) ->
    fst (TransformerTrainer.fit get_lr ds cfg m) = Return tt /\
    marks (log (snd (TransformerTrainer.fit get_lr ds cfg m))) =
    marks (log m) ++ flat_map (transformer_schedule (epoch_nums cfg))
                       (range_from (Trainer.start_epoch (self m)) (epoch_nums cfg)).
Proof.
  intros B O get_lr ds cfg m Ht He Hr. apply transformer_fit_marks; assumption.
Qed.

Lemma transformer_fit_evaluation_schedule_witness :
  let run := @TransformerTrainer.fit (toy_backend toy_data) (toy_seq_ops toy_data) toy_get_lr
               scenario_dataset (toy_config 8) (toy_trainer toy_data) in
  fst run = Return tt /\
  marks (log (snd run)) = flat_map (transformer_schedule 8) (range_from 0 8).
Proof.
  refine (transformer_fit_evaluation_schedule (toy_backend toy_data) (toy_seq_ops toy_data)
            toy_get_lr scenario_dataset (toy_config 8) (toy_trainer toy_data) _ _ _).
  - intros m0. vm_compute. eexists. eexists. reflexivity.
  - intros eval_set m0. destruct eval_set; vm_compute; eexists; eexists; reflexivity.
  - intros o. eexists. eexists. reflexivity.
Defined.

(** ** The check-point between two saves *)

Lemma same_file_refl `{B : Backend} {T : Type} (path : string) (m : machine T) :
  same_file path m m.
Proof. reflexivity. Qed.

Lemma same_file_trans `{B : Backend} {T : Type} (path : string) (m1 m2 m3 : machine T) :
  same_file path m1 m2 -> same_file path m2 m3 -> same_file path m1 m3.
Proof. unfold same_file. congruence. Qed.

Lemma torch_save_same_file `{B : Backend} {T : Type} (path other : string)
    (obj : gmap string pyval) :
  other <> path -> preserves (@same_file B T path) (torch_save obj other).
Proof. intros Hne m. unfold same_file. simpl. apply lookup_insert_ne. exact Hne. Qed.

Ltac file_kept :=
  first
    [ match goal with
      | |- preserves (same_file _) (Trainer.assign _) => idtac
      | |- preserves (same_file _) (GTSTrainer.assign _) => idtac
      | |- preserves (same_file _) (SeqGANTrainer.assign _) => idtac
      | |- preserves (same_file _) GTSTrainer._model_train => idtac
      | |- preserves (same_file _) GTSTrainer._model_eval => idtac
      | |- preserves (same_file _) (emit _) => idtac
      | |- preserves (same_file _) elapsed => idtac
      end;
      let m := fresh "m" in intros m; reflexivity
    | match goal with
      | Hne : _ <> _ |- preserves (same_file _) (torch_save _ _) =>
          apply (torch_save_same_file _ _ _ Hne)
      end ].

Section CheckpointKept.
Context `{O : SeqOps}.
Variable ds : dataset.
Variable cfg : config.
Hypothesis apart : trained_model_path cfg <> checkpoint_path cfg.

Lemma train_epoch_same_file (path : string) :
  preserves (same_file path) (Trainer._train_epoch ds cfg).
Proof.
  unfold Trainer._train_epoch, Trainer._train_batch.
  preserve (@same_file_refl B Trainer.state path) (@same_file_trans B Trainer.state path)
    file_kept.
Qed.

Lemma evaluation_point_same_file :
  preserves (same_file (checkpoint_path cfg)) (Trainer.evaluation_point ds cfg).
Proof.
  unfold Trainer.evaluation_point, Trainer.evaluate, evaluate_loop, Trainer._save_model.
  preserve (@same_file_refl B Trainer.state (checkpoint_path cfg))
    (@same_file_trans B Trainer.state (checkpoint_path cfg)) file_kept.
Qed.

Lemma transformer_evaluation_point_same_file :
  preserves (same_file (checkpoint_path cfg)) (TransformerTrainer.evaluation_point ds cfg).
Proof.
  unfold TransformerTrainer.evaluation_point, TransformerTrainer.evaluate,
    TransformerTrainer._save_model, Trainer.evaluate, evaluate_loop, Trainer._save_model.
  preserve (@same_file_refl B Trainer.state (checkpoint_path cfg))
    (@same_file_trans B Trainer.state (checkpoint_path cfg)) file_kept.
Qed.

Lemma fit_epoch_same_file (epo : Z) :
  epo mod 5 <> 0 ->
  preserves (same_file (checkpoint_path cfg)) (Trainer.fit_epoch ds cfg epo).
Proof.
  intros Hmod. unfold Trainer.fit_epoch.
  replace (epo mod 5 =? 0) with false by (symmetry; apply Z.eqb_neq; exact Hmod).
  pose proof (train_epoch_same_file (checkpoint_path cfg)) as Htrain.
  pose proof evaluation_point_same_file as Hpoint.
  preserve (@same_file_refl B Trainer.state (checkpoint_path cfg))
    (@same_file_trans B Trainer.state (checkpoint_path cfg)) ltac:(first [file_kept|assumption]).
Qed.

Lemma transformer_fit_epoch_same_file (get_lr : optim_state -> outcome (list Q)) (epo : Z) :
  epo mod 5 <> 0 ->
  preserves (same_file (checkpoint_path cfg)) (TransformerTrainer.fit_epoch get_lr ds cfg epo).
Proof.
  intros Hmod. unfold TransformerTrainer.fit_epoch, TransformerTrainer._train_epoch.
  replace (epo mod 5 =? 0) with false by (symmetry; apply Z.eqb_neq; exact Hmod).
  pose proof (train_epoch_same_file (checkpoint_path cfg)) as Htrain.
  pose proof transformer_evaluation_point_same_file as Hpoint.
  preserve (@same_file_refl B Trainer.state (checkpoint_path cfg))
    (@same_file_trans B Trainer.state (checkpoint_path cfg)) ltac:(first [file_kept|assumption]).
Qed.
End CheckpointKept.

Section CheckpointKeptGTS.
Context `{O : GtsOps}.
Variable generate_list : list string.
Variable ds : dataset.
Variable cfg : config.
Hypothesis apart : trained_model_path cfg <> checkpoint_path cfg.

Lemma gts_train_epoch_same_file (path : string) :
  preserves (same_file path) (GTSTrainer._train_epoch generate_list ds).
Proof.
  unfold GTSTrainer._train_epoch, GTSTrainer._train_batch, GTSTrainer._optimizer_step,
    GTSTrainer._model_zero_grad.
  preserve (@same_file_refl B GTSTrainer.state path)
    (@same_file_trans B GTSTrainer.state path) file_kept.
Qed.

Lemma gts_scheduler_step_same_file (path : string) :
  preserves (same_file path) GTSTrainer._scheduler_step.
Proof.
  unfold GTSTrainer._scheduler_step.
  apply (preserves_for_each _ (same_file_refl path) (same_file_trans path)). intros r.
  apply preserves_bind_self. intros m. reflexivity.
Qed.

Lemma gts_evaluate_same_file (path : string) (eval_set : DatasetType) :
  preserves (same_file path) (GTSTrainer.evaluate generate_list ds eval_set).
Proof.
  unfold GTSTrainer.evaluate.
  apply (preserves_bind _ (same_file_trans path)); [file_kept|intros _].
  apply preserves_bind_self. intros m.
  apply (preserves_evaluate_loop (same_file path) (same_file_refl path)
           (same_file_trans path));
    intros; intros m0; reflexivity.
Qed.

Lemma gts_evaluation_point_same_file :
  preserves (same_file (checkpoint_path cfg))
    (GTSTrainer.evaluation_point generate_list ds cfg).
Proof.
  unfold GTSTrainer.evaluation_point, GTSTrainer._save_model.
  pose proof (gts_evaluate_same_file (checkpoint_path cfg)) as Heval.
  preserve (@same_file_refl B GTSTrainer.state (checkpoint_path cfg))
    (@same_file_trans B GTSTrainer.state (checkpoint_path cfg))
    ltac:(first [file_kept|apply Heval]).
Qed.

Lemma gts_fit_epoch_same_file (epo : Z) :
  epo mod 5 <> 0 ->
  preserves (same_file (checkpoint_path cfg)) (GTSTrainer.fit_epoch generate_list ds cfg epo).
Proof.
  intros Hmod. unfold GTSTrainer.fit_epoch.
  replace (epo mod 5 =? 0) with false by (symmetry; apply Z.eqb_neq; exact Hmod).
  pose proof (gts_train_epoch_same_file (checkpoint_path cfg)) as Htrain.
  pose proof (gts_scheduler_step_same_file (checkpoint_path cfg)) as Hsched.
  pose proof gts_evaluation_point_same_file as Hpoint.
  apply (preserves_bind _ (same_file_trans _)); [file_kept|intros _].
  apply (preserves_bind _ (same_file_trans _)); [file_kept|intros _].
  apply (preserves_bind _ (same_file_trans _)); [exact Htrain|intros r].
  apply (preserves_bind _ (same_file_trans _)); [exact Hsched|intros _].
  apply (preserves_bind _ (same_file_trans _));
    [apply (preserves_get_self _ (same_file_refl _))|intros t].
  apply (preserves_bind _ (same_file_trans _)); [file_kept|intros _].
  apply (preserves_bind _ (same_file_trans _)).
  - destruct ((epo mod 10 =? 0) || (epo >? epoch_nums cfg - 5)).
    + exact Hpoint.
    + apply (preserves_ret _ (same_file_refl _)).
  - intros _. apply (preserves_ret _ (same_file_refl _)).
Qed.
End CheckpointKeptGTS.

(** X17. Between two saves the check-point is not touched: an epoch whose
    index is not a multiple of 5 leaves the file at the check-point path as
    it was (or missing), whether the epoch returns or raises, provided the
    best model is saved at another path. *)
Theorem checkpoint_untouched_between_saves :
  forall (B : Backend) (ds : dataset) (cfg : config) (epo : Z),
    epo mod 5 <> 0 ->
    trained_model_path cfg <> checkpoint_path cfg ->
    (forall (O : SeqOps) (m : machine Trainer.state),
       files (snd (Trainer.fit_epoch ds cfg epo m)) !! checkpoint_path cfg
       = files m !! checkpoint_path cfg /\
       (forall get_lr,
          files (snd (TransformerTrainer.fit_epoch get_lr ds cfg epo m)) !! checkpoint_path cfg
          = files m !! checkpoint_path cfg)) /\
    (forall (O : GtsOps) (generate_list : list string) (m : machine GTSTrainer.state),
       files (snd (GTSTrainer.fit_epoch generate_list ds cfg epo m)) !! checkpoint_path cfg
       = files m !! checkpoint_path cfg).
Proof.
  intros B ds cfg epo Hmod Hne. split.
  - intros O m. split.
    + apply (fit_epoch_same_file ds cfg Hne epo Hmod m).
    + intros get_lr. apply (transformer_fit_epoch_same_file ds cfg Hne get_lr epo Hmod m).
  - intros O gl m. apply (gts_fit_epoch_same_file gl ds cfg Hne epo Hmod m).
Qed.

Lemma checkpoint_untouched_between_saves_witness :
  files (snd (@Trainer.fit_epoch (toy_backend toy_data) (toy_seq_ops toy_data)
                scenario_dataset (toy_config 8) 2 (toy_trainer toy_data))) !! "checkpoint.pth"
  = None.
Proof.
  apply (proj1 (proj1 (checkpoint_untouched_between_saves (toy_backend toy_data)
                         scenario_dataset (toy_config 8) 2 ltac:(vm_compute; discriminate)
                         ltac:(vm_compute; discriminate))
                  (toy_seq_ops toy_data) (toy_trainer toy_data))).
Defined.

(** ** The evaluation point of the transformer trainer *)

(** X15. At an evaluation point of the transformer trainer the accuracies
    recorded as the best validation accuracies are those measured on the
    training split: when the two evaluations return, the evaluation point
    returns; if the value accuracy on the training split is at least the best
    one recorded, the four best accuracies become those measured on the
    training and on the test split and the model is saved; otherwise they and
    the files stay as they were. *)
Theorem transformer_evaluation_point_records_train_split :
  forall (B : Backend) (O : SeqOps) (ds : dataset) (cfg : config)
         (m m1 m2 : machine Trainer.state)
         (train_equ_ac train_val_ac : Q) (train_total : Z) (train_time_cost : string)
         (test_equ_ac test_val_ac : Q) (test_total : Z) (test_time_cost : string),
    TransformerTrainer.evaluate ds cfg Train m
      = (Return (train_equ_ac, train_val_ac, train_total, train_time_cost), m1) ->
    TransformerTrainer.evaluate ds cfg Test
        (snd (emit (ValidLog train_total train_equ_ac train_val_ac train_time_cost) m1))
      = (Return (test_equ_ac, test_val_ac, test_total, test_time_cost), m2) ->
    let best := Trainer.best_valid_value_accuracy (self m) in
    let m' := snd (TransformerTrainer.evaluation_point ds cfg m) in
    fst (TransformerTrainer.evaluation_point ds cfg m) = Return tt /\
    ((best <= train_val_ac)%Q ->
       Trainer.best_valid_equ_accuracy (self m') = train_equ_ac /\
       Trainer.best_valid_value_accuracy (self m') = train_val_ac /\
       Trainer.best_test_equ_accuracy (self m') = test_equ_ac /\
       Trainer.best_test_value_accuracy (self m') = test_val_ac /\
       files m' = <[trained_model_path cfg :=
                     dict_display [("model", PyModel (Trainer.model (self m)))]]> (files m)) /\
    (~ (best <= train_val_ac)%Q ->
       Trainer.best_valid_equ_accuracy (self m') = Trainer.best_valid_equ_accuracy (self m) /\
       Trainer.best_valid_value_accuracy (self m')
         = Trainer.best_valid_value_accuracy (self m) /\
       Trainer.best_test_equ_accuracy (self m') = Trainer.best_test_equ_accuracy (self m) /\
       Trainer.best_test_value_accuracy (self m')
         = Trainer.best_test_value_accuracy (self m) /\
       files m' = files m).
Proof.
  intros B O ds cfg m m1 m2 ve vv vt vc te tv tt' tc Hv Ht. cbv zeta.
  unfold TransformerTrainer.evaluate in Hv, Ht.
  pose proof (evaluate_kept ds cfg Train m) as [Hs1 Hf1]. rewrite Hv in Hs1, Hf1.
  pose proof (evaluate_kept ds cfg Test (snd (emit (ValidLog vt ve vv vc) m1))) as [Hs2 Hf2].
  rewrite Ht in Hs2, Hf2. simpl in Hs1, Hf1, Hs2, Hf2.
  rewrite Hs1 in Hs2. rewrite Hf1 in Hf2. clear Hs1 Hf1.
  pose proof (f_equal Trainer.model Hs2) as Hmodel.
  pose proof (f_equal Trainer.best_valid_equ_accuracy Hs2) as Hve.
  pose proof (f_equal Trainer.best_valid_value_accuracy Hs2) as Hvv.
  pose proof (f_equal Trainer.best_test_equ_accuracy Hs2) as Hte.
  pose proof (f_equal Trainer.best_test_value_accuracy Hs2) as Htv.
  simpl in Hmodel, Hve, Hvv, Hte, Htv.
  unfold TransformerTrainer.evaluation_point, TransformerTrainer.evaluate,
    TransformerTrainer._save_model.
  rewrite (bind_Return _ _ _ _ _ Hv).
  erewrite (bind_Return (emit _)); [|reflexivity].
  rewrite (bind_Return _ _ _ _ _ Ht).
  cbn -[Qle_bool dict_display insert].
  rewrite Hvv.
  destruct (Qle_bool (Trainer.best_valid_value_accuracy (self m)) vv) eqn:Hle;
    cbn -[Qle_bool dict_display insert].
  - split; [reflexivity|]. split.
    + intros _. rewrite Hmodel, Hf2. repeat split; reflexivity.
    + intros Hn. exfalso. apply Hn. apply Qle_bool_iff. exact Hle.
  - split; [reflexivity|]. split.
    + intros Hq. apply Qle_bool_iff in Hq. congruence.
    + intros _. repeat split; assumption.
Qed.

Lemma transformer_evaluation_point_records_train_split_witness :
  let m := toy_trainer toy_data in
  let m' := snd (TransformerTrainer.evaluation_point scenario_dataset (toy_config 3) m) in
  fst (TransformerTrainer.evaluation_point scenario_dataset (toy_config 3) m) = Return tt /\
  ((0 <= 1)%Q ->
     Trainer.best_valid_equ_accuracy (self m') = 1%Q /\
     Trainer.best_valid_value_accuracy (self m') = 1%Q /\
     Trainer.best_test_equ_accuracy (self m') = 1%Q /\
     Trainer.best_test_value_accuracy (self m') = 1%Q /\
     files m' = <["trained_model.pth" :=
                   @dict_display (toy_backend toy_data)
                     [("model", @PyModel (toy_backend toy_data) 0%nat)]]> ∅) /\
  (~ (0 <= 1)%Q ->
     Trainer.best_valid_equ_accuracy (self m') = 0%Q /\
     Trainer.best_valid_value_accuracy (self m') = 0%Q /\
     Trainer.best_test_equ_accuracy (self m') = 0%Q /\
     Trainer.best_test_value_accuracy (self m') = 0%Q /\
     files m' = ∅).
Proof.
  pose (ev := @TransformerTrainer.evaluate (toy_backend toy_data) (toy_seq_ops toy_data)
                scenario_dataset (toy_config 3)).
  pose (m1 := snd (ev Train (toy_trainer toy_data))).
  pose (m2 := snd (ev Test (snd (emit (ValidLog 1 1 1 "0s") m1)))).
  apply (transformer_evaluation_point_records_train_split (toy_backend toy_data)
           (toy_seq_ops toy_data) scenario_dataset (toy_config 3) (toy_trainer toy_data) m1 m2
           1%Q 1%Q 1 "0s" 1%Q 1%Q 1 "0s"); vm_compute; reflexivity.
Defined.

(** ** What the adversarial trainer writes *)



Lemma range_from_empty (start stop : Z) : stop <= start -> range_from start stop = [].
Proof.
  intros H. unfold range_from.
  replace (Z.to_nat (stop - start)) with 0%nat by lia. reflexivity.
Qed.

Section WritesNothing.
Context `{O : GanOps}.
Variable cfg : config.
Variable path : string.





End WritesNothing.



(** ** Constructors that resume *)

(** X10. The tree-decoder and the adversarial trainer cannot be resumed
    from a check-point of their own: with [resume] enabled, the constructor
    raises [KeyError] on the file that their [_save_checkpoint] wrote. *)
Theorem own_checkpoint_cannot_be_resumed :
  forall (B : Backend) (cfg : config),
    resume cfg = true ->
    (forall (O : GtsOps) (m : machine GTSTrainer.state) (w : weights) (model : gts_module)
            (l : loss_state) (t0 : GTSTrainer.state),
       fst (GTSTrainer.__init__ cfg w model l
              (resuming t0 (snd (GTSTrainer._save_checkpoint cfg m))))
       = Raise (KeyError "embedding_scheduler")) /\
    (forall (O : GanOps) (ds : dataset) (PAD_TOKEN : string)
            (m : machine SeqGANTrainer.state) (w : weights) (g d : optim_state)
            (nll binary : loss_state) (t0 : SeqGANTrainer.state),
       fst (SeqGANTrainer.__init__ cfg ds PAD_TOKEN w g d nll binary
              (resuming t0 (snd (SeqGANTrainer._save_checkpoint cfg m))))
       = Raise (KeyError "start_epoch")).
Proof.
  intros B cfg Hres. split.
  - intros O m w model l t0. unfold GTSTrainer.__init__. rewrite Hres.
    erewrite (bind_Return (put_self _)); [|reflexivity].
    apply (gts_load_checkpoint_raises cfg m (GTSTrainer.init cfg w model l)).
  - intros O ds PAD_TOKEN m w g d nll binary t0. unfold SeqGANTrainer.__init__. rewrite Hres.
    erewrite (bind_Return (put_self _)); [|reflexivity].
    apply bind_fst_Raise.
    apply (gan_load_checkpoint_raises cfg m (SeqGANTrainer.init w g d nll binary)).
Qed.

Lemma own_checkpoint_cannot_be_resumed_witness :
  (let m := toy_gts_trainer toy_data (toy_resume_config 3) in
   fst (@GTSTrainer.__init__ (toy_backend toy_data) (toy_gts_ops toy_data)
          (toy_resume_config 3) 0%nat toy_gts_module 0%Q
          (resuming (self m) (snd (GTSTrainer._save_checkpoint (toy_resume_config 3) m))))
   = Raise (KeyError "embedding_scheduler")) /\
  (let m := toy_gan_trainer toy_data in
   fst (@SeqGANTrainer.__init__ (toy_backend toy_data) (toy_resume_config 3)
          padded_dataset "<PAD>" 0%nat 0%nat 0%nat 0%Q 0%Q
          (resuming (self m) (snd (SeqGANTrainer._save_checkpoint (toy_resume_config 3) m))))
   = Raise (KeyError "start_epoch")).
Proof.
  split.
  - apply (proj1 (own_checkpoint_cannot_be_resumed (toy_backend toy_data)
                    (toy_resume_config 3) eq_refl) (toy_gts_ops toy_data)).
  - apply (proj2 (own_checkpoint_cannot_be_resumed (toy_backend toy_data)
                    (toy_resume_config 3) eq_refl) (toy_gan_ops toy_data)).
Defined.

(** X11. With [resume] enabled and no check-point file, every constructor
    raises [FileNotFoundError] for the check-point path. *)
Theorem resume_without_checkpoint :
  forall (B : Backend) (cfg : config),
    resume cfg = true ->
    (forall (ds : dataset) (PAD_TOKEN : string) (m : machine Trainer.state) (w : weights)
            (o : optim_state) (l : loss_state),
       files m !! checkpoint_path cfg = None ->
       fst (Trainer.__init__ ds cfg PAD_TOKEN w o l m)
       = Raise (FileNotFoundError (checkpoint_path cfg))) /\
    (forall (O : GtsOps) (m : machine GTSTrainer.state) (w : weights) (model : gts_module)
            (l : loss_state),
       files m !! checkpoint_path cfg = None ->
       fst (GTSTrainer.__init__ cfg w model l m)
       = Raise (FileNotFoundError (checkpoint_path cfg))) /\
    (forall (ds : dataset) (PAD_TOKEN : string) (m : machine SeqGANTrainer.state)
            (w : weights) (g d : optim_state) (nll binary : loss_state),
       files m !! checkpoint_path cfg = None ->
       fst (SeqGANTrainer.__init__ cfg ds PAD_TOKEN w g d nll binary m)
       = Raise (FileNotFoundError (checkpoint_path cfg))).
Proof.
  intros B cfg Hres. split; [|split].
  - intros ds PAD_TOKEN m w o l Hf. unfold Trainer.__init__. rewrite Hres.
    erewrite (bind_Return (put_self _)); [|reflexivity].
    apply bind_fst_Raise.
    unfold Trainer._load_checkpoint. apply bind_fst_Raise.
    unfold torch_load. simpl. rewrite Hf. reflexivity.
  - intros O m w model l Hf. unfold GTSTrainer.__init__. rewrite Hres.
    erewrite (bind_Return (put_self _)); [|reflexivity].
    unfold GTSTrainer._load_checkpoint. apply bind_fst_Raise.
    unfold torch_load. simpl. rewrite Hf. reflexivity.
  - intros ds PAD_TOKEN m w g d nll binary Hf. unfold SeqGANTrainer.__init__. rewrite Hres.
    erewrite (bind_Return (put_self _)); [|reflexivity].
    apply bind_fst_Raise.
    unfold SeqGANTrainer._load_checkpoint. apply bind_fst_Raise.
    unfold torch_load. simpl. rewrite Hf. reflexivity.
Qed.

Lemma resume_without_checkpoint_witness :
  fst (@Trainer.__init__ (toy_backend toy_data) padded_dataset (toy_resume_config 3) "<PAD>"
         0%nat 0%nat 0%Q (toy_trainer toy_data))
  = Raise (FileNotFoundError "checkpoint.pth").
Proof.
  apply (proj1 (resume_without_checkpoint (toy_backend toy_data) (toy_resume_config 3)
                  eq_refl)).
  reflexivity.
Defined.

(** ** A run with no epoch left *)

(** X19. With no epoch left (the start epoch is not below [epoch_nums]),
    [fit] trains nothing: it sets [train_batch_nums] and leaves the rest of
    the trainer, the files, the log and the clock as they were.  The
    tree-decoder and the transformer trainer then return, [Trainer.fit]
    raises at its summary line. *)
Theorem fit_without_epochs_left :
  forall (B : Backend) (ds : dataset) (cfg : config),
    (forall (O : SeqOps) (m : machine Trainer.state),
       epoch_nums cfg <= Trainer.start_epoch (self m) ->
       let m' := {| self := Trainer.with_train_batch_nums (train_batch_nums_of cfg) (self m);
                    files := files m; log := log m; clock := clock m |} in
       Trainer.fit ds cfg m = (Raise (AttributeError "best_test_equ_accuracyself"), m') /\
       (forall get_lr, TransformerTrainer.fit get_lr ds cfg m = (Return tt, m'))) /\
    (forall (O : GtsOps) (generate_list : list string) (m : machine GTSTrainer.state),
       epoch_nums cfg <= GTSTrainer.start_epoch (self m) ->
       GTSTrainer.fit generate_list ds cfg m
       = (Return tt,
          {| self := GTSTrainer.with_train_batch_nums (train_batch_nums_of cfg) (self m);
             files := files m; log := log m; clock := clock m |})).
Proof.
  intros B ds cfg. split.
  - intros O m Hdone. cbv zeta. split.
    + unfold Trainer.fit.
      erewrite (bind_Return (Trainer.assign _)); [|reflexivity].
      erewrite (bind_Return get_self); [|reflexivity].
      cbn [self Trainer.start_epoch Trainer.with_train_batch_nums].
      rewrite (range_from_empty _ _ Hdone). cbn [for_each].
      erewrite (bind_Return (ret _)); [|reflexivity].
      apply summary_raises.
    + intros get_lr. unfold TransformerTrainer.fit.
      erewrite (bind_Return (Trainer.assign _)); [|reflexivity].
      erewrite (bind_Return get_self); [|reflexivity].
      cbn [self Trainer.start_epoch Trainer.with_train_batch_nums].
      rewrite (range_from_empty _ _ Hdone). reflexivity.
  - intros O gl m Hdone. unfold GTSTrainer.fit.
    erewrite (bind_Return (GTSTrainer.assign _)); [|reflexivity].
    erewrite (bind_Return get_self); [|reflexivity].
    cbn [self GTSTrainer.start_epoch GTSTrainer.with_train_batch_nums].
    rewrite (range_from_empty _ _ Hdone). reflexivity.
Qed.

Lemma fit_without_epochs_left_witness :
  let m := toy_gts_trainer toy_data (toy_config 0) in
  @GTSTrainer.fit (toy_backend toy_data) (toy_gts_ops toy_data) [] scenario_dataset
    (toy_config 0) m
  = (Return tt,
     {| self := GTSTrainer.with_train_batch_nums 3 (self m);
        files := files m; log := log m; clock := clock m |}).
Proof.
  apply (proj2 (fit_without_epochs_left (toy_backend toy_data) scenario_dataset (toy_config 0))
           (toy_gts_ops toy_data) [] (toy_gts_trainer toy_data (toy_config 0))).
  simpl. lia.
Defined.
